(** * IronLog Logs API: a shallow embedding of [app.py]

    The service keeps one JSON document per calendar date in a cloud-storage
    folder, plus a manifest [index.json] listing the known logs by date.
    This file embeds the validation schemas, the storage helpers and the
    HTTP handlers of [app.py] as Rocq functions over an explicit folder
    state, and proves properties of them.

    Conventions of the embedding.
    - A Python [str] is a [string]; its characters are read as the code
      points U+0000..U+00FF. [str] comparison is comparison of code point
      sequences, which is [String.compare].
    - The folder is the list of the files a [files.list] call answers, in
      the order of that answer; a file's id is its position in the list.
      A query [name = '...'] selects the files of exactly that name, a
      query [mimeType = 'application/json'] the files flagged as JSON.
    - Every file holds a JSON dictionary with the keys this service
      writes; a key that is absent or [null] is [None].
    - [uuid.uuid4()], [datetime.now()] and the SHA-256 digest are inputs of
      the functions that use them.
    - Handlers return a [response]; a raised [HTTPException] is the
      [HTTPError] case, a schema rejection is [Unprocessable] (422), and an
      exception nobody catches is [Unhandled]. *)

From Stdlib Require Import ZArith NArith Lia Bool Ascii String.
From stdpp Require Import base list sorting.

Local Open Scope string_scope.
Local Open Scope Z_scope.

(** ** Characters and strings *)

Definition code (c : ascii) : N := N_of_ascii c.

(** [str.isspace] on a code point below 256. *)
Definition is_space (c : ascii) : bool :=
  let n := code c in
  ((9 <=? n) && (n <=? 13) || (28 <=? n) && (n <=? 32)
   || (n =? 133) || (n =? 160))%N.

(** [str.lower] on a code point below 256. *)
Definition is_upper (c : ascii) : bool :=
  let n := code c in
  ((65 <=? n) && (n <=? 90)
   || (192 <=? n) && (n <=? 222) && negb (n =? 215))%N.

Definition lower_char (c : ascii) : ascii :=
  if is_upper c then ascii_of_N (code c + 32) else c.

Fixpoint lower (s : string) : string :=
  match s with
  | EmptyString => EmptyString
  | String c r => String (lower_char c) (lower r)
  end.

Fixpoint lstrip (s : string) : string :=
  match s with
  | EmptyString => EmptyString
  | String c r => if is_space c then lstrip r else s
  end.

Fixpoint rstrip (s : string) : string :=
  match s with
  | EmptyString => EmptyString
  | String c r =>
      match rstrip r with
      | EmptyString => if is_space c then EmptyString else String c EmptyString
      | r' => String c r'
      end
  end.

(** [s.strip()] *)
Definition strip (s : string) : string := rstrip (lstrip s).

(** [s.strip().lower()], the normalisation used all over [app.py]. *)
Definition norm (s : string) : string := lower (strip s).

(** [name.endswith(suffix)] *)
Fixpoint endswith (s suffix : string) : bool :=
  (s =? suffix)%string
  || match s with
     | EmptyString => false
     | String _ r => endswith r suffix
     end.

(** [name[:-5]]: all but the last five characters. *)
Definition drop_last5 (s : string) : string :=
  substring 0 (String.length s - 5) s.

(** Python's [a < b] and [a <= b] on [str]. *)
Definition str_lt (a b : string) : Prop := String.ltb a b = true.
Definition str_le (a b : string) : Prop := String.leb a b = true.

(** ** Python floats, as far as the validators look at them *)

Inductive pyfloat : Type :=
| FNaN
| FInf (negative : bool)
| FNum (mantissa exponent : Z).   (* mantissa * 2 ^ exponent *)

(** [v < 0] on a float. *)
Definition float_neg (v : pyfloat) : bool :=
  match v with
  | FNaN => false
  | FInf negative => negative
  | FNum m _ => m <? 0
  end.

(** ** Schemas *)

(** [class Set(BaseModel)] *)
Record WSet : Type := { reps : Z; weight : pyfloat }.

(** [class Exercise(BaseModel)] *)
Record Exercise : Type := {
  name : string;
  sets : list WSet;
  target_muscles : option (list string)
}.

(** [class WorkoutLog(BaseModel)], after validation. *)
Record WorkoutLog : Type := {
  schema_version : Z;
  date : string;
  workout_type : option string;
  exercises : list Exercise;
  notes : option string;
  session_id : string
}.

(** The body of [POST /logs] after type coercion and before the field
    validators: [schema_version] and [session_id] may be left out. *)
Record WorkoutLogIn : Type := {
  in_schema_version : option Z;
  in_date : string;
  in_workout_type : option string;
  in_exercises : list Exercise;
  in_notes : option string;
  in_session_id : option string
}.

(** *** Field validators: [None] is the raised [ValueError]. *)

Definition reps_positive (v : Z) : option Z :=
  if v <? 1 then None else Some v.

Definition weight_nonneg (v : pyfloat) : option pyfloat :=
  if float_neg v then None else Some v.

Definition name_nonempty (v : string) : option string :=
  match strip v with
  | EmptyString => None
  | _ => Some v
  end.

Definition nonblank (m : string) : bool :=
  match strip m with EmptyString => false | _ => true end.

Definition muscles_norm (v : option (list string)) : option (list string) :=
  match v with
  | None => None
  | Some l => Some (map norm (List.filter nonblank l))
  end.

(** *** [datetime.strptime(v, "%Y-%m-%d")]

    [_strptime] turns the format into the regular expression
    [(?P<Y>\d\d\d\d)-(?P<m>1[0-2]|0[1-9]|[1-9])-(?P<d>3[0-1]|[1-2]\d|0[1-9]|[1-9]| [1-9])],
    matches it at the start of the string, refuses unconverted trailing
    data, and builds a [datetime.date] from the three numbers. *)

Definition is_digit (c : ascii) : bool := ((48 <=? code c) && (code c <=? 57))%N.
Definition digit_val (c : ascii) : Z := Z.of_N (code c) - 48.
Definition in_range (lo hi : Z) (c : ascii) : bool :=
  is_digit c && (lo <=? digit_val c) && (digit_val c <=? hi).

(** The ways group [m] can match a prefix, in the order the alternatives
    are tried: the value read and the rest of the string. *)
Definition match_m (s : string) : list (Z * string) :=
  match s with
  | String "1" (String b r) => if in_range 0 2 b then [(10 + digit_val b, r)] else []
  | _ => []
  end ++
  match s with
  | String "0" (String b r) => if in_range 1 9 b then [(digit_val b, r)] else []
  | _ => []
  end ++
  match s with
  | String a r => if in_range 1 9 a then [(digit_val a, r)] else []
  | _ => []
  end.

Definition match_d (s : string) : list (Z * string) :=
  match s with
  | String "3" (String b r) => if in_range 0 1 b then [(30 + digit_val b, r)] else []
  | _ => []
  end ++
  match s with
  | String a (String b r) =>
      if in_range 1 2 a && is_digit b then [(10 * digit_val a + digit_val b, r)] else []
  | _ => []
  end ++
  match s with
  | String "0" (String b r) => if in_range 1 9 b then [(digit_val b, r)] else []
  | _ => []
  end ++
  match s with
  | String a r => if in_range 1 9 a then [(digit_val a, r)] else []
  | _ => []
  end ++
  match s with
  | String " " (String b r) => if in_range 1 9 b then [(digit_val b, r)] else []
  | _ => []
  end.

(** After group [m]: the literal [-], then the first way group [d] matches. *)
Definition match_tail (r : string) : option (Z * string) :=
  match r with
  | String "-" r' => head (match_d r')
  | _ => None
  end.

(** First alternative of [m] after which the rest of the pattern matches. *)
Fixpoint match_md (alts : list (Z * string)) : option (Z * Z * string) :=
  match alts with
  | [] => None
  | (m, r) :: alts' =>
      match match_tail r with
      | Some (d, rest) => Some (m, d, rest)
      | None => match_md alts'
      end
  end.

(** [format_regex.match(data_string)]: year, month, day and what is left. *)
Definition regex_match (s : string) : option (Z * Z * Z * string) :=
  match s with
  | String y1 (String y2 (String y3 (String y4 (String "-" r)))) =>
      if is_digit y1 && is_digit y2 && is_digit y3 && is_digit y4 then
        match match_md (match_m r) with
        | Some (m, d, rest) =>
            Some (1000 * digit_val y1 + 100 * digit_val y2
                  + 10 * digit_val y3 + digit_val y4, m, d, rest)
        | None => None
        end
      else None
  | _ => None
  end.

Definition is_leap (y : Z) : bool :=
  (y mod 4 =? 0) && (negb (y mod 100 =? 0) || (y mod 400 =? 0)).

Definition days_in_month (y m : Z) : Z :=
  if m =? 2 then (if is_leap y then 29 else 28)
  else if (m =? 4) || (m =? 6) || (m =? 9) || (m =? 11) then 30
  else 31.

(** [datetime.date(year, month, day)] raises [ValueError] outside this. *)
Definition valid_ymd (y m d : Z) : bool :=
  (1 <=? y) && (y <=? 9999) && (1 <=? m) && (m <=? 12)
  && (1 <=? d) && (d <=? days_in_month y m).

Definition strptime_ymd (s : string) : option (Z * Z * Z) :=
  match regex_match s with
  | Some (y, m, d, rest) =>
      match rest with
      | EmptyString => if valid_ymd y m d then Some (y, m, d) else None
      | _ => None                       (* unconverted data remains *)
      end
  | None => None
  end.

Definition date_iso (v : string) : option string :=
  match strptime_ymd v with
  | Some _ => Some v
  | None => None                        (* "date must be YYYY-MM-DD" *)
  end.

Definition allowed : list string := ["push"; "pull"; "legs"].

Definition str_in (x : string) (l : list string) : bool :=
  existsb (String.eqb x) l.

Definition workout_type_enum (v : option string) : option (option string) :=
  match v with
  | None => Some None
  | Some w =>
      let vv := norm w in
      if str_in vv allowed then Some (Some vv) else None
  end.

(** Truth value of a list: non-empty. *)
Definition truthy {A : Type} (l : list A) : bool :=
  match l with [] => false | _ => true end.

Definition at_least_one_set (v : list Exercise) : option (list Exercise) :=
  if negb (truthy v) || negb (existsb (fun e => truthy (sets e)) v)
  then None else Some v.

(** *** Model validation: every field validator has to pass. *)

Definition validate_Set (s : WSet) : option WSet :=
  match reps_positive (reps s), weight_nonneg (weight s) with
  | Some r, Some w => Some {| reps := r; weight := w |}
  | _, _ => None
  end.

Fixpoint validate_list {A B : Type} (f : A -> option B) (l : list A)
  : option (list B) :=
  match l with
  | [] => Some []
  | x :: r =>
      match f x, validate_list f r with
      | Some y, Some r' => Some (y :: r')
      | _, _ => None
      end
  end.

Definition validate_Exercise (e : Exercise) : option Exercise :=
  match name_nonempty (name e), validate_list validate_Set (sets e) with
  | Some n, Some ss =>
      Some {| name := n; sets := ss;
              target_muscles := muscles_norm (target_muscles e) |}
  | _, _ => None
  end.

(** [fresh] is what [uuid.uuid4()] answers when [session_id] is left out. *)
Definition validate_WorkoutLog (fresh : string) (i : WorkoutLogIn)
  : option WorkoutLog :=
  match date_iso (in_date i),
        workout_type_enum (in_workout_type i),
        validate_list validate_Exercise (in_exercises i) with
  | Some d, Some wt, Some exs =>
      match at_least_one_set exs with
      | Some exs' =>
          Some {| schema_version := default 2 (in_schema_version i);
                  date := d;
                  workout_type := wt;
                  exercises := exs';
                  notes := in_notes i;
                  session_id := default fresh (in_session_id i) |}
      | None => None
      end
  | _, _, _ => None
  end.

(** ** JSON documents kept in the folder *)

(** One manifest entry: the dictionary [save_log] hands to
    [_upsert_manifest]. A rebuilt entry has only [date] and [file]. *)
Record Entry : Type := {
  e_date : string;
  e_file : string;
  e_hash : option string;
  e_created_at : option string;
  e_schema_version : option Z;
  e_session_id : option string;
  e_workout_type : option string
}.

(** A dictionary read from a file: a dumped log, the manifest, or a
    mixture of their keys. *)
Record JsonDoc : Type := {
  d_schema_version : option Z;
  d_date : option string;
  d_workout_type : option string;
  d_exercises : option (list Exercise);
  d_notes : option string;
  d_session_id : option string;
  d_entries : option (list Entry)
}.

(** [{}] *)
Definition empty_doc : JsonDoc :=
  {| d_schema_version := None; d_date := None; d_workout_type := None;
     d_exercises := None; d_notes := None; d_session_id := None;
     d_entries := None |}.

(** [log.model_dump()] *)
Definition model_dump (l : WorkoutLog) : JsonDoc :=
  {| d_schema_version := Some (schema_version l);
     d_date := Some (date l);
     d_workout_type := workout_type l;
     d_exercises := Some (exercises l);
     d_notes := notes l;
     d_session_id := Some (session_id l);
     d_entries := None |}.

(** [manifest["entries"] = es] *)
Definition set_entries (es : list Entry) (m : JsonDoc) : JsonDoc :=
  {| d_schema_version := d_schema_version m; d_date := d_date m;
     d_workout_type := d_workout_type m; d_exercises := d_exercises m;
     d_notes := d_notes m; d_session_id := d_session_id m;
     d_entries := Some es |}.

(** [{"schema_version": 2, "entries": []}] *)
Definition new_manifest : JsonDoc :=
  {| d_schema_version := Some 2; d_date := None; d_workout_type := None;
     d_exercises := None; d_notes := None; d_session_id := None;
     d_entries := Some [] |}.

(** ** The storage folder *)

Record DriveFile : Type := {
  f_name : string;
  f_json : bool;              (* mimeType = 'application/json' *)
  f_content : JsonDoc
}.

Abbreviation Drive := (list DriveFile).

(** What [files.list] answers per file: [files(id, name, ...)]. *)
Record FileMeta : Type := { fid : nat; fname : string }.

(** [DRIVE.files().list(q=...)]: the files satisfying the query, from
    position [i] on. *)
Fixpoint files_from (i : nat) (q : DriveFile -> bool) (st : list DriveFile)
  : list FileMeta :=
  match st with
  | [] => []
  | f :: r =>
      ((if q f then [{| fid := i; fname := f_name f |}] else [])
       ++ files_from (S i) q r)%list
  end.

Definition files_list (q : DriveFile -> bool) (st : Drive) : list FileMeta :=
  files_from 0 q st.

Definition _find_file_by_name_in_folder (nm : string) (st : Drive)
  : option FileMeta :=
  head (files_list (fun f => (f_name f =? nm)%string) st).

Definition _list_json_files_in_folder (st : Drive) : list FileMeta :=
  files_list f_json st.

Definition _create_json_file (nm : string) (data : JsonDoc) (st : Drive)
  : Drive :=
  (st ++ [{| f_name := nm; f_json := true; f_content := data |}])%list.

Definition set_content (data : JsonDoc) (f : DriveFile) : DriveFile :=
  {| f_name := f_name f; f_json := f_json f; f_content := data |}.

(** [None]: no file has this id, the storage call raises. *)
Definition _update_json_file (i : nat) (data : JsonDoc) (st : Drive)
  : option Drive :=
  match st !! i with
  | Some f => Some (<[i := set_content data f]> st)
  | None => None
  end.

Definition _read_json_file (i : nat) (st : Drive) : option JsonDoc :=
  match st !! i with
  | Some f => Some (f_content f)
  | None => None
  end.

(** ** Sorting and the dictionary keyed by date *)

(** [sorted(entries, key=lambda e: e["date"])]: a stable sort, here by
    insertion. An element goes in front of the first one whose key is not
    smaller, so that equal keys keep their order. *)
Fixpoint insert_by_date (x : Entry) (l : list Entry) : list Entry :=
  match l with
  | [] => [x]
  | y :: r =>
      if String.leb (e_date x) (e_date y) then x :: y :: r
      else y :: insert_by_date x r
  end.

Fixpoint sort_by_date (l : list Entry) : list Entry :=
  match l with
  | [] => []
  | x :: r => insert_by_date x (sort_by_date r)
  end.

(** A [dict] keeps its keys in insertion order; assigning to a key that is
    present keeps its place. *)
Fixpoint dict_set (k : string) (v : Entry) (d : list (string * Entry))
  : list (string * Entry) :=
  match d with
  | [] => [(k, v)]
  | (k', v') :: r =>
      if (k' =? k)%string then (k', v) :: r else (k', v') :: dict_set k v r
  end.

(** [{e["date"]: e for e in entries}] *)
Definition dict_by_date (es : list Entry) : list (string * Entry) :=
  fold_left (fun d e => dict_set (e_date e) e d) es [].

Definition dict_values (d : list (string * Entry)) : list Entry := map snd d.

Definition dict_get (k : string) (d : list (string * Entry)) : option Entry :=
  snd <$> List.find (fun kv => (fst kv =? k)%string) d.

(** ** Manifest *)

Definition index_name : string := "index.json".

Definition entry_of_name (nm : string) : Entry :=
  {| e_date := drop_last5 nm; e_file := nm; e_hash := None;
     e_created_at := None; e_schema_version := None;
     e_session_id := None; e_workout_type := None |}.

(** The loop of [_load_manifest_entries] over the listed files. *)
Fixpoint rebuild_entries (files : list FileMeta) : list Entry :=
  match files with
  | [] => []
  | f :: r =>
      if (fname f =? index_name)%string then rebuild_entries r
      else if endswith (fname f) ".json"
           then entry_of_name (fname f) :: rebuild_entries r
           else rebuild_entries r
  end.

Definition _load_manifest_entries (st : Drive) : option (list Entry) :=
  match _find_file_by_name_in_folder index_name st with
  | Some idx =>
      match _read_json_file (fid idx) st with
      | Some manifest => Some (sort_by_date (default [] (d_entries manifest)))
      | None => None
      end
  | None => Some (sort_by_date (rebuild_entries (_list_json_files_in_folder st)))
  end.

Definition upserted (entry : Entry) (manifest : JsonDoc) : JsonDoc :=
  let by_date := dict_by_date (default [] (d_entries manifest)) in
  let by_date := dict_set (e_date entry) entry by_date in
  set_entries (sort_by_date (dict_values by_date)) manifest.

Definition _upsert_manifest (entry : Entry) (st : Drive) : option Drive :=
  match _find_file_by_name_in_folder index_name st with
  | Some existing =>
      match _read_json_file (fid existing) st with
      | Some manifest => _update_json_file (fid existing) (upserted entry manifest) st
      | None => None
      end
  | None => Some (_create_json_file index_name (upserted entry new_manifest) st)
  end.

(** ** HTTP handlers *)

Inductive response (A : Type) : Type :=
| OK (body : A)
| HTTPError (status : Z) (detail : string)
| Unprocessable                      (* 422 from request validation *)
| Unhandled.                         (* an exception nobody catches *)

Arguments OK {A} body.
Arguments HTTPError {A} status detail.
Arguments Unprocessable {A}.
Arguments Unhandled {A}.

Record SaveBody : Type := { ok : bool; file : string; sha256 : string }.
Record LogBody : Type := { meta : Entry; log : JsonDoc }.
Record MuscleBody : Type := {
  m_meta : Entry; m_log : JsonDoc; matched_exercise : string
}.

(** [if before: entries = [e for e in entries if e["date"] < before]] *)
Definition before_cutoff (before : option string) (entries : list Entry)
  : list Entry :=
  match before with
  | None | Some EmptyString => entries
  | Some b => List.filter (fun e => String.ltb (e_date e) b) entries
  end.

(** [(x or "").strip().lower()] *)
Definition wt_norm (x : option string) : string := norm (default "" x).

(** [any((ex.get("target_muscles") or []) for ex in data.get("exercises", []))] *)
Definition any_muscles (data : JsonDoc) : bool :=
  existsb (fun ex => truthy (default [] (target_muscles ex)))
          (default [] (d_exercises data)).

(** [pattern="^(push|pull|legs)$"] *)
Definition type_pattern (s : string) : bool := str_in s allowed.

(** [pattern=r"^\d{4}-\d{2}-\d{2}$"] *)
Definition date_pattern (s : string) : bool :=
  match s with
  | String a (String b (String c (String d (String "-"
    (String e (String f (String "-" (String g (String h EmptyString))))))))) =>
      is_digit a && is_digit b && is_digit c && is_digit d
      && is_digit e && is_digit f && is_digit g && is_digit h
  | _ => false
  end.

Section Handlers.

(** The configured secret and the digest
    [hashlib.sha256(json.dumps(payload, ...).encode()).hexdigest()]. *)
Variable API_KEY : string.
Variable sha256_hex : JsonDoc -> string.

Definition require_auth (authorization : string) : bool :=
  (authorization =? "Bearer " ++ API_KEY)%string.

Definition manifest_entry (l : WorkoutLog) (filename sha now : string)
  : Entry :=
  {| e_date := date l; e_file := filename; e_hash := Some sha;
     e_created_at := Some now;
     e_schema_version := Some (schema_version l);
     e_session_id := Some (session_id l);
     e_workout_type := workout_type l |}.

(** [POST /logs], once the body has passed the schema. [now] is
    [datetime.now(timezone.utc).isoformat()]. The folder is returned as
    it stands when the handler ends or fails. *)
Definition save_log (l : WorkoutLog) (authorization now : string)
  (st : Drive) : response SaveBody * Drive :=
  if negb (require_auth authorization) then (HTTPError 401 "Unauthorized", st)
  else
    let filename := (date l ++ ".json")%string in
    let payload := model_dump l in
    let sha := sha256_hex payload in
    let written :=
      match _find_file_by_name_in_folder filename st with
      | Some existing => _update_json_file (fid existing) payload st
      | None => Some (_create_json_file filename payload st)
      end in
    match written with
    | None => (Unhandled, st)
    | Some st1 =>
        match _upsert_manifest (manifest_entry l filename sha now) st1 with
        | None => (Unhandled, st1)
        | Some st2 =>
            (OK {| ok := true; file := filename; sha256 := sha |}, st2)
        end
    end.

(** The whole of [POST /logs]: the body is validated first. *)
Definition post_logs (fresh : string) (body : WorkoutLogIn)
  (authorization now : string) (st : Drive) : response SaveBody * Drive :=
  match validate_WorkoutLog fresh body with
  | None => (Unprocessable, st)
  | Some l => save_log l authorization now st
  end.

(** [GET /logs/index] *)
Definition list_logs (authorization : string) (st : Drive)
  : response (list Entry) :=
  if negb (require_auth authorization) then HTTPError 401 "Unauthorized"
  else match _load_manifest_entries st with
       | Some entries => OK entries
       | None => Unhandled
       end.

(** [GET /logs/latest] *)
Definition latest_log (authorization : string) (before : option string)
  (st : Drive) : response LogBody :=
  if negb (require_auth authorization) then HTTPError 401 "Unauthorized"
  else
    match _load_manifest_entries st with
    | None => Unhandled
    | Some entries =>
        let entries := before_cutoff before entries in
        match last entries with
        | None => HTTPError 404 "No logs found"
        | Some latest =>
            match _find_file_by_name_in_folder (e_file latest) st with
            | Some f =>
                match _read_json_file (fid f) st with
                | Some data => OK {| meta := latest; log := data |}
                | None => Unhandled
                end
            | None => OK {| meta := latest; log := empty_doc |}
            end
        end
    end.

(** The first loop of [latest_for_workout]; [k] is what follows it. *)
Fixpoint strict_scan (t : string) (st : Drive) (es : list Entry)
  (k : response LogBody) : response LogBody :=
  match es with
  | [] => k
  | e :: r =>
      if (wt_norm (e_workout_type e) =? t)%string then
        match _find_file_by_name_in_folder (e_file e) st with
        | None => strict_scan t st r k
        | Some f =>
            match _read_json_file (fid f) st with
            | None => Unhandled
            | Some data =>
                if (wt_norm (d_workout_type data) =? t)%string
                then OK {| meta := e; log := data |}
                else if any_muscles data
                     then OK {| meta := e; log := data |}
                     else strict_scan t st r k
            end
        end
      else strict_scan t st r k
  end.

(** The second loop. *)
Fixpoint relaxed_scan (t : string) (st : Drive) (es : list Entry)
  (k : response LogBody) : response LogBody :=
  match es with
  | [] => k
  | e :: r =>
      match _find_file_by_name_in_folder (e_file e) st with
      | None => relaxed_scan t st r k
      | Some f =>
          match _read_json_file (fid f) st with
          | None => Unhandled
          | Some data =>
              if (wt_norm (d_workout_type data) =? t)%string
              then OK {| meta := e; log := data |}
              else relaxed_scan t st r k
          end
      end
  end.

(** [GET /logs/latest_for_workout] *)
Definition latest_for_workout (authorization type : string)
  (before : option string) (st : Drive) : response LogBody :=
  if negb (type_pattern type) then Unprocessable
  else if negb (require_auth authorization) then HTTPError 401 "Unauthorized"
  else
    let t := norm type in
    match _load_manifest_entries st with
    | None => Unhandled
    | Some entries =>
        let entries := before_cutoff before entries in
        strict_scan t st (rev entries)
          (relaxed_scan t st (rev entries)
             (HTTPError 404 ("No logs found for workout_type '" ++ t ++ "'")))
    end.

(** The inner loop of [latest_for_muscle] over the exercises of a log. *)
Fixpoint match_exercise (needle : string) (exs : list Exercise)
  : option Exercise :=
  match exs with
  | [] => None
  | ex :: r =>
      let muscles := map norm (default [] (target_muscles ex)) in
      if str_in needle muscles then Some ex else match_exercise needle r
  end.

Fixpoint muscle_scan (needle : string) (st : Drive) (es : list Entry)
  (k : response MuscleBody) : response MuscleBody :=
  match es with
  | [] => k
  | e :: r =>
      match _find_file_by_name_in_folder (e_file e) st with
      | None => muscle_scan needle st r k
      | Some f =>
          match _read_json_file (fid f) st with
          | None => Unhandled
          | Some data =>
              match match_exercise needle (default [] (d_exercises data)) with
              | Some ex =>
                  OK {| m_meta := e; m_log := data;
                        matched_exercise := name ex |}
              | None => muscle_scan needle st r k
              end
          end
      end
  end.

(** [GET /logs/latest_for_muscle] *)
Definition latest_for_muscle (authorization muscle : string)
  (before : option string) (st : Drive) : response MuscleBody :=
  if negb (require_auth authorization) then HTTPError 401 "Unauthorized"
  else
    let needle := norm muscle in
    match _load_manifest_entries st with
    | None => Unhandled
    | Some entries =>
        let entries := before_cutoff before entries in
        muscle_scan needle st (rev entries)
          (HTTPError 404 ("No logs found containing muscle '" ++ muscle ++ "'"))
    end.

(** [GET /logs/by-date/{date}] *)
Definition fetch_log (date : string) (authorization : string) (st : Drive)
  : response JsonDoc :=
  if negb (date_pattern date) then Unprocessable
  else if negb (require_auth authorization) then HTTPError 401 "Unauthorized"
  else
    let filename := (date ++ ".json")%string in
    match _find_file_by_name_in_folder filename st with
    | None => HTTPError 404 ("No log for " ++ date)
    | Some existing =>
        match _read_json_file (fid existing) st with
        | Some data => OK data
        | None => Unhandled
        end
    end.

End Handlers.

(** ** Vocabulary of the statements *)

Definition date_le (a b : Entry) : Prop := str_le (e_date a) (e_date b).
Definition date_lt (a b : Entry) : Prop := str_lt (e_date a) (e_date b).

(** The entry a list holds for a date when later ones win. *)
Definition last_with_date (d : string) (es : list Entry) : option Entry :=
  List.find (fun e => (e_date e =? d)%string) (rev es).

(** Keys are pairwise different and every value sits under its own date. *)
Definition dict_ok (d : list (string * Entry)) : Prop :=
  NoDup (map fst d) /\ forall k v, In (k, v) d -> e_date v = k.

(** The entry list [_upsert_manifest] writes, from the one it read. *)
Definition upsert_entries (entry : Entry) (es : list Entry) : list Entry :=
  sort_by_date (dict_values (dict_set (e_date entry) entry (dict_by_date es))).

(** The entries of the manifest file, as stored. *)
Definition stored_entries (st : Drive) : list Entry :=
  match _find_file_by_name_in_folder index_name st with
  | Some idx =>
      match _read_json_file (fid idx) st with
      | Some manifest => default [] (d_entries manifest)
      | None => []
      end
  | None => []
  end.

(** A sequence of upserts, one after the other. *)
Fixpoint upsert_all (entries : list Entry) (st : Drive) : option Drive :=
  match entries with
  | [] => Some st
  | e :: r =>
      match _upsert_manifest e st with
      | Some st' => upsert_all r st'
      | None => None
      end
  end.

(** The entries [GET /logs/latest] chooses from. *)
Definition qualifying (before : option string) (st : Drive) : list Entry :=
  match _load_manifest_entries st with
  | Some entries => before_cutoff before entries
  | None => []
  end.

(** Some exercise has at least one set. *)
Definition has_sets (exs : list Exercise) : Prop :=
  exists e, In e exs /\ sets e <> [].

(** The rebuilt entry list in the words of the specification: the names of
    the folder's JSON files, without [index.json], that carry the suffix
    [.json]; each gives an entry whose date is the name minus the suffix. *)
Definition rebuilt_from_names (st : Drive) : list Entry :=
  map entry_of_name
    (List.filter
       (fun nm => negb (nm =? index_name)%string && endswith nm ".json")
       (map f_name (List.filter f_json st))).

(** The string is empty or starts with a character that is not a space. *)
Definition no_lead_space (s : string) : Prop :=
  match s with
  | EmptyString => True
  | String c _ => is_space c = false
  end.

(** Two answers that differ at most in the text of an error. *)
Definition same_outcome {A : Type} (r1 r2 : response A) : Prop :=
  match r1, r2 with
  | OK a, OK b => a = b
  | HTTPError c1 _, HTTPError c2 _ => c1 = c2
  | Unprocessable, Unprocessable => True
  | Unhandled, Unhandled => True
  | _, _ => False
  end.

(** The document of an entry's file, when the file is in the folder. *)
Definition file_doc (e : Entry) (st : Drive) : option JsonDoc :=
  match _find_file_by_name_in_folder (e_file e) st with
  | Some f => _read_json_file (fid f) st
  | None => None
  end.

(** What the first loop accepts: the manifest entry has workout type [t],
    its file is there, and the document has workout type [t] or, failing
    that, an exercise with target muscles. *)
Definition is_strict (t : string) (st : Drive) (e : Entry) : bool :=
  (wt_norm (e_workout_type e) =? t)%string
  && match file_doc e st with
     | Some data =>
         (wt_norm (d_workout_type data) =? t)%string || any_muscles data
     | None => false
     end.

(** What the second loop accepts: the file is there and the document has
    workout type [t], whatever the manifest entry says. *)
Definition is_relaxed (t : string) (st : Drive) (e : Entry) : bool :=
  match file_doc e st with
  | Some data => (wt_norm (d_workout_type data) =? t)%string
  | None => false
  end.

(** The document itself has workout type [t]. *)
Definition log_matches (t : string) (st : Drive) (e : Entry) : bool :=
  is_relaxed t st e.

(** [e] is among the entries satisfying [p], and none of them is later. *)
Definition latest_among (p : Entry -> bool) (es : list Entry) (e : Entry)
  : Prop :=
  In e es /\ p e = true /\ forall e', In e' es -> p e' = true -> date_le e' e.

Definition entry_body (st : Drive) (e : Entry) : LogBody :=
  {| meta := e; log := default empty_doc (file_doc e st) |}.

(** The file of the entry is there and one of its exercises lists the
    muscle. *)
Definition muscle_hit (needle : string) (st : Drive) (e : Entry) : bool :=
  match file_doc e st with
  | Some data =>
      match match_exercise needle (default [] (d_exercises data)) with
      | Some _ => true
      | None => false
      end
  | None => false
  end.

(** A set the validators of [Set] let through. *)
Definition set_ok (s : WSet) : Prop :=
  1 <= reps s /\ float_neg (weight s) = false.

(** An exercise the validators of [Exercise] let through. *)
Definition exercise_ok (e : Exercise) : Prop :=
  strip (name e) <> EmptyString /\ Forall set_ok (sets e).

Definition workout_type_ok (w : option string) : Prop :=
  match w with
  | None => True
  | Some s => In (norm s) allowed
  end.

(** A body every field validator lets through. *)
Definition body_ok (b : WorkoutLogIn) : Prop :=
  strptime_ymd (in_date b) <> None
  /\ workout_type_ok (in_workout_type b)
  /\ Forall exercise_ok (in_exercises b)
  /\ has_sets (in_exercises b).

(** What validation makes of an exercise and of a body it accepts. *)
Definition stored_exercise (e : Exercise) : Exercise :=
  {| name := name e; sets := sets e;
     target_muscles := muscles_norm (target_muscles e) |}.

Definition stored_log (fresh : string) (b : WorkoutLogIn) : WorkoutLog :=
  {| schema_version := default 2 (in_schema_version b);
     date := in_date b;
     workout_type := option_map norm (in_workout_type b);
     exercises := map stored_exercise (in_exercises b);
     notes := in_notes b;
     session_id := default fresh (in_session_id b) |}.

(** A validated log sent again as a request body. *)
Definition as_body (l : WorkoutLog) : WorkoutLogIn :=
  {| in_schema_version := Some (schema_version l);
     in_date := date l;
     in_workout_type := workout_type l;
     in_exercises := exercises l;
     in_notes := notes l;
     in_session_id := Some (session_id l) |}.

(** The numbers a string of the form dddd-dd-dd shows, read by position. *)
Definition padded_ymd (s : string) : option (Z * Z * Z) :=
  match s with
  | String a (String b (String c (String d (String _
    (String e (String f (String _ (String g (String h EmptyString))))))))) =>
      Some (1000 * digit_val a + 100 * digit_val b
            + 10 * digit_val c + digit_val d,
            10 * digit_val e + digit_val f,
            10 * digit_val g + digit_val h)
  | _ => None
  end.

(** The characters a date can be made of. *)
Definition date_char (c : ascii) : bool :=
  is_digit c || Ascii.eqb c "-" || Ascii.eqb c " ".

Definition digits : list ascii :=
  ["0"; "1"; "2"; "3"; "4"; "5"; "6"; "7"; "8"; "9"]%char.

(** The answer of the lookup by muscle for an entry it accepts. *)
Definition muscle_answer (needle : string) (st : Drive) (e : Entry)
  : MuscleBody :=
  let data := default empty_doc (file_doc e st) in
  {| m_meta := e; m_log := data;
     matched_exercise :=
       match match_exercise needle (default [] (d_exercises data)) with
       | Some ex => name ex
       | None => EmptyString
       end |}.

(** The exercise lists the muscle, labels compared in normal form. *)
Definition lists_muscle (needle : string) (ex : Exercise) : Prop :=
  In needle (map norm (default [] (target_muscles ex))).

(** Manifest and files agree on the workout type of every qualifying log. *)
Definition manifest_agrees (before : option string) (st : Drive) : Prop :=
  forall e data, In e (qualifying before st) -> file_doc e st = Some data ->
                 wt_norm (e_workout_type e) = wt_norm (d_workout_type data).

(** Every character of the string can occur in a date. *)
Definition date_chars (s : string) : bool :=
  forallb date_char (list_ascii_of_string s).

(** ** Sample folders and requests *)

(** A file as [_create_json_file] makes it. *)
Definition json_file (nm : string) (d : JsonDoc) : DriveFile :=
  {| f_name := nm; f_json := true; f_content := d |}.

(** A manifest entry of workout type [push] for the log of date [d]. *)
Definition cx_entry (d : string) : Entry :=
  {| e_date := d; e_file := (d ++ ".json")%string; e_hash := None;
     e_created_at := None; e_schema_version := Some 2;
     e_session_id := None; e_workout_type := Some "push" |}.

(** A dumped log with one exercise. *)
Definition cx_doc (d wt : string) (muscles : option (list string)) : JsonDoc :=
  {| d_schema_version := Some 2; d_date := Some d;
     d_workout_type := Some wt;
     d_exercises :=
       Some [{| name := "row";
                sets := [{| reps := 5; weight := FNum 60 0 |}];
                target_muscles := muscles |}];
     d_notes := None; d_session_id := Some "s"; d_entries := None |}.

(** A folder whose manifest is out of step with its files: three logs, all
    listed as [push] in the manifest; the file of the first is a push log,
    the files of the other two are pull logs, and only the second of them
    names target muscles. *)
Definition cx_drive : Drive :=
  [ json_file "2024-01-01.json" (cx_doc "2024-01-01" "push" None);
    json_file "2024-01-02.json" (cx_doc "2024-01-02" "pull" (Some ["lats"]));
    json_file "2024-01-03.json" (cx_doc "2024-01-03" "pull" None);
    json_file "index.json"
      (set_entries [cx_entry "2024-01-01"; cx_entry "2024-01-02";
                    cx_entry "2024-01-03"] new_manifest) ].

(** A manifest that lists a log whose file is gone. *)
Definition stale_drive : Drive :=
  [ json_file "2024-01-01.json" (cx_doc "2024-01-01" "push" None);
    json_file "index.json"
      (set_entries [cx_entry "2024-01-02"; cx_entry "2024-01-01"]
         new_manifest) ].

(** A folder without a manifest. *)
Definition bare_drive : Drive :=
  [ json_file "2024-01-02.json" (cx_doc "2024-01-02" "pull" None);
    {| f_name := "photo.json"; f_json := false; f_content := empty_doc |};
    json_file "2024-01-01.json" (cx_doc "2024-01-01" "push" None);
    json_file "readme" empty_doc ].

Definition bench : Exercise :=
  {| name := "bench"; sets := [{| reps := 5; weight := FNum 100 0 |}];
     target_muscles := None |}.

(** A request body whose date is written without zero padding, and the
    log it validates to. *)
Definition unpadded_body : WorkoutLogIn :=
  {| in_schema_version := None; in_date := "2024-1-5";
     in_workout_type := Some "push"; in_exercises := [bench];
     in_notes := None; in_session_id := None |}.

Definition unpadded_log (sid : string) : WorkoutLog :=
  {| schema_version := 2; date := "2024-1-5"; workout_type := Some "push";
     exercises := [bench]; notes := None; session_id := sid |}.

(** An exercise as sent, and as stored after validation. *)
Definition fly_raw : Exercise :=
  {| name := "Fly"; sets := [{| reps := 12; weight := FNum 25 (-1) |}];
     target_muscles := Some ["  Chest "; "   "; "Front DELTS"] |}.

Definition fly_stored : Exercise :=
  {| name := "Fly"; sets := [{| reps := 12; weight := FNum 25 (-1) |}];
     target_muscles := Some ["chest"; "front delts"] |}.

(** A folder as two saves leave it: manifest and files agree. *)
Definition tidy_entry (d wt : string) : Entry :=
  {| e_date := d; e_file := (d ++ ".json")%string; e_hash := Some "0";
     e_created_at := Some "now"; e_schema_version := Some 2;
     e_session_id := Some "s"; e_workout_type := Some wt |}.

Definition tidy_drive : Drive :=
  [ json_file "2024-01-01.json" (cx_doc "2024-01-01" "push" (Some ["chest"]));
    json_file "index.json"
      (set_entries [tidy_entry "2024-01-01" "push";
                    tidy_entry "2024-01-02" "pull"] new_manifest);
    json_file "2024-01-02.json" (cx_doc "2024-01-02" "pull" (Some ["lats"])) ].

(** * Properties *)

(** ** The order on strings *)

Section StringOrder.

Lemma ascii_compare_refl (a : ascii) : Ascii.compare a a = Eq.
Proof. apply N.compare_refl. Qed.

Lemma ascii_compare_lt_trans (a b c : ascii) :
  Ascii.compare a b = Lt -> Ascii.compare b c = Lt -> Ascii.compare a c = Lt.
Proof.
  unfold Ascii.compare. rewrite !N.compare_lt_iff. lia.
Qed.

Lemma compare_refl (s : string) : String.compare s s = Eq.
Proof.
  induction s as [|a s IH]; simpl; [reflexivity|].
  now rewrite ascii_compare_refl.
Qed.

Lemma compare_lt_trans (s1 : string) :
  forall s2 s3, String.compare s1 s2 = Lt -> String.compare s2 s3 = Lt ->
                String.compare s1 s3 = Lt.
Proof.
  induction s1 as [|a s1 IH]; intros [|b s2] [|c s3]; simpl;
    try discriminate; try reflexivity.
  destruct (Ascii.compare a b) eqn:Hab; try discriminate;
    destruct (Ascii.compare b c) eqn:Hbc; try discriminate; intros H1 H2.
  - apply Ascii.compare_eq_iff in Hab, Hbc. subst.
    rewrite ascii_compare_refl. eauto.
  - apply Ascii.compare_eq_iff in Hab. subst. now rewrite Hbc.
  - apply Ascii.compare_eq_iff in Hbc. subst. now rewrite Hab.
  - now rewrite (ascii_compare_lt_trans _ _ _ Hab Hbc).
Qed.

Lemma str_lt_iff (a b : string) : str_lt a b <-> String.compare a b = Lt.
Proof.
  unfold str_lt, String.ltb. destruct (String.compare a b); split; congruence.
Qed.

Lemma str_le_iff (a b : string) : str_le a b <-> String.compare a b <> Gt.
Proof.
  unfold str_le, String.leb. destruct (String.compare a b); split; congruence.
Qed.

Lemma str_le_cases (a b : string) : str_le a b <-> str_lt a b \/ a = b.
Proof.
  rewrite str_le_iff, str_lt_iff. split.
  - destruct (String.compare a b) eqn:H; intros Hn.
    + right. now apply String.compare_eq_iff.
    + now left.
    + congruence.
  - intros [H | ->]; [rewrite H | rewrite compare_refl]; discriminate.
Qed.

Lemma str_lt_irrefl (a : string) : ~ str_lt a a.
Proof. rewrite str_lt_iff, compare_refl. discriminate. Qed.

Lemma str_lt_trans (a b c : string) : str_lt a b -> str_lt b c -> str_lt a c.
Proof. rewrite !str_lt_iff. apply compare_lt_trans. Qed.

Lemma str_le_refl (a : string) : str_le a a.
Proof. apply str_le_cases. now right. Qed.

Lemma str_le_trans (a b c : string) : str_le a b -> str_le b c -> str_le a c.
Proof.
  rewrite !str_le_cases. intros [H1 | ->] [H2 | ->]; eauto using str_lt_trans.
Qed.

Lemma str_lt_le (a b : string) : str_lt a b -> str_le a b.
Proof. intros H. apply str_le_cases. now left. Qed.

Lemma str_le_lt_trans (a b c : string) : str_le a b -> str_lt b c -> str_lt a c.
Proof. rewrite str_le_cases. intros [H1 | ->] H2; eauto using str_lt_trans. Qed.

Lemma str_not_le_lt (a b : string) : String.leb a b = false -> str_lt b a.
Proof.
  unfold String.leb. rewrite str_lt_iff, (String.compare_antisym b a).
  destruct (String.compare a b); simpl; congruence.
Qed.

Lemma str_lt_not_le (a b : string) : str_lt a b -> ~ str_le b a.
Proof.
  rewrite str_lt_iff, str_le_iff, (String.compare_antisym b a).
  intros ->. simpl. congruence.
Qed.

Lemma str_le_antisym (a b : string) : str_le a b -> str_le b a -> a = b.
Proof. apply String.leb_antisym. Qed.

End StringOrder.

(** ** Sorting by date *)

Section Sorting.

Lemma insert_by_date_perm (x : Entry) (l : list Entry) :
  Permutation (insert_by_date x l) (x :: l).
Proof.
  induction l as [|y r IH]; simpl; [reflexivity|].
  destruct (String.leb (e_date x) (e_date y)); [reflexivity|].
  rewrite IH. apply perm_swap.
Qed.

Lemma sort_by_date_perm (l : list Entry) : Permutation (sort_by_date l) l.
Proof.
  induction l as [|x r IH]; simpl; [reflexivity|].
  rewrite insert_by_date_perm. now constructor.
Qed.

Lemma sort_by_date_In (l : list Entry) (e : Entry) :
  In e (sort_by_date l) <-> In e l.
Proof.
  split; apply Permutation_in;
    [apply sort_by_date_perm | symmetry; apply sort_by_date_perm].
Qed.

Lemma insert_by_date_sorted (x : Entry) (l : list Entry) :
  StronglySorted date_le l -> StronglySorted date_le (insert_by_date x l).
Proof.
  induction l as [|y r IH]; simpl; intros Hs.
  - repeat constructor.
  - destruct (String.leb (e_date x) (e_date y)) eqn:Hxy.
    + constructor; [assumption|].
      apply StronglySorted_inv in Hs as [_ Hall].
      constructor; [exact Hxy|].
      eapply Forall_impl; [exact Hall|].
      intros z Hz. eapply str_le_trans; [exact Hxy | exact Hz].
    + apply StronglySorted_inv in Hs as [Hr Hall].
      constructor; [now apply IH|].
      eapply Permutation_Forall; [symmetry; apply insert_by_date_perm|].
      constructor; [|assumption].
      apply str_lt_le. now apply str_not_le_lt.
Qed.

Lemma sort_by_date_sorted (l : list Entry) :
  StronglySorted date_le (sort_by_date l).
Proof.
  induction l as [|x r IH]; simpl; [constructor|].
  now apply insert_by_date_sorted.
Qed.

(** With pairwise different dates the order is strict. *)
Lemma sorted_nodup_strict (l : list Entry) :
  StronglySorted date_le l -> NoDup (map e_date l) ->
  StronglySorted date_lt l.
Proof.
  induction 1 as [|x r Hr IH Hall]; simpl; intros Hnd; [constructor|].
  apply NoDup_cons in Hnd as [Hx Hnd].
  constructor; [now apply IH|].
  rewrite Forall_forall in Hall |- *. intros y Hy.
  destruct (proj1 (str_le_cases _ _) (Hall y Hy)) as [Hlt | Heq]; [exact Hlt|].
  exfalso. apply Hx. rewrite Heq. apply list_elem_of_In.
  apply in_map. now apply list_elem_of_In.
Qed.

Lemma filter_sorted (R : Entry -> Entry -> Prop) (p : Entry -> bool)
  (l : list Entry) :
  StronglySorted R l -> StronglySorted R (List.filter p l).
Proof.
  induction 1 as [|x r Hr IH Hall]; simpl; [constructor|].
  destruct (p x); [|assumption].
  constructor; [assumption|].
  rewrite Forall_forall in Hall |- *. intros y Hy.
  apply list_elem_of_In, filter_In in Hy as [Hy _].
  apply Hall. now apply list_elem_of_In.
Qed.

(** The last element of a sorted list is a greatest one. *)
Lemma last_sorted_max (l : list Entry) (x : Entry) :
  StronglySorted date_le l -> last l = Some x ->
  forall y, In y l -> date_le y x.
Proof.
  induction 1 as [|a r Hr IH Hall]; simpl; intros Hl y Hy; [contradiction|].
  destruct r as [|b r'].
  - simpl in Hl. injection Hl as <-. destruct Hy as [<- | []].
    apply str_le_refl.
  - change (last (b :: r') = Some x) in Hl.
    destruct Hy as [<- | Hy]; [|now apply IH].
    rewrite Forall_forall in Hall. apply Hall.
    apply list_elem_of_In. apply last_Some in Hl as [l' ->].
    apply in_or_app. right. now left.
Qed.

End Sorting.

(** ** The folder operations *)

Section Folder.

Implicit Types (st : Drive) (nm : string) (q : DriveFile -> bool).

Lemma files_from_app q st st' (i : nat) :
  files_from i q (st ++ st') =
  (files_from i q st ++ files_from (i + length st) q st')%list.
Proof.
  revert i. induction st as [|f r IH]; intros i; simpl.
  - now rewrite Nat.add_0_r.
  - rewrite IH, <- app_assoc. do 3 f_equal. lia.
Qed.

Lemma files_from_In q st (i : nat) (m : FileMeta) :
  In m (files_from i q st) <->
  exists f, st !! (fid m - i)%nat = Some f /\ (i <= fid m)%nat
            /\ q f = true /\ fname m = f_name f.
Proof.
  revert i. induction st as [|f r IH]; intros i; simpl.
  - split; [contradiction | intros (f & Hf & _); discriminate].
  - rewrite in_app_iff, IH. split.
    + intros [Hm | (g & Hg & Hi & Hq & Hn)].
      * destruct (q f) eqn:Hq; [|contradiction].
        destruct Hm as [<- | []]. simpl. exists f.
        rewrite Nat.sub_diag. auto.
      * exists g. replace (fid m - i)%nat with (S (fid m - S i)) by lia.
        repeat split; auto; lia.
    + intros (g & Hg & Hi & Hq & Hn).
      destruct (decide (fid m = i)) as [Heq | Hne].
      * left. rewrite Heq, Nat.sub_diag in Hg. injection Hg as ->.
        rewrite Hq. left. destruct m; simpl in *; congruence.
      * right. exists g.
        replace (fid m - i)%nat with (S (fid m - S i)) in Hg by lia.
        repeat split; auto; lia.
Qed.

(** A name query looks at the names only. *)
Lemma files_from_names nm st st' (i : nat) :
  map f_name st = map f_name st' ->
  files_from i (fun f => (f_name f =? nm)%string) st =
  files_from i (fun f => (f_name f =? nm)%string) st'.
Proof.
  revert st' i. induction st as [|f r IH]; intros [|f' r'] i Hm;
    simpl in *; try discriminate; [reflexivity|].
  injection Hm as Hf Hr. rewrite Hf. f_equal. now apply IH.
Qed.

Lemma find_Some nm st (m : FileMeta) :
  _find_file_by_name_in_folder nm st = Some m ->
  exists f, st !! fid m = Some f /\ f_name f = nm /\ fname m = nm.
Proof.
  unfold _find_file_by_name_in_folder, files_list. intros H.
  assert (Hin : In m (files_from 0 (fun f => (f_name f =? nm)%string) st)).
  { destruct (files_from 0 _ st); simpl in H; [discriminate|].
    injection H as ->. now left. }
  apply files_from_In in Hin as (f & Hf & _ & Hq & Hn).
  rewrite Nat.sub_0_r in Hf. apply String.eqb_eq in Hq.
  exists f. repeat split; congruence.
Qed.

Lemma find_None nm st :
  _find_file_by_name_in_folder nm st = None <->
  forall f, In f st -> f_name f <> nm.
Proof.
  unfold _find_file_by_name_in_folder, files_list.
  generalize 0%nat. induction st as [|f r IH]; intros i; simpl.
  - split; [intros _ f [] | reflexivity].
  - destruct (String.eqb_spec (f_name f) nm) as [Heq | Hne]; simpl.
    + split; [discriminate|]. intros H. exfalso. now apply (H f); [left|].
    + rewrite IH. split.
      * intros H g [<- | Hg]; auto.
      * intros H g Hg. apply H. now right.
Qed.

Lemma find_same_names nm st st' :
  map f_name st = map f_name st' ->
  _find_file_by_name_in_folder nm st = _find_file_by_name_in_folder nm st'.
Proof.
  intros H. unfold _find_file_by_name_in_folder, files_list.
  now rewrite (files_from_names nm st st' 0 H).
Qed.

Lemma find_create nm nm' (d : JsonDoc) st :
  _find_file_by_name_in_folder nm (_create_json_file nm' d st) =
  match _find_file_by_name_in_folder nm st with
  | Some m => Some m
  | None => if (nm' =? nm)%string
            then Some {| fid := length st; fname := nm' |} else None
  end.
Proof.
  unfold _find_file_by_name_in_folder, files_list, _create_json_file.
  rewrite files_from_app. simpl.
  destruct (files_from 0 _ st); simpl; [|reflexivity].
  now destruct (nm' =? nm)%string.
Qed.

Lemma insert_same_name (i : nat) (f g : DriveFile) st :
  st !! i = Some f -> f_name g = f_name f ->
  map f_name (<[i := g]> st) = map f_name st.
Proof.
  revert i. induction st as [|h r IH]; intros [|i] Hf Hn; simpl in *;
    try discriminate.
  - injection Hf as ->. now rewrite Hn.
  - f_equal. now apply IH.
Qed.

Lemma update_names (i : nat) (d : JsonDoc) st st' :
  _update_json_file i d st = Some st' -> map f_name st' = map f_name st.
Proof.
  unfold _update_json_file. destruct (st !! i) as [f|] eqn:Hf; [|discriminate].
  intros [= <-]. now apply insert_same_name with f.
Qed.

Lemma update_Some (i : nat) (d : JsonDoc) st (f : DriveFile) :
  st !! i = Some f ->
  _update_json_file i d st = Some (<[i := set_content d f]> st).
Proof. unfold _update_json_file. now intros ->. Qed.

Lemma read_update_eq (i : nat) (d : JsonDoc) st st' :
  _update_json_file i d st = Some st' -> _read_json_file i st' = Some d.
Proof.
  unfold _update_json_file, _read_json_file.
  destruct (st !! i) as [f|] eqn:Hf; [|discriminate]. intros [= <-].
  rewrite list_lookup_insert_eq; [reflexivity|].
  now apply lookup_lt_Some in Hf.
Qed.

Lemma read_update_ne (i j : nat) (d : JsonDoc) st st' :
  _update_json_file i d st = Some st' -> i <> j ->
  _read_json_file j st' = _read_json_file j st.
Proof.
  unfold _update_json_file, _read_json_file.
  destruct (st !! i) as [f|] eqn:Hf; [|discriminate]. intros [= <-] Hne.
  now rewrite list_lookup_insert_ne.
Qed.

Lemma read_create_old (i : nat) nm (d : JsonDoc) st :
  (i < length st)%nat ->
  _read_json_file i (_create_json_file nm d st) = _read_json_file i st.
Proof.
  intros Hi. unfold _read_json_file, _create_json_file.
  now rewrite lookup_app_l.
Qed.

Lemma read_create_new nm (d : JsonDoc) st :
  _read_json_file (length st) (_create_json_file nm d st) = Some d.
Proof.
  unfold _read_json_file, _create_json_file.
  rewrite lookup_app_r, Nat.sub_diag; [reflexivity | lia].
Qed.

(** A file that was found can be read. *)
Lemma find_read nm st (m : FileMeta) :
  _find_file_by_name_in_folder nm st = Some m ->
  exists d, _read_json_file (fid m) st = Some d.
Proof.
  intros H. apply find_Some in H as (f & Hf & _).
  unfold _read_json_file. rewrite Hf. eauto.
Qed.

End Folder.

(** ** The dictionary keyed by date *)

Section Dict.

Implicit Types (d : list (string * Entry)) (k : string) (v : Entry).

Lemma find_app_first {A : Type} (p : A -> bool) (l1 l2 : list A) :
  List.find p (l1 ++ l2) =
  match List.find p l1 with Some x => Some x | None => List.find p l2 end.
Proof.
  induction l1 as [|a r IH]; simpl; [reflexivity|]. now destruct (p a).
Qed.

Lemma dict_set_keys k v d :
  forall k', In k' (map fst (dict_set k v d)) <-> k' = k \/ In k' (map fst d).
Proof.
  induction d as [|[k0 v0] r IH]; intros k'; simpl.
  - intuition congruence.
  - destruct (String.eqb_spec k0 k) as [-> | Hne]; simpl.
    + intuition congruence.
    + rewrite IH. intuition congruence.
Qed.

Lemma dict_set_ok k v d : e_date v = k -> dict_ok d -> dict_ok (dict_set k v d).
Proof.
  intros Hk. induction d as [|[k0 v0] r IH]; intros [Hnd Hval]; simpl.
  - split; [repeat constructor; apply not_elem_of_nil|].
    intros k' v' [[= <- <-] | []]. exact Hk.
  - simpl in Hnd. apply NoDup_cons in Hnd as [Hk0 Hnd].
    destruct (String.eqb_spec k0 k) as [-> | Hne].
    + split; [simpl; now apply NoDup_cons|].
      intros k' v' [[= <- <-] | Hin]; [exact Hk|]. apply Hval. now right.
    + destruct IH as [IH1 IH2].
      { split; [assumption|]. intros k' v' Hin. apply Hval. now right. }
      split.
      * simpl. apply NoDup_cons. split; [|assumption].
        rewrite list_elem_of_In, dict_set_keys. rewrite list_elem_of_In in Hk0.
        intros [-> | Hin]; auto.
      * intros k' v' [[= <- <-] | Hin]; [|now apply IH2].
        apply Hval. now left.
Qed.

Lemma dict_get_set k k' v d :
  dict_get k' (dict_set k v d) =
  if (k =? k')%string then Some v else dict_get k' d.
Proof.
  unfold dict_get. induction d as [|[k0 v0] r IH]; simpl.
  - now destruct (k =? k')%string.
  - destruct (String.eqb_spec k0 k) as [-> | Hne]; simpl.
    + now destruct (k =? k')%string.
    + destruct (String.eqb_spec k0 k') as [-> | Hne']; simpl.
      * destruct (String.eqb_spec k k'); [congruence | reflexivity].
      * exact IH.
Qed.

Lemma dict_fold_ok (es : list Entry) d :
  dict_ok d -> dict_ok (fold_left (fun d e => dict_set (e_date e) e d) es d).
Proof.
  revert d. induction es as [|e r IH]; intros d Hd; simpl; [exact Hd|].
  apply IH. now apply dict_set_ok.
Qed.

Lemma dict_fold_get (es : list Entry) d k :
  dict_get k (fold_left (fun d e => dict_set (e_date e) e d) es d) =
  match last_with_date k es with
  | Some x => Some x
  | None => dict_get k d
  end.
Proof.
  revert d. induction es as [|e r IH]; intros d; simpl; [reflexivity|].
  rewrite IH. unfold last_with_date. simpl. rewrite find_app_first.
  destruct (List.find _ (rev r)); [reflexivity|]. simpl.
  rewrite dict_get_set. now destruct (e_date e =? k)%string.
Qed.

Lemma dict_by_date_ok (es : list Entry) : dict_ok (dict_by_date es).
Proof.
  apply dict_fold_ok. split; [constructor | intros k v []].
Qed.

Lemma dict_by_date_get (es : list Entry) k :
  dict_get k (dict_by_date es) = last_with_date k es.
Proof.
  unfold dict_by_date. rewrite dict_fold_get.
  now destruct (last_with_date k es).
Qed.

Lemma dict_values_dates d : dict_ok d -> map e_date (dict_values d) = map fst d.
Proof.
  intros [_ Hval]. unfold dict_values.
  induction d as [|[k0 v0] r IH]; simpl; [reflexivity|]. f_equal.
  - apply Hval. now left.
  - apply IH. intros k v Hin. apply Hval. now right.
Qed.

Lemma dict_get_In d k v :
  dict_ok d -> (dict_get k d = Some v <-> In v (dict_values d) /\ e_date v = k).
Proof.
  unfold dict_get, dict_values. induction d as [|[k0 v0] r IH]; intros [Hnd Hval].
  - simpl. split; [discriminate | tauto].
  - simpl in Hnd. apply NoDup_cons in Hnd as [Hk0 Hnd]. simpl.
    assert (Hr : dict_ok r).
    { split; [assumption|]. intros k' v' Hin. apply Hval. now right. }
    specialize (IH Hr).
    destruct (String.eqb_spec k0 k) as [-> | Hne]; simpl.
    + split.
      * intros [= <-]. split; [now left|]. apply Hval. now left.
      * intros [[<- | Hin] Hd]; [reflexivity|]. exfalso. apply Hk0.
        apply list_elem_of_In. apply in_map_iff in Hin as [[k1 v1] [Hs Hin]].
        simpl in Hs. subst v1. apply in_map_iff. exists (k1, v).
        split; [|assumption]. simpl. rewrite <- Hd. symmetry.
        apply (proj2 Hr). exact Hin.
    + rewrite IH. split; [intros [H1 H2]; auto|].
      intros [[<- | Hin] Hd]; [|auto]. exfalso. apply Hne.
      rewrite <- Hd. symmetry. apply Hval. now left.
Qed.

End Dict.

(** ** Upserting into the manifest *)

Section Upsert.

Lemma option_ext {A : Type} (a b : option A) :
  (forall x, a = Some x <-> b = Some x) -> a = b.
Proof.
  intros H. destruct a as [x|], b as [y|]; try reflexivity.
  - now apply H.
  - symmetry. now apply H.
  - now apply H.
Qed.

Lemma strict_same_date (l : list Entry) (x y : Entry) :
  StronglySorted date_lt l -> In x l -> In y l -> e_date x = e_date y -> x = y.
Proof.
  induction 1 as [|a r Hr IH Hall]; simpl; [contradiction|].
  rewrite Forall_forall in Hall.
  intros [<- | Hx] [<- | Hy] Heq; auto.
  - exfalso. apply (str_lt_irrefl (e_date a)).
    rewrite Heq at 2. apply Hall. now apply list_elem_of_In.
  - exfalso. apply (str_lt_irrefl (e_date a)).
    rewrite <- Heq at 2. apply Hall. now apply list_elem_of_In.
Qed.

Lemma last_with_date_strict (l : list Entry) (d : string) (x : Entry) :
  StronglySorted date_lt l ->
  (last_with_date d l = Some x <-> In x l /\ e_date x = d).
Proof.
  intros Hs. unfold last_with_date. split.
  - intros H. apply find_some in H as [Hin Hd].
    apply in_rev in Hin. now apply String.eqb_eq in Hd.
  - intros [Hin Hd].
    destruct (List.find _ (rev l)) as [y|] eqn:Hf.
    + apply find_some in Hf as [Hy Hyd]. apply in_rev in Hy.
      apply String.eqb_eq in Hyd. f_equal.
      apply (strict_same_date l); congruence.
    + exfalso. apply in_rev in Hin.
      pose proof (find_none _ _ Hf x Hin) as Hn. simpl in Hn.
      apply String.eqb_neq in Hn. contradiction.
Qed.

Lemma upsert_entries_strict (e : Entry) (es : list Entry) :
  StronglySorted date_lt (upsert_entries e es).
Proof.
  unfold upsert_entries. apply sorted_nodup_strict.
  - apply sort_by_date_sorted.
  - assert (Hok : dict_ok (dict_set (e_date e) e (dict_by_date es)))
      by (apply dict_set_ok; [reflexivity | apply dict_by_date_ok]).
    rewrite (Permutation_map e_date (sort_by_date_perm _)).
    rewrite (dict_values_dates _ Hok). apply Hok.
Qed.

Lemma upsert_entries_lookup (e : Entry) (es : list Entry) (d : string) :
  last_with_date d (upsert_entries e es) =
  if (e_date e =? d)%string then Some e else last_with_date d es.
Proof.
  apply option_ext. intros x.
  rewrite (last_with_date_strict _ d x (upsert_entries_strict e es)).
  unfold upsert_entries. rewrite sort_by_date_In.
  assert (Hok : dict_ok (dict_set (e_date e) e (dict_by_date es)))
    by (apply dict_set_ok; [reflexivity | apply dict_by_date_ok]).
  rewrite <- (dict_get_In _ d x Hok), dict_get_set, dict_by_date_get.
  reflexivity.
Qed.

(** One upsert always goes through, and rewrites the stored entries. *)
Lemma upsert_manifest_stored (e : Entry) (st : Drive) :
  exists st', _upsert_manifest e st = Some st'
              /\ stored_entries st' = upsert_entries e (stored_entries st)
              /\ forall nm, nm <> index_name ->
                   _find_file_by_name_in_folder nm st' =
                   _find_file_by_name_in_folder nm st.
Proof.
  unfold _upsert_manifest, stored_entries.
  destruct (_find_file_by_name_in_folder index_name st) as [idx|] eqn:Hfind.
  - destruct (find_Some _ _ _ Hfind) as (f & Hf & Hname & _).
    unfold _read_json_file at 1 3. rewrite Hf.
    rewrite (update_Some _ _ _ _ Hf).
    set (st' := <[fid idx := _]> st).
    assert (Hn : map f_name st' = map f_name st)
      by (apply insert_same_name with f; [assumption | reflexivity]).
    exists st'. split; [reflexivity|]. split.
    + rewrite (find_same_names _ _ _ Hn), Hfind.
      unfold _read_json_file, st'.
      rewrite list_lookup_insert_eq by (now apply lookup_lt_Some in Hf).
      reflexivity.
    + intros nm _. now apply find_same_names.
  - eexists. split; [reflexivity|]. split.
    + rewrite find_create, Hfind, String.eqb_refl. simpl.
      rewrite read_create_new. reflexivity.
    + intros nm Hne. rewrite find_create.
      destruct (_find_file_by_name_in_folder nm st); [reflexivity|].
      destruct (String.eqb_spec index_name nm); congruence.
Qed.

Lemma last_with_date_cons (d : string) (e : Entry) (r : list Entry) :
  last_with_date d (e :: r) =
  match last_with_date d r with
  | Some x => Some x
  | None => if (e_date e =? d)%string then Some e else None
  end.
Proof. unfold last_with_date. simpl. now rewrite find_app_first. Qed.

Lemma upsert_all_stored (es : list Entry) :
  forall st, es <> [] \/ StronglySorted date_lt (stored_entries st) ->
  exists st', upsert_all es st = Some st'
    /\ StronglySorted date_lt (stored_entries st')
    /\ forall d, last_with_date d (stored_entries st') =
                 match last_with_date d es with
                 | Some x => Some x
                 | None => last_with_date d (stored_entries st)
                 end.
Proof.
  induction es as [|e r IH]; intros st Hst.
  - destruct Hst as [Hn | Hs]; [congruence|]. exists st. auto.
  - destruct (upsert_manifest_stored e st) as (st1 & Hup & Hstored & _).
    assert (Hs1 : StronglySorted date_lt (stored_entries st1))
      by (rewrite Hstored; apply upsert_entries_strict).
    destruct (IH st1 (or_intror Hs1)) as (st' & Hall & Hsorted & Hlook).
    exists st'. simpl. rewrite Hup. repeat split; auto.
    intros d. rewrite Hlook, Hstored, upsert_entries_lookup.
    rewrite last_with_date_cons.
    destruct (last_with_date d r); [reflexivity|].
    now destruct (e_date e =? d)%string.
Qed.

End Upsert.

(** C2. After any non-empty sequence of manifest upserts, from any folder
    state and whatever dates are upserted, every upsert goes through and the
    stored manifest entries are strictly ascending by date, so they are
    sorted and hold at most one entry per date; the entry held for a date
    is the last one upserted for it, and for a date never upserted it is
    the one the manifest held before. *)
Theorem C2_manifest_sorted_unique (st : Drive) (e : Entry) (es : list Entry) :
  exists st', upsert_all (e :: es) st = Some st'
    /\ StronglySorted date_lt (stored_entries st')
    /\ NoDup (map e_date (stored_entries st'))
    /\ forall d, last_with_date d (stored_entries st') =
                 match last_with_date d (e :: es) with
                 | Some x => Some x
                 | None => last_with_date d (stored_entries st)
                 end.
Proof.
  assert (Hne : e :: es <> []) by discriminate.
  destruct (upsert_all_stored (e :: es) st (or_introl Hne)) as (st' & H1 & H2 & H3).
  exists st'. repeat split; auto.
  clear - H2. induction H2 as [|a r Hr IH Hall]; simpl; [constructor|].
  apply NoDup_cons. split; [|assumption].
  rewrite Forall_forall in Hall. intros Hin.
  apply list_elem_of_In, in_map_iff in Hin as (y & Hy & Hin).
  apply (str_lt_irrefl (e_date a)). rewrite <- Hy at 2.
  apply Hall. now apply list_elem_of_In.
Qed.

(** ** Loading the manifest and [GET /logs/latest] *)

Section Latest.

Variable API_KEY : string.

(** Loading never fails and answers a list sorted by date. *)
Lemma load_manifest_sorted (st : Drive) :
  exists entries, _load_manifest_entries st = Some entries
                  /\ StronglySorted date_le entries.
Proof.
  unfold _load_manifest_entries.
  destruct (_find_file_by_name_in_folder index_name st) as [idx|] eqn:Hfind.
  - destruct (find_read _ _ _ Hfind) as [m ->].
    eexists. split; [reflexivity | apply sort_by_date_sorted].
  - eexists. split; [reflexivity | apply sort_by_date_sorted].
Qed.

(** With a manifest file the loaded entries are the stored ones, sorted. *)
Lemma load_manifest_stored (st : Drive) (idx : FileMeta) :
  _find_file_by_name_in_folder index_name st = Some idx ->
  _load_manifest_entries st = Some (sort_by_date (stored_entries st)).
Proof.
  intros Hfind. unfold _load_manifest_entries, stored_entries. rewrite Hfind.
  now destruct (find_read _ _ _ Hfind) as [m ->].
Qed.

Lemma before_cutoff_sorted (before : option string) (es : list Entry) :
  StronglySorted date_le es -> StronglySorted date_le (before_cutoff before es).
Proof.
  intros Hs. destruct before as [[|c b]|]; simpl; auto.
  now apply filter_sorted.
Qed.

Lemma before_cutoff_In (b : string) (es : list Entry) (e : Entry) :
  b <> EmptyString ->
  (In e (before_cutoff (Some b) es) <-> In e es /\ str_lt (e_date e) b).
Proof.
  intros Hb. destruct b as [|c b]; [congruence|].
  unfold before_cutoff. apply filter_In.
Qed.

Lemma before_cutoff_incl (before : option string) (es : list Entry) (e : Entry) :
  In e (before_cutoff before es) -> In e es.
Proof.
  destruct before as [[|c b]|]; simpl; auto.
  intros H. now apply filter_In in H.
Qed.

Lemma last_In {A : Type} (l : list A) (x : A) : last l = Some x -> In x l.
Proof.
  intros H. apply last_Some in H as [l' ->]. apply in_or_app. right. now left.
Qed.

(** What [latest_log] answers, by the last qualifying entry. *)
Lemma latest_log_eq (authorization : string) (before : option string)
  (st : Drive) :
  require_auth API_KEY authorization = true ->
  latest_log API_KEY authorization before st =
  match last (qualifying before st) with
  | None => HTTPError 404 "No logs found"
  | Some latest =>
      OK {| meta := latest;
            log := match _find_file_by_name_in_folder (e_file latest) st with
                   | Some f => default empty_doc (_read_json_file (fid f) st)
                   | None => empty_doc
                   end |}
  end.
Proof.
  intros Hauth. unfold latest_log, qualifying. rewrite Hauth. simpl.
  destruct (load_manifest_sorted st) as (es & -> & _).
  destruct (last (before_cutoff before es)) as [x|]; [|reflexivity].
  destruct (_find_file_by_name_in_folder (e_file x) st) as [f|] eqn:Hf;
    [|reflexivity].
  now destruct (find_read _ _ _ Hf) as [d ->].
Qed.

End Latest.

(** C3. With a cutoff [before] supplied (a non-empty string), [GET
    /logs/latest] chooses among the loaded manifest entries whose date is
    strictly below the cutoff only: it answers 404 "No logs found" exactly
    when there is none, and otherwise answers 200 with an entry that is
    below the cutoff and whose date is greatest among those below it. *)
Theorem C3_latest_before_cutoff (API_KEY authorization b : string) (st : Drive) :
  require_auth API_KEY authorization = true ->
  b <> EmptyString ->
  exists entries,
    _load_manifest_entries st = Some entries
    /\ (((forall e, In e entries -> ~ str_lt (e_date e) b)
         /\ latest_log API_KEY authorization (Some b) st
            = HTTPError 404 "No logs found")
        \/ (exists body,
              latest_log API_KEY authorization (Some b) st = OK body
              /\ In (meta body) entries
              /\ str_lt (e_date (meta body)) b
              /\ forall e, In e entries -> str_lt (e_date e) b ->
                           date_le e (meta body))).
Proof.
  intros Hauth Hb.
  destruct (load_manifest_sorted st) as (es & Hload & Hsorted).
  exists es. split; [exact Hload|].
  rewrite (latest_log_eq API_KEY _ _ _ Hauth). unfold qualifying. rewrite Hload.
  destruct (last (before_cutoff (Some b) es)) as [x|] eqn:Hlast.
  - right. eexists. split; [reflexivity|]. simpl.
    pose proof (last_In _ _ Hlast) as Hin.
    apply (before_cutoff_In b es x Hb) in Hin as [Hin Hlt].
    repeat split; auto.
    intros e He Hlt'.
    apply (last_sorted_max (before_cutoff (Some b) es) x);
      [now apply before_cutoff_sorted | exact Hlast |].
    now apply before_cutoff_In.
  - left. split; [|reflexivity].
    apply last_None in Hlast. intros e He Hlt.
    assert (Hin : In e (before_cutoff (Some b) es)) by now apply before_cutoff_In.
    rewrite Hlast in Hin. contradiction.
Qed.

(** C10. When the file named by the last qualifying manifest entry is not in
    the folder, [GET /logs/latest] answers 200 with that entry as [meta] and
    the empty object as [log]. *)
Theorem C10_latest_missing_file (API_KEY authorization : string)
  (before : option string) (st : Drive) (e : Entry) :
  require_auth API_KEY authorization = true ->
  last (qualifying before st) = Some e ->
  _find_file_by_name_in_folder (e_file e) st = None ->
  latest_log API_KEY authorization before st
  = OK {| meta := e; log := empty_doc |}.
Proof.
  intros Hauth Hlast Hnone.
  rewrite (latest_log_eq API_KEY _ _ _ Hauth), Hlast, Hnone. reflexivity.
Qed.

(** ** Validation *)

Section Validation.

Lemma validate_list_Forall2 {A B : Type} (f : A -> option B) (l : list A) :
  forall l', validate_list f l = Some l' ->
             Forall2 (fun x y => f x = Some y) l l'.
Proof.
  induction l as [|x r IH]; simpl; intros l'.
  - intros [= <-]. constructor.
  - destruct (f x) as [y|] eqn:Hy; [|discriminate].
    destruct (validate_list f r) as [r'|]; [|discriminate].
    intros [= <-]. constructor; auto.
Qed.

Lemma validate_Exercise_sets (e e' : Exercise) :
  validate_Exercise e = Some e' -> (sets e = [] <-> sets e' = []).
Proof.
  unfold validate_Exercise. destruct (name_nonempty (name e)); [|discriminate].
  destruct (validate_list validate_Set (sets e)) as [ss|] eqn:Hs; [|discriminate].
  intros [= <-]. simpl. apply validate_list_Forall2 in Hs.
  destruct Hs; split; congruence.
Qed.

Lemma existsb_truthy_has_sets (exs : list Exercise) :
  existsb (fun e => truthy (sets e)) exs = true <-> has_sets exs.
Proof.
  rewrite existsb_exists. unfold has_sets.
  split; intros (e & Hin & He); exists e; split; auto.
  - destruct (sets e); [discriminate | congruence].
  - destruct (sets e); [congruence | reflexivity].
Qed.

Lemma at_least_one_set_Some (v v' : list Exercise) :
  at_least_one_set v = Some v' -> v' = v /\ has_sets v.
Proof.
  unfold at_least_one_set.
  destruct (truthy v); simpl; [|discriminate].
  destruct (existsb _ v) eqn:He; simpl; [|discriminate].
  intros [= <-]. split; [reflexivity|]. now apply existsb_truthy_has_sets.
Qed.

Lemma has_sets_validated (exs exs' : list Exercise) :
  validate_list validate_Exercise exs = Some exs' ->
  has_sets exs' -> has_sets exs.
Proof.
  intros Hv. apply validate_list_Forall2 in Hv.
  induction Hv as [|x y r r' Hxy Hr IH]; intros (e & Hin & He).
  - contradiction.
  - destruct Hin as [<- | Hin].
    + exists x. split; [now left|].
      intros Hx. apply He. now apply (validate_Exercise_sets x y Hxy).
    + destruct IH as (e0 & Hin0 & He0); [now exists e|].
      exists e0. split; [now right | assumption].
Qed.

Lemma validate_has_sets (fresh : string) (body : WorkoutLogIn) (l : WorkoutLog) :
  validate_WorkoutLog fresh body = Some l ->
  has_sets (exercises l) /\ has_sets (in_exercises body).
Proof.
  unfold validate_WorkoutLog.
  destruct (date_iso (in_date body)); [|discriminate].
  destruct (workout_type_enum (in_workout_type body)); [|discriminate].
  destruct (validate_list validate_Exercise (in_exercises body)) as [exs|] eqn:Hv;
    [|discriminate].
  destruct (at_least_one_set exs) as [exs'|] eqn:Ha; [|discriminate].
  intros [= <-]. simpl.
  apply at_least_one_set_Some in Ha as [-> Hs].
  split; [assumption | now apply (has_sets_validated _ exs)].
Qed.

End Validation.

(** C9. [POST /logs] answers the client error 422, leaving the folder as it
    is, whenever the body has no exercise with at least one set (among them
    the bodies with an empty exercise list); a body that passes validation
    has an exercise whose list of sets is not empty, before and after
    validation. *)
Theorem C9_needs_exercise_with_sets (API_KEY : string)
  (sha256_hex : JsonDoc -> string) (fresh : string) (body : WorkoutLogIn)
  (authorization now : string) (st : Drive) :
  (~ has_sets (in_exercises body) ->
   validate_WorkoutLog fresh body = None
   /\ post_logs API_KEY sha256_hex fresh body authorization now st
      = (Unprocessable, st))
  /\ (forall l, validate_WorkoutLog fresh body = Some l ->
                has_sets (in_exercises body) /\ has_sets (exercises l)).
Proof.
  split.
  - intros Hno. assert (Hv : validate_WorkoutLog fresh body = None).
    { destruct (validate_WorkoutLog fresh body) as [l|] eqn:Hv; [|reflexivity].
      exfalso. apply Hno. now apply (validate_has_sets fresh body l). }
    split; [exact Hv|]. unfold post_logs. now rewrite Hv.
  - intros l Hv. destruct (validate_has_sets fresh body l Hv). auto.
Qed.

(** C5. The date validator accepts the date [2024-1-5], which is not of
    the form YYYY-MM-DD, and a body carrying it passes the schema; the path
    pattern of [GET /logs/by-date/{date}] refuses the same string. *)
Theorem C5_unpadded_date_accepted :
  date_iso "2024-1-5" = Some "2024-1-5"
  /\ date_pattern "2024-1-5" = false
  /\ (forall fresh,
        validate_WorkoutLog fresh unpadded_body = Some (unpadded_log fresh)).
Proof. repeat split. Qed.

(** ** Rebuilding the manifest from the folder *)

Section Rebuild.

Lemma files_from_map (q : DriveFile -> bool) (st : Drive) (i : nat) :
  map fname (files_from i q st) = map f_name (List.filter q st).
Proof.
  revert i. induction st as [|f r IH]; intros i; simpl; [reflexivity|].
  rewrite map_app, IH. now destruct (q f).
Qed.

Lemma rebuild_entries_names (files : list FileMeta) :
  rebuild_entries files =
  map entry_of_name
    (List.filter
       (fun nm => negb (nm =? index_name)%string && endswith nm ".json")
       (map fname files)).
Proof.
  induction files as [|f r IH]; simpl; [reflexivity|].
  destruct (fname f =? index_name)%string; simpl; [exact IH|].
  destruct (endswith (fname f) ".json"); simpl; [now rewrite IH | exact IH].
Qed.

Lemma substring_prefix (p s : string) :
  substring 0 (String.length p) (p ++ s) = p.
Proof.
  induction p as [|c p IH]; simpl.
  - now destruct s.
  - now rewrite IH.
Qed.

Lemma length_append (p s : string) :
  String.length (p ++ s) = (String.length p + String.length s)%nat.
Proof. induction p as [|c p IH]; simpl; [reflexivity | now rewrite IH]. Qed.

Lemma endswith_split (s suffix : string) :
  endswith s suffix = true -> exists p, s = (p ++ suffix)%string.
Proof.
  induction s as [|c s IH]; cbn [endswith].
  - rewrite orb_false_r. intros H. apply String.eqb_eq in H.
    exists EmptyString. now rewrite <- H.
  - intros H. apply orb_true_iff in H as [H | H].
    + apply String.eqb_eq in H. exists EmptyString. now rewrite <- H.
    + destruct (IH H) as [p ->]. now exists (String c p).
Qed.

(** The date of a rebuilt entry, with the suffix put back, is its file. *)
Lemma drop_last5_json (nm : string) :
  endswith nm ".json" = true -> (drop_last5 nm ++ ".json")%string = nm.
Proof.
  intros H. apply endswith_split in H as [p ->].
  unfold drop_last5. rewrite length_append. simpl.
  replace (String.length p + 5 - 5)%nat with (String.length p) by lia.
  now rewrite substring_prefix.
Qed.

End Rebuild.

(** C7. When the folder has no [index.json], loading the manifest answers
    the entries rebuilt from the folder's JSON files: one entry per file
    whose name ends in [.json] ([index.json] left out), with the file name
    as [file] and the name minus [.json] as [date], sorted by date in
    ascending order. *)
Theorem C7_rebuild_when_absent (st : Drive) :
  _find_file_by_name_in_folder index_name st = None ->
  exists entries,
    _load_manifest_entries st = Some entries
    /\ entries = sort_by_date (rebuilt_from_names st)
    /\ Permutation entries (rebuilt_from_names st)
    /\ StronglySorted date_le entries
    /\ forall e, In e entries ->
         (e_date e ++ ".json")%string = e_file e
         /\ e_file e <> index_name
         /\ exists f, In f st /\ f_json f = true /\ f_name f = e_file e.
Proof.
  intros Hnone. unfold _load_manifest_entries. rewrite Hnone.
  eexists. split; [reflexivity|].
  assert (Heq : rebuild_entries (_list_json_files_in_folder st)
                = rebuilt_from_names st).
  { unfold _list_json_files_in_folder, files_list, rebuilt_from_names.
    now rewrite rebuild_entries_names, files_from_map. }
  rewrite Heq. split; [reflexivity|].
  split; [apply sort_by_date_perm|]. split; [apply sort_by_date_sorted|].
  intros e He. apply (proj1 (sort_by_date_In _ _)) in He.
  unfold rebuilt_from_names in He.
  apply in_map_iff in He as (nm & <- & Hnm).
  apply filter_In in Hnm as [Hnm Hq].
  apply andb_true_iff in Hq as [Hidx Hend].
  apply in_map_iff in Hnm as (f & <- & Hf).
  apply filter_In in Hf as [Hf Hjson]. simpl.
  split; [now apply drop_last5_json|]. split.
  - apply negb_true_iff in Hidx. now apply String.eqb_neq.
  - exists f. auto.
Qed.

(** ** Normalised labels *)

Section Normalisation.

Ltac by_cases_on c :=
  destruct c as [[] [] [] [] [] [] [] []]; vm_compute; reflexivity.

Lemma lower_char_idem (c : ascii) : lower_char (lower_char c) = lower_char c.
Proof. by_cases_on c. Qed.

Lemma is_space_lower_char (c : ascii) : is_space (lower_char c) = is_space c.
Proof. by_cases_on c. Qed.

Lemma lower_idem (s : string) : lower (lower s) = lower s.
Proof.
  induction s as [|c s IH]; simpl; [reflexivity|].
  now rewrite lower_char_idem, IH.
Qed.

Lemma lstrip_lower (s : string) : lstrip (lower s) = lower (lstrip s).
Proof.
  induction s as [|c s IH]; simpl; [reflexivity|].
  rewrite is_space_lower_char. now destruct (is_space c).
Qed.

Lemma rstrip_lower (s : string) : rstrip (lower s) = lower (rstrip s).
Proof.
  induction s as [|c s IH]; simpl; [reflexivity|].
  rewrite IH, is_space_lower_char.
  destruct (rstrip s); simpl; [now destruct (is_space c) | reflexivity].
Qed.

Lemma strip_lower (s : string) : strip (lower s) = lower (strip s).
Proof. unfold strip. now rewrite lstrip_lower, rstrip_lower. Qed.

Lemma rstrip_idem (s : string) : rstrip (rstrip s) = rstrip s.
Proof.
  induction s as [|c s IH]; simpl; [reflexivity|].
  destruct (rstrip s) as [|c' r'] eqn:Hr.
  - destruct (is_space c) eqn:Hc; simpl; [reflexivity | now rewrite Hc].
  - change (rstrip (String c (String c' r')))
      with (match rstrip (String c' r') with
            | EmptyString =>
                if is_space c then EmptyString else String c EmptyString
            | r0 => String c r0
            end).
    now rewrite IH.
Qed.

Lemma lstrip_no_lead (s : string) : no_lead_space (lstrip s).
Proof.
  induction s as [|c s IH]; simpl; [exact I|].
  destruct (is_space c) eqn:Hc; [exact IH | exact Hc].
Qed.

Lemma rstrip_no_lead (s : string) : no_lead_space s -> no_lead_space (rstrip s).
Proof.
  destruct s as [|c s]; simpl; [auto|]. intros Hc. rewrite Hc.
  now destruct (rstrip s).
Qed.

Lemma lstrip_id (s : string) : no_lead_space s -> lstrip s = s.
Proof. destruct s as [|c s]; simpl; [auto|]. now intros ->. Qed.

Lemma strip_idem (s : string) : strip (strip s) = strip s.
Proof.
  unfold strip.
  rewrite (lstrip_id (rstrip (lstrip s)))
    by (apply rstrip_no_lead, lstrip_no_lead).
  apply rstrip_idem.
Qed.

Lemma norm_idem (s : string) : norm (norm s) = norm s.
Proof. unfold norm. now rewrite strip_lower, strip_idem, lower_idem. Qed.

Lemma norm_lower (s : string) : lower (norm s) = norm s.
Proof. apply lower_idem. Qed.

Lemma norm_strip (s : string) : strip (norm s) = norm s.
Proof. unfold norm. now rewrite strip_lower, strip_idem. Qed.

Lemma lower_empty (s : string) : lower s = EmptyString -> s = EmptyString.
Proof. now destruct s. Qed.

Lemma nonblank_norm (s : string) : nonblank s = true -> norm s <> EmptyString.
Proof.
  unfold nonblank, norm. intros H Hn. apply lower_empty in Hn.
  now rewrite Hn in H.
Qed.

(** What the validator stores for a list of labels. *)
Lemma muscles_norm_In (v : list string) (m : string) :
  In m (map norm (List.filter nonblank v)) <->
  exists raw, In raw v /\ nonblank raw = true /\ m = norm raw.
Proof.
  rewrite in_map_iff. split.
  - intros (raw & <- & Hin). apply filter_In in Hin as [Hin Hnb]. eauto.
  - intros (raw & Hin & Hnb & ->). exists raw. split; [reflexivity|].
    now apply filter_In.
Qed.

Lemma str_in_In (x : string) (l : list string) :
  str_in x l = true <-> In x l.
Proof.
  unfold str_in. rewrite existsb_exists. split.
  - intros (y & Hin & Heq). apply String.eqb_eq in Heq. now subst.
  - intros Hin. exists x. split; [assumption | apply String.eqb_refl].
Qed.

End Normalisation.

Section Muscle.

Lemma muscle_scan_outcome (needle : string) (st : Drive) (es : list Entry)
  (k1 k2 : response MuscleBody) :
  same_outcome k1 k2 ->
  same_outcome (muscle_scan needle st es k1) (muscle_scan needle st es k2).
Proof.
  intros Hk. induction es as [|e r IH]; simpl; [exact Hk|].
  destruct (_find_file_by_name_in_folder (e_file e) st) as [f|]; [|exact IH].
  destruct (_read_json_file (fid f) st) as [data|]; [|exact I].
  destruct (match_exercise needle (default [] (d_exercises data)));
    [reflexivity | exact IH].
Qed.

Lemma validate_Exercise_muscles (e e' : Exercise) :
  validate_Exercise e = Some e' ->
  target_muscles e' = muscles_norm (target_muscles e).
Proof.
  unfold validate_Exercise. destruct (name_nonempty (name e)); [|discriminate].
  destruct (validate_list validate_Set (sets e)); [|discriminate].
  now intros [= <-].
Qed.

End Muscle.

(** C8. For an exercise that passes validation with a list of target
    muscles, every stored label is lower-cased, stripped and not empty; a
    query for a muscle finds the exercise whenever the query normalises to
    the same string as one of the non-blank labels sent; and the answer of
    [GET /logs/latest_for_muscle] is the same, up to the text of the 404,
    for two queries that normalise to the same string. *)
Theorem C8_muscle_labels_normalised (API_KEY : string) (e e' : Exercise)
  (l : list string) :
  validate_Exercise e = Some e' ->
  target_muscles e' = Some l ->
  (forall m, In m l -> lower m = m /\ strip m = m /\ m <> EmptyString)
  /\ (forall v raw q,
        target_muscles e = Some v -> In raw v -> nonblank raw = true ->
        norm q = norm raw -> match_exercise (norm q) [e'] = Some e')
  /\ (forall authorization q1 q2 before st,
        norm q1 = norm q2 ->
        same_outcome (latest_for_muscle API_KEY authorization q1 before st)
                     (latest_for_muscle API_KEY authorization q2 before st)).
Proof.
  intros Hv Hl. pose proof (validate_Exercise_muscles e e' Hv) as Hm.
  rewrite Hl in Hm. split; [|split].
  - intros m Hin. destruct (target_muscles e) as [v|]; [|discriminate].
    simpl in Hm. injection Hm as ->.
    apply muscles_norm_In in Hin as (raw & _ & Hnb & ->).
    repeat split; [apply norm_lower | apply norm_strip | now apply nonblank_norm].
  - intros v raw q Hv' Hin Hnb Hq. rewrite Hv' in Hm. simpl in Hm.
    injection Hm as ->. simpl. rewrite Hl. simpl.
    assert (Hfound : str_in (norm q) (map norm (map norm (List.filter nonblank v)))
                     = true).
    { apply str_in_In. rewrite Hq, <- (norm_idem raw).
      apply in_map. apply muscles_norm_In. eauto. }
    now rewrite Hfound.
  - intros authorization q1 q2 before st Hq. unfold latest_for_muscle.
    destruct (negb (require_auth API_KEY authorization)); [reflexivity|].
    destruct (_load_manifest_entries st) as [entries|]; [|exact I].
    rewrite Hq. now apply muscle_scan_outcome.
Qed.

(** ** [GET /logs/latest_for_workout] *)

Section Workout.

Variable API_KEY : string.

Lemma strict_scan_find (t : string) (st : Drive) (es : list Entry)
  (k : response LogBody) :
  strict_scan t st es k =
  match List.find (is_strict t st) es with
  | Some e => OK (entry_body st e)
  | None => k
  end.
Proof.
  induction es as [|e r IH]; simpl; [reflexivity|].
  destruct (is_strict t st e) eqn:Hs;
    unfold is_strict, file_doc in Hs; unfold entry_body, file_doc;
    destruct (wt_norm (e_workout_type e) =? t)%string; simpl in Hs;
    try discriminate; try exact IH;
    (destruct (_find_file_by_name_in_folder (e_file e) st) as [f|] eqn:Hf;
     [|try discriminate; exact IH]);
    destruct (find_read _ _ _ Hf) as [data Hd]; rewrite Hd in Hs |- *;
    simpl;
    destruct (wt_norm (d_workout_type data) =? t)%string;
    destruct (any_muscles data); simpl in Hs;
    try discriminate; try reflexivity; exact IH.
Qed.

Lemma relaxed_scan_find (t : string) (st : Drive) (es : list Entry)
  (k : response LogBody) :
  relaxed_scan t st es k =
  match List.find (is_relaxed t st) es with
  | Some e => OK (entry_body st e)
  | None => k
  end.
Proof.
  induction es as [|e r IH]; simpl; [reflexivity|].
  destruct (is_relaxed t st e) eqn:Hs;
    unfold is_relaxed, file_doc in Hs; unfold entry_body, file_doc;
    (destruct (_find_file_by_name_in_folder (e_file e) st) as [f|] eqn:Hf;
     [|try discriminate; exact IH]);
    destruct (find_read _ _ _ Hf) as [data Hd]; rewrite Hd in Hs |- *;
    simpl;
    destruct (wt_norm (d_workout_type data) =? t)%string;
    try discriminate; try reflexivity; exact IH.
Qed.

(** Scanning a sorted list from its end finds a latest match. *)
Lemma find_rev_latest (p : Entry -> bool) (es : list Entry) (x : Entry) :
  StronglySorted date_le es -> List.find p (rev es) = Some x ->
  latest_among p es x.
Proof.
  induction 1 as [|a r Hr IH Hall]; simpl; [discriminate|].
  rewrite find_app_first. rewrite Forall_forall in Hall.
  destruct (List.find p (rev r)) as [y|] eqn:Hy.
  - intros [= <-]. destruct (IH eq_refl) as (Hin & Hp & Hmax).
    repeat split; [now right | assumption |].
    intros e' [<- | He'] Hpe'; [|now apply Hmax].
    apply Hall. now apply list_elem_of_In.
  - simpl. destruct (p a) eqn:Hpa; [|discriminate]. intros [= <-].
    repeat split; [now left | assumption |].
    intros e' [<- | He'] Hpe'; [apply str_le_refl|].
    apply in_rev in He'. pose proof (find_none _ _ Hy e' He'). congruence.
Qed.

Lemma find_rev_none (p : Entry -> bool) (es : list Entry) :
  List.find p (rev es) = None <-> forall e, In e es -> p e = false.
Proof.
  split.
  - intros H e He. apply (find_none _ _ H). now apply in_rev in He.
  - intros H. destruct (List.find p (rev es)) as [y|] eqn:Hy; [|reflexivity].
    apply find_some in Hy as [Hin Hp]. apply in_rev in Hin.
    rewrite (H y Hin) in Hp. discriminate.
Qed.

Lemma type_pattern_norm (type : string) :
  type_pattern type = true -> norm type = type.
Proof.
  intros H. apply str_in_In in H.
  destruct H as [<- | [<- | [<- | []]]]; reflexivity.
Qed.

Lemma qualifying_sorted (before : option string) (st : Drive) :
  StronglySorted date_le (qualifying before st).
Proof.
  unfold qualifying. destruct (load_manifest_sorted st) as (es & -> & Hs).
  now apply before_cutoff_sorted.
Qed.

(** The handler as two searches from the latest qualifying entry down. *)
Lemma latest_for_workout_eq (authorization type : string)
  (before : option string) (st : Drive) :
  require_auth API_KEY authorization = true ->
  type_pattern type = true ->
  latest_for_workout API_KEY authorization type before st =
  match List.find (is_strict type st) (rev (qualifying before st)) with
  | Some e => OK (entry_body st e)
  | None =>
      match List.find (is_relaxed type st) (rev (qualifying before st)) with
      | Some e => OK (entry_body st e)
      | None =>
          HTTPError 404 ("No logs found for workout_type '" ++ type ++ "'")
      end
  end.
Proof.
  intros Hauth Htype. unfold latest_for_workout, qualifying.
  rewrite Hauth, Htype, (type_pattern_norm type Htype). simpl.
  destruct (load_manifest_sorted st) as (es & -> & _).
  now rewrite strict_scan_find, relaxed_scan_find.
Qed.

End Workout.

(** C4, as stated, fails on [cx_drive]: asked for [push], the handler
    answers the log of 2024-01-02, whose workout type is [pull]. That log
    is not the latest one with workout type [push] (the log of 2024-01-01
    is), and its entry is not the latest one listed as [push] either (the
    entry of 2024-01-03 is, and its file is there). *)
Lemma C4_counterexample :
  latest_for_workout "k" "Bearer k" "push" None cx_drive
  = OK {| meta := cx_entry "2024-01-02";
          log := cx_doc "2024-01-02" "pull" (Some ["lats"]) |}
  /\ ~ (forall body,
          latest_for_workout "k" "Bearer k" "push" None cx_drive = OK body ->
          wt_norm (d_workout_type (log body)) = "push"
          /\ latest_among (log_matches "push" cx_drive)
               (qualifying None cx_drive) (meta body))
  /\ latest_among (log_matches "push" cx_drive) (qualifying None cx_drive)
       (cx_entry "2024-01-01")
  /\ In (cx_entry "2024-01-03") (qualifying None cx_drive)
  /\ wt_norm (e_workout_type (cx_entry "2024-01-03")) = "push"
  /\ file_doc (cx_entry "2024-01-03") cx_drive
     = Some (cx_doc "2024-01-03" "pull" None)
  /\ date_lt (cx_entry "2024-01-02") (cx_entry "2024-01-03").
Proof.
  split; [reflexivity|]. split.
  - intros H. destruct (H _ eq_refl) as [Hwt _]. vm_compute in Hwt.
    discriminate.
  - split.
    + split; [vm_compute; auto|]. split; [reflexivity|].
      intros e' He' Hp. vm_compute in He'.
      destruct He' as [<- | [<- | [<- | []]]];
        [reflexivity | vm_compute in Hp; discriminate
         | vm_compute in Hp; discriminate].
    + repeat split; vm_compute; auto.
Qed.

Section WorkoutFacts.

Lemma is_strict_true (t : string) (st : Drive) (e : Entry) :
  is_strict t st e = true ->
  wt_norm (e_workout_type e) = t
  /\ exists data, file_doc e st = Some data
                  /\ (wt_norm (d_workout_type data) = t
                      \/ any_muscles data = true).
Proof.
  unfold is_strict. intros H. apply andb_true_iff in H as [Hwt Hd].
  apply String.eqb_eq in Hwt. split; [exact Hwt|].
  destruct (file_doc e st) as [data|]; [|discriminate].
  exists data. split; [reflexivity|].
  apply orb_true_iff in Hd as [Hd | Hd]; [left | now right].
  now apply String.eqb_eq.
Qed.

Lemma is_relaxed_true (t : string) (st : Drive) (e : Entry) :
  is_relaxed t st e = true ->
  exists data, file_doc e st = Some data /\ wt_norm (d_workout_type data) = t.
Proof.
  unfold is_relaxed. destruct (file_doc e st) as [data|]; [|discriminate].
  intros H. apply String.eqb_eq in H. eauto.
Qed.

End WorkoutFacts.

(** C4, amended. [GET /logs/latest_for_workout] with type [t] answers the
    latest qualifying entry that the first loop accepts: listed with workout
    type [t] in the manifest, its file in the folder, and its document
    either of workout type [t] or naming target muscles in some exercise.
    Only when no qualifying entry is accepted so does it fall back to the
    latest qualifying entry whose document has workout type [t], whatever
    the manifest says. In an answer the manifest entry or the document has
    workout type [t]; with no entry accepted by either loop the answer is
    404. *)
Theorem C4_latest_for_workout (API_KEY authorization type : string)
  (before : option string) (st : Drive) :
  require_auth API_KEY authorization = true ->
  type_pattern type = true ->
  match latest_for_workout API_KEY authorization type before st with
  | OK body =>
      file_doc (meta body) st = Some (log body)
      /\ (latest_among (is_strict type st) (qualifying before st) (meta body)
          \/ ((forall e, In e (qualifying before st) ->
                         is_strict type st e = false)
              /\ latest_among (is_relaxed type st) (qualifying before st)
                   (meta body)))
      /\ (wt_norm (e_workout_type (meta body)) = type
          \/ wt_norm (d_workout_type (log body)) = type)
  | HTTPError status detail =>
      status = 404
      /\ detail = ("No logs found for workout_type '" ++ type ++ "'")%string
      /\ forall e, In e (qualifying before st) ->
                   is_strict type st e = false /\ is_relaxed type st e = false
  | _ => False
  end.
Proof.
  intros Hauth Htype.
  rewrite (latest_for_workout_eq API_KEY _ _ _ _ Hauth Htype).
  pose proof (qualifying_sorted before st) as Hsorted.
  destruct (List.find (is_strict type st) (rev (qualifying before st)))
    as [e|] eqn:Hs.
  - apply (find_rev_latest _ _ _ Hsorted) in Hs.
    destruct (is_strict_true _ _ _ (proj1 (proj2 Hs))) as (Hwt & data & Hd & _).
    simpl. rewrite Hd. simpl. auto.
  - pose proof (proj1 (find_rev_none _ _) Hs) as Hs'.
    destruct (List.find (is_relaxed type st) (rev (qualifying before st)))
      as [e|] eqn:Hr.
    + apply (find_rev_latest _ _ _ Hsorted) in Hr.
      destruct (is_relaxed_true _ _ _ (proj1 (proj2 Hr))) as (data & Hd & Hwt).
      simpl. rewrite Hd. simpl. auto.
    + pose proof (proj1 (find_rev_none _ _) Hr) as Hr'. repeat split; auto.
Qed.

Lemma C4_latest_for_workout_witness :
  match latest_for_workout "k" "Bearer k" "push" None cx_drive with
  | OK body =>
      file_doc (meta body) cx_drive = Some (log body)
      /\ (latest_among (is_strict "push" cx_drive) (qualifying None cx_drive)
            (meta body)
          \/ ((forall e, In e (qualifying None cx_drive) ->
                         is_strict "push" cx_drive e = false)
              /\ latest_among (is_relaxed "push" cx_drive)
                   (qualifying None cx_drive) (meta body)))
      /\ (wt_norm (e_workout_type (meta body)) = "push"
          \/ wt_norm (d_workout_type (log body)) = "push")
  | HTTPError status detail =>
      status = 404
      /\ detail = "No logs found for workout_type 'push'"
      /\ forall e, In e (qualifying None cx_drive) ->
                   is_strict "push" cx_drive e = false
                   /\ is_relaxed "push" cx_drive e = false
  | _ => False
  end.
Proof.
  apply (C4_latest_for_workout "k" "Bearer k" "push" None cx_drive);
    reflexivity.
Defined.

(** ** Missing resources *)

Section NotFound.

Lemma muscle_scan_none (needle : string) (st : Drive) (es : list Entry)
  (k : response MuscleBody) :
  (forall e, In e es -> muscle_hit needle st e = false) ->
  muscle_scan needle st es k = k.
Proof.
  induction es as [|e r IH]; simpl; intros H; [reflexivity|].
  pose proof (H e (or_introl eq_refl)) as He.
  unfold muscle_hit, file_doc in He.
  destruct (_find_file_by_name_in_folder (e_file e) st) as [f|] eqn:Hf.
  - destruct (find_read _ _ _ Hf) as [data Hd]. rewrite Hd in He |- *.
    destruct (match_exercise needle (default [] (d_exercises data)));
      [discriminate|].
    apply IH. intros e' He'. apply H. now right.
  - apply IH. intros e' He'. apply H. now right.
Qed.

End NotFound.

(** C6, as stated, fails: on the empty folder [GET /logs/by-date] answers
    404 with a message that names the date asked for, so no single message
    serves all requests; the messages of the lookups by workout type and by
    muscle vary with the request in the same way. *)
Lemma C6_counterexample :
  ~ (exists msg, forall date, date_pattern date = true ->
       fetch_log "k" date "Bearer k" [] = HTTPError 404 msg)
  /\ fetch_log "k" "2024-01-01" "Bearer k" []
     = HTTPError 404 "No log for 2024-01-01"
  /\ fetch_log "k" "2024-01-02" "Bearer k" []
     = HTTPError 404 "No log for 2024-01-02"
  /\ latest_for_workout "k" "Bearer k" "push" None []
     = HTTPError 404 "No logs found for workout_type 'push'"
  /\ latest_for_workout "k" "Bearer k" "legs" None []
     = HTTPError 404 "No logs found for workout_type 'legs'"
  /\ latest_for_muscle "k" "Bearer k" "Chest" None []
     = HTTPError 404 "No logs found containing muscle 'Chest'"
  /\ latest_for_muscle "k" "Bearer k" "lats" None []
     = HTTPError 404 "No logs found containing muscle 'lats'".
Proof.
  split; [|repeat split].
  intros [msg H].
  pose proof (H "2024-01-01" eq_refl) as H1.
  pose proof (H "2024-01-02" eq_refl) as H2.
  vm_compute in H1, H2. congruence.
Qed.

(** C6, amended. An authorised request that finds no matching resource is
    answered with HTTP 404. The message is the fixed text "No logs found"
    for [GET /logs/latest] only; for the lookup by date it ends with the
    date asked for, for the lookup by workout type it quotes the type, and
    for the lookup by muscle it quotes the muscle as it was sent. *)
Theorem C6_not_found_is_404 (API_KEY authorization : string) (st : Drive) :
  require_auth API_KEY authorization = true ->
  (forall date, date_pattern date = true ->
     _find_file_by_name_in_folder (date ++ ".json") st = None ->
     fetch_log API_KEY date authorization st
     = HTTPError 404 ("No log for " ++ date))
  /\ (forall before, qualifying before st = [] ->
        latest_log API_KEY authorization before st
        = HTTPError 404 "No logs found")
  /\ (forall type before, type_pattern type = true ->
        (forall e, In e (qualifying before st) ->
                   is_strict type st e = false /\ is_relaxed type st e = false) ->
        latest_for_workout API_KEY authorization type before st
        = HTTPError 404 ("No logs found for workout_type '" ++ type ++ "'"))
  /\ (forall muscle before,
        (forall e, In e (qualifying before st) ->
                   muscle_hit (norm muscle) st e = false) ->
        latest_for_muscle API_KEY authorization muscle before st
        = HTTPError 404 ("No logs found containing muscle '" ++ muscle ++ "'")).
Proof.
  intros Hauth. repeat split.
  - intros date Hpat Hnone. unfold fetch_log.
    now rewrite Hpat, Hauth, Hnone.
  - intros before Hq. rewrite (latest_log_eq API_KEY _ _ _ Hauth), Hq.
    reflexivity.
  - intros type before Htype Hnone.
    rewrite (latest_for_workout_eq API_KEY _ _ _ _ Hauth Htype).
    rewrite (proj2 (find_rev_none (is_strict type st) _))
      by (intros e He; apply (Hnone e He)).
    rewrite (proj2 (find_rev_none (is_relaxed type st) _))
      by (intros e He; apply (Hnone e He)).
    reflexivity.
  - intros muscle before Hnone. unfold latest_for_muscle. rewrite Hauth. simpl.
    unfold qualifying in Hnone.
    destruct (load_manifest_sorted st) as (es & Hload & _).
    rewrite Hload in Hnone |- *.
    apply muscle_scan_none. intros e He. apply Hnone. now apply in_rev.
Qed.

Lemma C6_not_found_is_404_witness :
  fetch_log "k" "2024-02-01" "Bearer k" cx_drive
  = HTTPError 404 "No log for 2024-02-01"
  /\ latest_log "k" "Bearer k" (Some "2024-01-01") cx_drive
     = HTTPError 404 "No logs found"
  /\ latest_for_workout "k" "Bearer k" "legs" None cx_drive
     = HTTPError 404 "No logs found for workout_type 'legs'"
  /\ latest_for_muscle "k" "Bearer k" " Chest" None cx_drive
     = HTTPError 404 "No logs found containing muscle ' Chest'".
Proof.
  destruct (C6_not_found_is_404 "k" "Bearer k" cx_drive eq_refl)
    as (Hdate & Hlatest & Hworkout & Hmuscle).
  split; [apply (Hdate "2024-02-01"); reflexivity|].
  split; [apply (Hlatest (Some "2024-01-01")); reflexivity|].
  split.
  - apply (Hworkout "legs" None); [reflexivity|].
    intros e He. vm_compute in He.
    destruct He as [<- | [<- | [<- | []]]]; split; reflexivity.
  - apply (Hmuscle " Chest" None).
    intros e He. vm_compute in He.
    destruct He as [<- | [<- | [<- | []]]]; reflexivity.
Defined.

(** ** Saving a log and fetching it by date *)

Section RoundTrip.

Variable API_KEY : string.
Variable sha256_hex : JsonDoc -> string.

(** Writing the log file: afterwards the first file of that name holds
    the payload, and the other names are found as before. *)
Lemma write_log_file (nm : string) (payload : JsonDoc) (st : Drive) :
  exists st1 m,
    match _find_file_by_name_in_folder nm st with
    | Some existing => _update_json_file (fid existing) payload st
    | None => Some (_create_json_file nm payload st)
    end = Some st1
    /\ _find_file_by_name_in_folder nm st1 = Some m
    /\ _read_json_file (fid m) st1 = Some payload.
Proof.
  destruct (_find_file_by_name_in_folder nm st) as [m|] eqn:Hfind.
  - destruct (find_Some _ _ _ Hfind) as (f & Hf & _).
    pose proof (update_Some _ payload _ _ Hf) as Hup.
    exists (<[fid m := set_content payload f]> st), m.
    split; [exact Hup|]. split.
    + rewrite <- Hfind. apply find_same_names.
      now apply (update_names _ _ _ _ Hup).
    + now apply (read_update_eq _ _ _ _ Hup).
  - exists (_create_json_file nm payload st),
           {| fid := length st; fname := nm |}.
    split; [reflexivity|]. split.
    + now rewrite find_create, Hfind, String.eqb_refl.
    + apply read_create_new.
Qed.

(** The manifest upsert leaves the files of other names alone. *)
Lemma upsert_manifest_keeps (e : Entry) (st st' : Drive) (nm : string)
  (m : FileMeta) :
  _upsert_manifest e st = Some st' ->
  nm <> index_name ->
  _find_file_by_name_in_folder nm st = Some m ->
  _find_file_by_name_in_folder nm st' = Some m
  /\ _read_json_file (fid m) st' = _read_json_file (fid m) st.
Proof.
  intros Hup Hne Hfind. unfold _upsert_manifest in Hup.
  destruct (find_Some _ _ _ Hfind) as (f & Hf & Hname & _).
  destruct (_find_file_by_name_in_folder index_name st) as [idx|] eqn:Hidx.
  - destruct (find_Some _ _ _ Hidx) as (g & Hg & Hgname & _).
    destruct (_read_json_file (fid idx) st) as [manifest|]; [|discriminate].
    split.
    + rewrite <- Hfind. apply find_same_names.
      now apply (update_names _ _ _ _ Hup).
    + apply (read_update_ne _ _ _ _ _ Hup).
      intros Heq. rewrite Heq in Hg. congruence.
  - injection Hup as <-. split.
    + now rewrite find_create, Hfind.
    + apply read_create_old. now apply lookup_lt_Some in Hf.
Qed.

(** A save stores the dumped log under the name built from its date. *)
Lemma save_log_stores (l : WorkoutLog) (authorization now : string)
  (st : Drive) :
  require_auth API_KEY authorization = true ->
  (date l ++ ".json")%string <> index_name ->
  exists st' m,
    save_log API_KEY sha256_hex l authorization now st
    = (OK {| ok := true; file := (date l ++ ".json")%string;
             sha256 := sha256_hex (model_dump l) |}, st')
    /\ _find_file_by_name_in_folder (date l ++ ".json") st' = Some m
    /\ _read_json_file (fid m) st' = Some (model_dump l).
Proof.
  intros Hauth Hne. unfold save_log. rewrite Hauth. simpl.
  destruct (write_log_file (date l ++ ".json") (model_dump l) st)
    as (st1 & m & -> & Hfind & Hread).
  destruct (upsert_manifest_stored
              (manifest_entry l (date l ++ ".json")
                 (sha256_hex (model_dump l)) now) st1)
    as (st2 & Hup & _).
  rewrite Hup.
  destruct (upsert_manifest_keeps _ _ _ _ _ Hup Hne Hfind) as [Hfind2 Hread2].
  exists st2, m. split; [reflexivity|]. split; [exact Hfind2|].
  now rewrite Hread2.
Qed.

Ltac split_char H :=
  match type of H with
  | context [match ?a with Ascii _ _ _ _ _ _ _ _ => _ end] =>
      is_var a; destruct a as [[] [] [] [] [] [] [] []];
      cbv beta iota in H; try discriminate H
  end.

Lemma date_pattern_length (d : string) :
  date_pattern d = true -> String.length d = 10%nat.
Proof.
  intros H. unfold date_pattern in H.
  do 10 (destruct d as [|? d];
         [cbv beta iota in H; repeat split_char H; discriminate H|]).
  destruct d; [reflexivity|].
  cbv beta iota in H; repeat split_char H; discriminate H.
Qed.

Lemma date_pattern_not_index (d : string) :
  date_pattern d = true -> (d ++ ".json")%string <> index_name.
Proof.
  intros H Heq. apply date_pattern_length in H.
  apply (f_equal String.length) in Heq.
  rewrite length_append, H in Heq. discriminate.
Qed.

(** The round trip for a date of the form the path pattern accepts. *)
Lemma save_then_fetch_padded (l : WorkoutLog) (authorization now : string)
  (st : Drive) :
  require_auth API_KEY authorization = true ->
  date_pattern (date l) = true ->
  exists st',
    save_log API_KEY sha256_hex l authorization now st
    = (OK {| ok := true; file := (date l ++ ".json")%string;
             sha256 := sha256_hex (model_dump l) |}, st')
    /\ fetch_log API_KEY (date l) authorization st' = OK (model_dump l).
Proof.
  intros Hauth Hpat.
  destruct (save_log_stores l authorization now st Hauth
              (date_pattern_not_index _ Hpat))
    as (st' & m & Hsave & Hfind & Hread).
  exists st'. split; [exact Hsave|].
  unfold fetch_log. now rewrite Hpat, Hauth, Hfind, Hread.
Qed.

End RoundTrip.

(** C1. A log dated [2024-1-5] passes validation and is saved: the folder
    then holds its dump under [2024-1-5.json]. Fetching it by that date is
    refused by the path pattern with 422, so the saved document does not
    come back. *)
Theorem C1_unpadded_date_not_fetchable (sha256_hex : JsonDoc -> string)
  (now : string) :
  validate_WorkoutLog "s" unpadded_body = Some (unpadded_log "s")
  /\ exists st' m,
       save_log "k" sha256_hex (unpadded_log "s") "Bearer k" now []
       = (OK {| ok := true; file := "2024-1-5.json";
                sha256 := sha256_hex (model_dump (unpadded_log "s")) |}, st')
       /\ _find_file_by_name_in_folder "2024-1-5.json" st' = Some m
       /\ _read_json_file (fid m) st' = Some (model_dump (unpadded_log "s"))
       /\ fetch_log "k" "2024-1-5" "Bearer k" st' = Unprocessable.
Proof.
  split; [reflexivity|]. do 2 eexists. split; [reflexivity|].
  split; [reflexivity|]. split; reflexivity.
Qed.

(** ** The theorems at concrete folders *)

Lemma C3_latest_before_cutoff_witness :
  exists entries,
    _load_manifest_entries cx_drive = Some entries
    /\ (((forall e, In e entries -> ~ str_lt (e_date e) "2024-01-03")
         /\ latest_log "k" "Bearer k" (Some "2024-01-03") cx_drive
            = HTTPError 404 "No logs found")
        \/ (exists body,
              latest_log "k" "Bearer k" (Some "2024-01-03") cx_drive = OK body
              /\ In (meta body) entries
              /\ str_lt (e_date (meta body)) "2024-01-03"
              /\ forall e, In e entries -> str_lt (e_date e) "2024-01-03" ->
                           date_le e (meta body))).
Proof.
  apply (C3_latest_before_cutoff "k" "Bearer k" "2024-01-03" cx_drive);
    [reflexivity | discriminate].
Defined.

Lemma C10_latest_missing_file_witness :
  latest_log "k" "Bearer k" None stale_drive
  = OK {| meta := cx_entry "2024-01-02"; log := empty_doc |}.
Proof.
  apply (C10_latest_missing_file "k" "Bearer k" None stale_drive
           (cx_entry "2024-01-02")); reflexivity.
Defined.

Lemma C7_rebuild_when_absent_witness :
  exists entries,
    _load_manifest_entries bare_drive = Some entries
    /\ entries = sort_by_date (rebuilt_from_names bare_drive)
    /\ Permutation entries (rebuilt_from_names bare_drive)
    /\ StronglySorted date_le entries
    /\ forall e, In e entries ->
         (e_date e ++ ".json")%string = e_file e
         /\ e_file e <> index_name
         /\ exists f, In f bare_drive /\ f_json f = true
                      /\ f_name f = e_file e.
Proof. apply (C7_rebuild_when_absent bare_drive). reflexivity. Defined.

Lemma C8_muscle_labels_normalised_witness :
  (forall m, In m ["chest"; "front delts"] ->
             lower m = m /\ strip m = m /\ m <> EmptyString)
  /\ match_exercise (norm " CHEST") [fly_stored] = Some fly_stored
  /\ same_outcome (latest_for_muscle "k" "Bearer k" " CHEST" None cx_drive)
                  (latest_for_muscle "k" "Bearer k" "chest " None cx_drive).
Proof.
  destruct (C8_muscle_labels_normalised "k" fly_raw fly_stored
              ["chest"; "front delts"] eq_refl eq_refl) as (H1 & H2 & H3).
  split; [exact H1|]. split.
  - apply (H2 ["  Chest "; "   "; "Front DELTS"] "  Chest " " CHEST");
      [reflexivity | now left | reflexivity | reflexivity].
  - apply H3. reflexivity.
Defined.

Lemma C9_needs_exercise_with_sets_witness :
  post_logs "k" (fun _ => "0") "s"
    {| in_schema_version := None; in_date := "2024-01-05";
       in_workout_type := None;
       in_exercises := [{| name := "bench"; sets := [];
                           target_muscles := None |}];
       in_notes := None; in_session_id := None |}
    "Bearer k" "now" [] = (Unprocessable, [])
  /\ has_sets (exercises (unpadded_log "s")).
Proof.
  split.
  - apply (C9_needs_exercise_with_sets "k" (fun _ => "0") "s").
    intros (e & [<- | []] & He). now apply He.
  - apply (C9_needs_exercise_with_sets "k" (fun _ => "0") "s" unpadded_body
             "Bearer k" "now" []). reflexivity.
Defined.

(** *** Checks of the model on small inputs *)

Example date_iso_padded : date_iso "2024-02-29" = Some "2024-02-29".
Proof. reflexivity. Qed.
Example date_iso_bad_day : date_iso "2023-02-29" = None.
Proof. reflexivity. Qed.
Example date_iso_bad_month : date_iso "2024-13-01" = None.
Proof. reflexivity. Qed.
Example date_iso_trailing : date_iso "2024-01-011" = None.
Proof. reflexivity. Qed.

Example norm_push : norm "  PuSh " = "push".
Proof. reflexivity. Qed.

Example strip_inner : strip (String "009" " a b  ") = "a b".
Proof. reflexivity. Qed.

Example sorted_is_stable :
  map e_file
    (sort_by_date
       [ {| e_date := "b"; e_file := "1"; e_hash := None; e_created_at := None;
            e_schema_version := None; e_session_id := None;
            e_workout_type := None |};
         {| e_date := "a"; e_file := "2"; e_hash := None; e_created_at := None;
            e_schema_version := None; e_session_id := None;
            e_workout_type := None |};
         {| e_date := "b"; e_file := "3"; e_hash := None; e_created_at := None;
            e_schema_version := None; e_session_id := None;
            e_workout_type := None |} ])
  = ["2"; "1"; "3"].
Proof. reflexivity. Qed.

Example upsert_twice :
  (stored_entries <$>
     upsert_all [cx_entry "2024-01-02"; cx_entry "2024-01-01";
                 cx_entry "2024-01-02"] [])
  = Some [cx_entry "2024-01-01"; cx_entry "2024-01-02"].
Proof. reflexivity. Qed.

Example latest_overall :
  latest_log "k" "Bearer k" None cx_drive
  = OK {| meta := cx_entry "2024-01-03";
          log := cx_doc "2024-01-03" "pull" None |}.
Proof. reflexivity. Qed.

Example latest_empty_cutoff :
  latest_log "k" "Bearer k" (Some "") cx_drive
  = latest_log "k" "Bearer k" None cx_drive.
Proof. reflexivity. Qed.

Example unauthorised :
  latest_log "k" "Bearer x" None cx_drive = HTTPError 401 "Unauthorized".
Proof. reflexivity. Qed.

Example rebuilt_bare :
  map e_date <$> _load_manifest_entries bare_drive
  = Some ["2024-01-01"; "2024-01-02"].
Proof. reflexivity. Qed.

Example muscle_found :
  latest_for_muscle "k" "Bearer k" " LATS " None cx_drive
  = OK {| m_meta := cx_entry "2024-01-02";
          m_log := cx_doc "2024-01-02" "pull" (Some ["lats"]);
          matched_exercise := "row" |}.
Proof. reflexivity. Qed.

(** * Further properties of the code *)

(** ** The folder helpers *)

Section FolderContracts.

Implicit Types (st : Drive) (nm : string).

Lemma files_from_head_first (q : DriveFile -> bool) st (i : nat) (m : FileMeta) :
  head (files_from i q st) = Some m ->
  (i <= fid m)%nat
  /\ forall (j : nat) g, (j < fid m - i)%nat -> st !! j = Some g -> q g = false.
Proof.
  revert i. induction st as [|f r IH]; intros i; simpl; [discriminate|].
  destruct (q f) eqn:Hq; simpl.
  - intros [= <-]. simpl. split; [lia|]. intros j g Hj. lia.
  - intros H. destruct (IH _ H) as [Hi Hfirst]. split; [lia|].
    intros [|j] g Hj Hg; simpl in Hg.
    + now injection Hg as <-.
    + apply (Hfirst j g); [lia | exact Hg].
Qed.

End FolderContracts.

(** X1. [_find_file_by_name_in_folder] answers the first file of the
    folder that has the name: the file at the id it answers has that name
    and no file at a smaller id has it; it answers nothing exactly when no
    file of the folder has the name. *)
Theorem find_file_first_match (nm : string) (st : Drive) :
  match _find_file_by_name_in_folder nm st with
  | Some m =>
      fname m = nm
      /\ (exists f, st !! fid m = Some f /\ f_name f = nm)
      /\ forall (j : nat) g, (j < fid m)%nat -> st !! j = Some g -> f_name g <> nm
  | None => forall f, In f st -> f_name f <> nm
  end.
Proof.
  destruct (_find_file_by_name_in_folder nm st) as [m|] eqn:Hfind.
  - destruct (find_Some _ _ _ Hfind) as (f & Hf & Hname & Hm).
    split; [exact Hm|]. split; [eauto|].
    intros j g Hj Hg.
    unfold _find_file_by_name_in_folder, files_list in Hfind.
    destruct (files_from_head_first _ _ _ _ Hfind) as [_ Hfirst].
    apply String.eqb_neq. apply (Hfirst j g); [lia | exact Hg].
  - now apply find_None.
Qed.

(** Writing through [_update_json_file] and reading back: the file
    with the id holds the new document, every other id reads as before, and
    the names and the number of files do not change. *)
Lemma update_then_read (i : nat) (d : JsonDoc) (st st' : Drive) :
  _update_json_file i d st = Some st' ->
  _read_json_file i st' = Some d
  /\ (forall j : nat, j <> i -> _read_json_file j st' = _read_json_file j st)
  /\ map f_name st' = map f_name st
  /\ length st' = length st.
Proof.
  intros Hup. split; [now apply (read_update_eq _ _ _ _ Hup)|].
  split; [intros j Hj; apply (read_update_ne _ _ _ _ _ Hup); congruence|].
  split; [now apply (update_names _ _ _ _ Hup)|].
  unfold _update_json_file in Hup. destruct (st !! i); [|discriminate].
  injection Hup as <-. apply length_insert.
Qed.

Lemma update_then_read_witness :
  _read_json_file 1 (<[1%nat := set_content empty_doc
                                  (json_file "2024-01-02.json"
                                     (cx_doc "2024-01-02" "pull" (Some ["lats"])))]>
                       cx_drive) = Some empty_doc
  /\ (forall j : nat, j <> 1%nat ->
        _read_json_file j (<[1%nat := set_content empty_doc
                                  (json_file "2024-01-02.json"
                                     (cx_doc "2024-01-02" "pull" (Some ["lats"])))]>
                             cx_drive) = _read_json_file j cx_drive)
  /\ map f_name (<[1%nat := set_content empty_doc
                                  (json_file "2024-01-02.json"
                                     (cx_doc "2024-01-02" "pull" (Some ["lats"])))]>
                   cx_drive) = map f_name cx_drive
  /\ length (<[1%nat := set_content empty_doc
                                  (json_file "2024-01-02.json"
                                     (cx_doc "2024-01-02" "pull" (Some ["lats"])))]>
               cx_drive) = length cx_drive.
Proof. apply (update_then_read 1 empty_doc cx_drive). reflexivity. Defined.

(** [_create_json_file] adds one file at the end: the new id reads the
    document written, the ids there before read as before, and a name is
    found as before unless it is the new name and was not there. *)
Lemma create_then_read (nm : string) (d : JsonDoc) (st : Drive) :
  _read_json_file (length st) (_create_json_file nm d st) = Some d
  /\ length (_create_json_file nm d st) = S (length st)
  /\ (forall j : nat, (j < length st)%nat ->
        _read_json_file j (_create_json_file nm d st) = _read_json_file j st)
  /\ (forall nm', nm' <> nm ->
        _find_file_by_name_in_folder nm' (_create_json_file nm d st)
        = _find_file_by_name_in_folder nm' st)
  /\ exists m, _find_file_by_name_in_folder nm (_create_json_file nm d st)
               = Some m.
Proof.
  split; [apply read_create_new|].
  split; [unfold _create_json_file; rewrite length_app; simpl; lia|].
  split; [intros j Hj; now apply read_create_old|].
  split.
  - intros nm' Hne. rewrite find_create.
    destruct (_find_file_by_name_in_folder nm' st); [reflexivity|].
    destruct (String.eqb_spec nm nm'); congruence.
  - rewrite find_create, String.eqb_refl.
    destruct (_find_file_by_name_in_folder nm st); eauto.
Qed.

(** ** What validation accepts and what it stores *)

Section ValidationContracts.

Lemma validate_Set_iff (s s' : WSet) :
  validate_Set s = Some s' <-> set_ok s /\ s' = s.
Proof.
  unfold validate_Set, reps_positive, weight_nonneg, set_ok.
  destruct s as [r w]; simpl.
  destruct (Z.ltb_spec r 1) as [Hlt | Hge]; destruct (float_neg w) eqn:Hw;
    simpl; split; intros H; try discriminate;
    try (match type of H with
         | _ /\ _ => destruct H as [[H1 H2] _]; first [lia | discriminate]
         end).
  - injection H as <-. repeat split. lia.
  - destruct H as [_ ->]. reflexivity.
Qed.

Lemma validate_list_iff {A B : Type} (f : A -> option B) (g : A -> B)
  (P : A -> Prop) (l : list A) (l' : list B) :
  (forall x y, f x = Some y <-> P x /\ y = g x) ->
  (validate_list f l = Some l' <-> Forall P l /\ l' = map g l).
Proof.
  intros Hf. revert l'. induction l as [|x r IH]; intros l'; simpl.
  - split; [intros [= <-]; auto | intros [_ ->]; reflexivity].
  - split.
    + destruct (f x) as [y|] eqn:Hy; [|discriminate].
      destruct (validate_list f r) as [r'|]; [|discriminate].
      intros [= <-]. apply Hf in Hy as [Hx ->].
      destruct (proj1 (IH r') eq_refl) as [Hr ->]. split; auto.
    + intros [Hall ->]. apply Forall_cons in Hall as [Hx Hr].
      rewrite (proj2 (Hf x (g x)) (conj Hx eq_refl)).
      now rewrite (proj2 (IH (map g r)) (conj Hr eq_refl)).
Qed.

Lemma map_id_eq {A : Type} (l : list A) : map (fun x => x) l = l.
Proof. induction l as [|x r IH]; simpl; congruence. Qed.

Lemma validate_sets_iff (ss ss' : list WSet) :
  validate_list validate_Set ss = Some ss' <-> Forall set_ok ss /\ ss' = ss.
Proof.
  rewrite (validate_list_iff validate_Set (fun x => x) set_ok ss ss'
             validate_Set_iff).
  now rewrite map_id_eq.
Qed.

Lemma validate_Exercise_iff (e e' : Exercise) :
  validate_Exercise e = Some e' <-> exercise_ok e /\ e' = stored_exercise e.
Proof.
  unfold validate_Exercise, name_nonempty, exercise_ok, stored_exercise.
  destruct (strip (name e)) eqn:Hn.
  - split; [discriminate | intros [[H _] _]; congruence].
  - destruct (validate_list validate_Set (sets e)) as [ss|] eqn:Hs.
    + apply validate_sets_iff in Hs as [Hall ->]. split.
      * intros [= <-]. repeat split; auto.
      * intros [_ ->]. reflexivity.
    + split; [discriminate|]. intros [[_ Hall] _].
      rewrite (proj2 (validate_sets_iff (sets e) (sets e)) (conj Hall eq_refl)) in Hs.
      discriminate.
Qed.

Lemma workout_type_enum_iff (w w' : option string) :
  workout_type_enum w = Some w' <-> workout_type_ok w /\ w' = option_map norm w.
Proof.
  unfold workout_type_enum, workout_type_ok. destruct w as [s|];
    cbn [option_map].
  - destruct (str_in (norm s) allowed) eqn:Hin.
    + apply str_in_In in Hin. split; intros H.
      * injection H as H. subst w'. auto.
      * destruct H as [_ H]. now subst w'.
    + split; [discriminate|]. intros [H _]. apply str_in_In in H. congruence.
  - split; intros H.
    + injection H as H. subst w'. auto.
    + destruct H as [_ H]. now subst w'.
Qed.

Lemma has_sets_stored (exs : list Exercise) :
  has_sets (map stored_exercise exs) <-> has_sets exs.
Proof.
  unfold has_sets. split.
  - intros (e & Hin & He). apply in_map_iff in Hin as (e0 & <- & Hin0). eauto.
  - intros (e & Hin & He). exists (stored_exercise e).
    split; [now apply in_map | exact He].
Qed.

Lemma at_least_one_set_iff (v v' : list Exercise) :
  at_least_one_set v = Some v' <-> has_sets v /\ v' = v.
Proof.
  split.
  - intros H. apply at_least_one_set_Some in H. tauto.
  - intros [Hs ->]. unfold at_least_one_set.
    rewrite (proj2 (existsb_truthy_has_sets v) Hs).
    destruct Hs as (e & Hin & _). now destruct v.
Qed.

Lemma nonblank_norm_keeps (s : string) : nonblank s = true -> nonblank (norm s) = true.
Proof.
  intros H. unfold nonblank. rewrite norm_strip.
  pose proof (nonblank_norm s H). now destruct (norm s).
Qed.

Lemma muscles_norm_idem (v : option (list string)) :
  muscles_norm (muscles_norm v) = muscles_norm v.
Proof.
  destruct v as [l|]; [|reflexivity]. unfold muscles_norm. f_equal.
  induction l as [|x r IH]; [reflexivity|]. cbn [List.filter].
  destruct (nonblank x) eqn:Hx; [|exact IH].
  cbn [map List.filter]. rewrite (nonblank_norm_keeps x Hx). cbn [map].
  now rewrite norm_idem, IH.
Qed.

Lemma stored_exercise_idem (e : Exercise) :
  stored_exercise (stored_exercise e) = stored_exercise e.
Proof. unfold stored_exercise. simpl. now rewrite muscles_norm_idem. Qed.

End ValidationContracts.

(** Validation, field by field. *)
Lemma validate_WorkoutLog_spec (fresh : string) (body : WorkoutLogIn)
  (l : WorkoutLog) :
  validate_WorkoutLog fresh body = Some l
  <-> body_ok body /\ l = stored_log fresh body.
Proof.
  unfold validate_WorkoutLog, body_ok, stored_log, date_iso.
  destruct (strptime_ymd (in_date body)) as [ymd|] eqn:Hd.
  2:{ split; [discriminate | intros [[H _] _]; congruence]. }
  destruct (workout_type_enum (in_workout_type body)) as [wt|] eqn:Hw.
  2:{ split; [discriminate|]. intros [(_ & H & _) _].
      rewrite (proj2 (workout_type_enum_iff _ _) (conj H eq_refl)) in Hw.
      discriminate. }
  apply workout_type_enum_iff in Hw as [Hw ->].
  destruct (validate_list validate_Exercise (in_exercises body)) as [exs|] eqn:He.
  2:{ split; [discriminate|]. intros [(_ & _ & H & _) _].
      rewrite (proj2 (validate_list_iff validate_Exercise stored_exercise
                        exercise_ok _ _ validate_Exercise_iff)
                 (conj H eq_refl)) in He.
      discriminate. }
  apply (validate_list_iff validate_Exercise stored_exercise exercise_ok _ _
           validate_Exercise_iff) in He as [He ->].
  destruct (at_least_one_set (map stored_exercise (in_exercises body)))
    as [exs'|] eqn:Ha.
  - apply at_least_one_set_iff in Ha as [Ha ->].
    apply (proj1 (has_sets_stored _)) in Ha.
    split; [intros [= <-] | intros [_ ->]]; repeat split; auto; discriminate.
  - split; [discriminate|]. intros [(_ & _ & _ & H) _].
    apply (proj2 (has_sets_stored _)) in H.
    rewrite (proj2 (at_least_one_set_iff _ _) (conj H eq_refl)) in Ha.
    discriminate.
Qed.


(** X3. Validation is idempotent: a log that came out of validation, sent
    again as a body, passes and validates to itself, whatever fresh session
    id is on offer. *)
Theorem validate_again_same (fresh fresh' : string) (body : WorkoutLogIn)
  (l : WorkoutLog) :
  validate_WorkoutLog fresh body = Some l ->
  validate_WorkoutLog fresh' (as_body l) = Some l.
Proof.
  intros Hv. apply validate_WorkoutLog_spec in Hv as [(Hd & Hw & He & Hs) ->].
  apply validate_WorkoutLog_spec. unfold body_ok, stored_log, as_body. simpl.
  split.
  - repeat split; auto.
    + destruct (in_workout_type body) as [s|]; simpl in *; [|exact I].
      now rewrite norm_idem.
    + clear - He. induction He as [|e r [Hn Hsets] Hr IH]; simpl; constructor; auto.
      split; assumption.
    + now apply has_sets_stored.
  - f_equal.
    + destruct (in_workout_type body) as [s|]; simpl; [|reflexivity].
      now rewrite norm_idem.
    + rewrite map_map. apply map_ext. intros e.
      symmetry. apply stored_exercise_idem.
Qed.

Lemma validate_again_same_witness :
  validate_WorkoutLog "t" (as_body (unpadded_log "s")) = Some (unpadded_log "s").
Proof. apply (validate_again_same "s" "t" unpadded_body). reflexivity. Defined.

(** ** Dates *)

Lemma is_digit_cases (c : ascii) : is_digit c = true -> In c digits.
Proof.
  destruct c as [[] [] [] [] [] [] [] []]; vm_compute; intros H;
    first [discriminate H | tauto].
Qed.

Ltac split_date_char H :=
  match type of H with
  | context [match ?a with Ascii _ _ _ _ _ _ _ _ => _ end] =>
      is_var a; destruct a as [[] [] [] [] [] [] [] []];
      cbv beta iota in H; try discriminate H
  end.

Ltac each_digit c H :=
  let Hc := fresh in
  pose proof (is_digit_cases c H) as Hc;
  repeat (destruct Hc as [<- | Hc]); [.. | destruct Hc].

Section Dates.

Lemma month_two_digits (e f : ascii) (r : string) :
  is_digit e = true -> is_digit f = true ->
  match_md (match_m (String e (String f (String "-" r)))) =
  if (1 <=? 10 * digit_val e + digit_val f)
     && (10 * digit_val e + digit_val f <=? 12)
  then match head (match_d r) with
       | Some (d, rest) => Some (10 * digit_val e + digit_val f, d, rest)
       | None => None
       end
  else None.
Proof.
  intros He Hf. each_digit e He; each_digit f Hf;
    cbv -[match_d]; destruct (match_d r) as [|[d rest] ?]; reflexivity.
Qed.

Lemma day_two_digits (g h : ascii) :
  is_digit g = true -> is_digit h = true ->
  match head (match_d (String g (String h EmptyString))) with
  | Some (d, EmptyString) => Some d
  | _ => None
  end =
  if (1 <=? 10 * digit_val g + digit_val h)
     && (10 * digit_val g + digit_val h <=? 31)
  then Some (10 * digit_val g + digit_val h) else None.
Proof.
  intros Hg Hh. each_digit g Hg; each_digit h Hh; vm_compute; reflexivity.
Qed.

Lemma days_in_month_le (y m : Z) : days_in_month y m <= 31.
Proof.
  unfold days_in_month.
  destruct (m =? 2); [destruct (is_leap y); lia|].
  destruct ((m =? 4) || (m =? 6) || (m =? 9) || (m =? 11)); lia.
Qed.

Lemma valid_ymd_ranges (y m d : Z) :
  valid_ymd y m d = true ->
  1 <= y <= 9999 /\ 1 <= m <= 12 /\ 1 <= d <= 31 /\ d <= days_in_month y m.
Proof.
  unfold valid_ymd. rewrite !andb_true_iff, !Z.leb_le.
  pose proof (days_in_month_le y m). lia.
Qed.

End Dates.

(** X4. On a string of the form dddd-dd-dd, the form the path of
    [GET /logs/by-date] asks for, the date validator accepts exactly the
    real calendar dates: year 1 to 9999, month 1 to 12, and a day the month
    has in that year, February 29 in leap years only. *)
Theorem date_iso_on_padded (s : string) :
  date_pattern s = true ->
  date_iso s =
  match padded_ymd s with
  | Some (y, m, d) => if valid_ymd y m d then Some s else None
  | None => None
  end.
Proof.
  intros H. unfold date_pattern in H.
  do 10 (destruct s as [|? s];
         [cbv beta iota in H; repeat split_date_char H; discriminate H|]).
  destruct s as [|? s];
    [|cbv beta iota in H; repeat split_date_char H; discriminate H].
  cbv beta iota in H. repeat split_date_char H.
  rewrite !andb_true_iff in H.
  destruct H as [[[[[[[Ha Hb] Hc] Hd] He] Hf] Hg] Hh].
  unfold date_iso, strptime_ymd, regex_match, padded_ymd.
  rewrite Ha, Hb, Hc, Hd. cbn [andb].
  rewrite (month_two_digits _ _ _ He Hf).
  pose proof (day_two_digits _ _ Hg Hh) as Hday.
  set (Y := 1000 * digit_val a + 100 * digit_val a0 + 10 * digit_val a1
            + digit_val a2) in *.
  set (M := 10 * digit_val a4 + digit_val a5) in *.
  set (D := 10 * digit_val a7 + digit_val a8) in *.
  destruct (valid_ymd Y M D) eqn:Hvalid.
  - apply valid_ymd_ranges in Hvalid as Hr.
    replace ((1 <=? M) && (M <=? 12)) with true
      by (symmetry; apply andb_true_iff; rewrite !Z.leb_le; lia).
    replace ((1 <=? D) && (D <=? 31)) with true in Hday
      by (symmetry; apply andb_true_iff; rewrite !Z.leb_le; lia).
    destruct (head (match_d _)) as [[d [|? ?]]|]; try discriminate Hday.
    injection Hday as ->. now rewrite Hvalid.
  - destruct ((1 <=? M) && (M <=? 12)); [|reflexivity].
    destruct (head (match_d _)) as [[d [|? ?]]|]; try reflexivity.
    destruct ((1 <=? D) && (D <=? 31)); [|discriminate Hday].
    injection Hday as ->. now rewrite Hvalid.
Qed.

Lemma date_iso_on_padded_witness :
  date_iso "2023-02-29" =
  match padded_ymd "2023-02-29" with
  | Some (y, m, d) => if valid_ymd y m d then Some "2023-02-29" else None
  | None => None
  end.
Proof. apply (date_iso_on_padded "2023-02-29"). reflexivity. Defined.

(** ** Saving *)

Section Saving.

Variable API_KEY : string.
Variable sha256_hex : JsonDoc -> string.

Lemma date_iso_starts_with_digit (v v' : string) :
  date_iso v = Some v' -> exists c r, v = String c r /\ is_digit c = true.
Proof.
  intros H. unfold date_iso, strptime_ymd, regex_match in H.
  destruct v as [|c [|? [|? [|? [|? r]]]]]; try discriminate H.
  exists c. eexists. split; [reflexivity|].
  destruct (is_digit c) eqn:Hc; [reflexivity|]. exfalso.
  repeat split_date_char H; simpl in H; discriminate H.
Qed.

Lemma date_iso_not_index (v v' : string) :
  date_iso v = Some v' -> (v ++ ".json")%string <> index_name.
Proof.
  intros H. apply date_iso_starts_with_digit in H as (c & r & -> & Hc).
  intros Heq. injection Heq as -> _. discriminate Hc.
Qed.

Lemma validated_date (fresh : string) (body : WorkoutLogIn) (l : WorkoutLog) :
  validate_WorkoutLog fresh body = Some l -> date_iso (date l) = Some (date l).
Proof.
  intros H. apply validate_WorkoutLog_spec in H as [(Hd & _) ->]. simpl.
  unfold date_iso. destruct (strptime_ymd (in_date body)); congruence.
Qed.

Lemma drop_last5_append (d : string) : drop_last5 (d ++ ".json") = d.
Proof.
  unfold drop_last5. rewrite length_append. simpl.
  replace (String.length d + 5 - 5)%nat with (String.length d) by lia.
  apply substring_prefix.
Qed.

Lemma json_name_inj (d d' : string) :
  (d ++ ".json")%string = (d' ++ ".json")%string -> d = d'.
Proof.
  intros H. apply (f_equal drop_last5) in H. now rewrite !drop_last5_append in H.
Qed.

(** Writing the log file leaves the files of other names as they are. *)
Lemma write_log_file_frame (nm nm' : string) (payload : JsonDoc)
  (st st1 : Drive) :
  match _find_file_by_name_in_folder nm st with
  | Some existing => _update_json_file (fid existing) payload st
  | None => Some (_create_json_file nm payload st)
  end = Some st1 ->
  nm' <> nm ->
  _find_file_by_name_in_folder nm' st1 = _find_file_by_name_in_folder nm' st
  /\ forall m', _find_file_by_name_in_folder nm' st = Some m' ->
                _read_json_file (fid m') st1 = _read_json_file (fid m') st.
Proof.
  intros Hw Hne.
  destruct (_find_file_by_name_in_folder nm st) as [m|] eqn:Hfind.
  - destruct (find_Some _ _ _ Hfind) as (f & Hf & Hname & _). split.
    + apply find_same_names. now apply (update_names _ _ _ _ Hw).
    + intros m' Hm'. destruct (find_Some _ _ _ Hm') as (g & Hg & Hgname & _).
      apply (read_update_ne _ _ _ _ _ Hw).
      intros Heq. rewrite Heq in Hf. congruence.
  - injection Hw as <-. split.
    + rewrite find_create.
      destruct (_find_file_by_name_in_folder nm' st); [reflexivity|].
      destruct (String.eqb_spec nm nm'); congruence.
    + intros m' Hm'. destruct (find_Some _ _ _ Hm') as (g & Hg & _).
      apply read_create_old. now apply lookup_lt_Some in Hg.
Qed.

Lemma write_log_file_names (nm : string) (payload : JsonDoc) (st st1 : Drive) :
  match _find_file_by_name_in_folder nm st with
  | Some existing => _update_json_file (fid existing) payload st
  | None => Some (_create_json_file nm payload st)
  end = Some st1 ->
  map f_name st1 =
  (map f_name st ++ match _find_file_by_name_in_folder nm st with
                    | Some _ => []
                    | None => [nm]
                    end)%list.
Proof.
  destruct (_find_file_by_name_in_folder nm st) as [m|]; intros Hw.
  - rewrite app_nil_r. now apply (update_names _ _ _ _ Hw).
  - injection Hw as <-. unfold _create_json_file. now rewrite map_app.
Qed.

Lemma upsert_manifest_names (e : Entry) (st st' : Drive) :
  _upsert_manifest e st = Some st' ->
  map f_name st' =
  (map f_name st ++ match _find_file_by_name_in_folder index_name st with
                    | Some _ => []
                    | None => [index_name]
                    end)%list.
Proof.
  unfold _upsert_manifest.
  destruct (_find_file_by_name_in_folder index_name st) as [idx|]; intros Hup.
  - rewrite app_nil_r.
    destruct (_read_json_file (fid idx) st); [|discriminate].
    now apply (update_names _ _ _ _ Hup).
  - injection Hup as <-. unfold _create_json_file. now rewrite map_app.
Qed.

(** The two writes of [save_log], one after the other. *)
Lemma save_log_steps (l : WorkoutLog) (authorization now : string) (st : Drive) :
  require_auth API_KEY authorization = true ->
  exists st1 st2,
    match _find_file_by_name_in_folder (date l ++ ".json") st with
    | Some existing => _update_json_file (fid existing) (model_dump l) st
    | None => Some (_create_json_file (date l ++ ".json") (model_dump l) st)
    end = Some st1
    /\ _upsert_manifest
         (manifest_entry l (date l ++ ".json") (sha256_hex (model_dump l)) now)
         st1 = Some st2
    /\ save_log API_KEY sha256_hex l authorization now st
       = (OK {| ok := true; file := (date l ++ ".json")%string;
                sha256 := sha256_hex (model_dump l) |}, st2).
Proof.
  intros Hauth.
  destruct (write_log_file (date l ++ ".json") (model_dump l) st)
    as (st1 & m & Hw & _).
  destruct (upsert_manifest_stored
              (manifest_entry l (date l ++ ".json")
                 (sha256_hex (model_dump l)) now) st1)
    as (st2 & Hup & _).
  exists st1, st2. split; [exact Hw|]. split; [exact Hup|].
  unfold save_log. rewrite Hauth. simpl. now rewrite Hw, Hup.
Qed.

Lemma sort_by_date_sorted_id (l : list Entry) :
  StronglySorted date_le l -> sort_by_date l = l.
Proof.
  induction 1 as [|x r Hr IH Hall]; simpl; [reflexivity|].
  rewrite IH. destruct r as [|y r']; [reflexivity|]. simpl.
  apply Forall_cons in Hall as [Hxy _]. unfold date_le, str_le in Hxy.
  now rewrite Hxy.
Qed.

Lemma strict_is_sorted (l : list Entry) :
  StronglySorted date_lt l -> StronglySorted date_le l.
Proof.
  induction 1 as [|x r Hr IH Hall]; constructor; auto.
  eapply Forall_impl; [exact Hall|]. intros y Hy. now apply str_lt_le.
Qed.

Lemma stored_nonempty_has_index (st : Drive) (e : Entry) :
  In e (stored_entries st) ->
  exists idx, _find_file_by_name_in_folder index_name st = Some idx.
Proof.
  unfold stored_entries.
  destruct (_find_file_by_name_in_folder index_name st) as [idx|]; [eauto|].
  contradiction.
Qed.

End Saving.

Section SaveOutcome.

Variable API_KEY : string.
Variable sha256_hex : JsonDoc -> string.

(** Everything an authorised [save_log] does to the folder. *)
Lemma save_log_outcome (l : WorkoutLog) (authorization now : string)
  (st : Drive) :
  let fn := (date l ++ ".json")%string in
  let e := manifest_entry l fn (sha256_hex (model_dump l)) now in
  require_auth API_KEY authorization = true ->
  fn <> index_name ->
  exists st' m,
    save_log API_KEY sha256_hex l authorization now st
    = (OK {| ok := true; file := fn; sha256 := sha256_hex (model_dump l) |}, st')
    /\ _find_file_by_name_in_folder fn st' = Some m
    /\ _read_json_file (fid m) st' = Some (model_dump l)
    /\ stored_entries st' = upsert_entries e (stored_entries st)
    /\ _load_manifest_entries st' = Some (stored_entries st')
    /\ (forall nm', nm' <> fn -> nm' <> index_name ->
          _find_file_by_name_in_folder nm' st'
          = _find_file_by_name_in_folder nm' st
          /\ forall m', _find_file_by_name_in_folder nm' st = Some m' ->
                        _read_json_file (fid m') st' = _read_json_file (fid m') st)
    /\ map f_name st' =
       (map f_name st
        ++ match _find_file_by_name_in_folder fn st with
           | Some _ => []
           | None => [fn]
           end
        ++ match _find_file_by_name_in_folder index_name st with
           | Some _ => []
           | None => [index_name]
           end)%list.
Proof.
  intros fn e Hauth Hne.
  destruct (save_log_steps API_KEY sha256_hex l authorization now st Hauth)
    as (st1 & st2 & Hw & Hup & Hsave).
  fold fn in Hw, Hup, Hsave. fold e in Hup.
  destruct (write_log_file fn (model_dump l) st) as (st1' & m & Hw' & Hfind & Hread).
  rewrite Hw in Hw'. injection Hw' as <-.
  destruct (upsert_manifest_keeps _ _ _ _ _ Hup Hne Hfind) as [Hfind2 Hread2].
  destruct (upsert_manifest_stored e st1) as (st2' & Hup' & Hstored & Hother).
  rewrite Hup in Hup'. injection Hup' as <-.
  assert (Hidx : index_name <> fn) by congruence.
  destruct (write_log_file_frame fn index_name _ _ _ Hw Hidx) as [Hi1 Hi2].
  assert (Hst1 : stored_entries st1 = stored_entries st).
  { unfold stored_entries. rewrite Hi1.
    destruct (_find_file_by_name_in_folder index_name st) as [idx|] eqn:Hidxf;
      [|reflexivity].
    now rewrite (Hi2 idx eq_refl). }
  rewrite Hst1 in Hstored.
  assert (Hin : In e (stored_entries st2)).
  { apply (last_with_date_strict _ (e_date e) e).
    - rewrite Hstored. apply upsert_entries_strict.
    - rewrite Hstored, upsert_entries_lookup. now rewrite String.eqb_refl. }
  exists st2, m. split; [exact Hsave|]. split; [exact Hfind2|].
  split; [now rewrite Hread2|]. split; [exact Hstored|]. split; [|split].
  - destruct (stored_nonempty_has_index _ _ Hin) as [idx Hidx2].
    rewrite (load_manifest_stored _ _ Hidx2). f_equal.
    apply sort_by_date_sorted_id, strict_is_sorted.
    rewrite Hstored. apply upsert_entries_strict.
  - intros nm' Hn1 Hn2.
    destruct (write_log_file_frame fn nm' _ _ _ Hw Hn1) as [Hf1 Hr1].
    rewrite (Hother nm' Hn2). split; [exact Hf1|].
    intros m' Hm'. rewrite <- Hf1 in Hm'.
    destruct (upsert_manifest_keeps _ _ _ _ _ Hup Hn2 Hm') as [_ Hr2].
    rewrite Hr2. apply Hr1. now rewrite <- Hf1.
  - rewrite (upsert_manifest_names _ _ _ Hup), Hi1.
    rewrite (write_log_file_names _ _ _ _ Hw). now rewrite <- app_assoc.
Qed.

End SaveOutcome.

(** X7. An authorised [POST /logs] with a body that passes the schema
    answers 200 with the file name built from the date and the digest of
    the dump; afterwards the first file of that name holds the dump, and
    [GET /logs/index] lists entries strictly ascending by date among which
    the one for the date of the log is the entry of this save. *)
Theorem post_logs_saves_and_lists (API_KEY : string)
  (sha256_hex : JsonDoc -> string) (fresh : string) (body : WorkoutLogIn)
  (l : WorkoutLog) (authorization now : string) (st : Drive) :
  require_auth API_KEY authorization = true ->
  validate_WorkoutLog fresh body = Some l ->
  exists st' entries,
    post_logs API_KEY sha256_hex fresh body authorization now st
    = (OK {| ok := true; file := (date l ++ ".json")%string;
             sha256 := sha256_hex (model_dump l) |}, st')
    /\ file_doc (manifest_entry l (date l ++ ".json")
                   (sha256_hex (model_dump l)) now) st'
       = Some (model_dump l)
    /\ list_logs API_KEY authorization st' = OK entries
    /\ StronglySorted date_lt entries
    /\ forall e, In e entries /\ e_date e = date l
                 <-> e = manifest_entry l (date l ++ ".json")
                           (sha256_hex (model_dump l)) now.
Proof.
  intros Hauth Hv.
  pose proof (date_iso_not_index _ _ (validated_date _ _ _ Hv)) as Hne.
  destruct (save_log_outcome API_KEY sha256_hex l authorization now st Hauth Hne)
    as (st' & m & Hsave & Hfind & Hread & Hstored & Hload & _).
  exists st', (stored_entries st').
  split; [unfold post_logs; now rewrite Hv|].
  split; [unfold file_doc; simpl; now rewrite Hfind|].
  split; [unfold list_logs; now rewrite Hauth, Hload|].
  assert (Hs : StronglySorted date_lt (stored_entries st'))
    by (rewrite Hstored; apply upsert_entries_strict).
  split; [exact Hs|]. intros e.
  rewrite <- (last_with_date_strict _ (date l) e Hs).
  rewrite Hstored, upsert_entries_lookup. simpl. rewrite String.eqb_refl.
  split; congruence.
Qed.

Lemma post_logs_saves_and_lists_witness :
  exists st' entries,
    post_logs "k" (fun _ => "0") "s" unpadded_body "Bearer k" "now" cx_drive
    = (OK {| ok := true; file := "2024-1-5.json"; sha256 := "0" |}, st')
    /\ file_doc (manifest_entry (unpadded_log "s") "2024-1-5.json" "0" "now") st'
       = Some (model_dump (unpadded_log "s"))
    /\ list_logs "k" "Bearer k" st' = OK entries
    /\ StronglySorted date_lt entries
    /\ forall e, In e entries /\ e_date e = "2024-1-5"
                 <-> e = manifest_entry (unpadded_log "s") "2024-1-5.json"
                           "0" "now".
Proof.
  apply (post_logs_saves_and_lists "k" (fun _ => "0") "s" unpadded_body
           (unpadded_log "s") "Bearer k" "now" cx_drive); reflexivity.
Defined.

(** X8. Saving a log leaves the logs of the other dates alone: for a date
    other than the one saved, [GET /logs/by-date] answers after the save
    what it answered before. *)
Theorem save_keeps_other_dates (API_KEY : string)
  (sha256_hex : JsonDoc -> string) (fresh : string) (body : WorkoutLogIn)
  (l : WorkoutLog) (authorization now other : string) (st : Drive) :
  require_auth API_KEY authorization = true ->
  validate_WorkoutLog fresh body = Some l ->
  other <> date l ->
  fetch_log API_KEY other authorization
    (snd (post_logs API_KEY sha256_hex fresh body authorization now st))
  = fetch_log API_KEY other authorization st.
Proof.
  intros Hauth Hv Hother.
  pose proof (date_iso_not_index _ _ (validated_date _ _ _ Hv)) as Hne.
  destruct (save_log_outcome API_KEY sha256_hex l authorization now st Hauth Hne)
    as (st' & m & Hsave & _ & _ & _ & _ & Hframe & _).
  unfold post_logs. rewrite Hv, Hsave. simpl.
  unfold fetch_log. destruct (date_pattern other) eqn:Hpat; [|reflexivity].
  rewrite Hauth. simpl.
  destruct (Hframe (other ++ ".json")%string) as [Hf Hr].
  - intros Heq. apply Hother. now apply json_name_inj.
  - now apply date_pattern_not_index.
  - rewrite Hf.
    destruct (_find_file_by_name_in_folder (other ++ ".json") st) as [m'|];
      [|reflexivity].
    now rewrite (Hr m' eq_refl).
Qed.

Lemma save_keeps_other_dates_witness :
  fetch_log "k" "2024-01-02" "Bearer k"
    (snd (post_logs "k" (fun _ => "0") "s" unpadded_body "Bearer k" "now"
            cx_drive))
  = fetch_log "k" "2024-01-02" "Bearer k" cx_drive.
Proof.
  apply (save_keeps_other_dates "k" (fun _ => "0") "s" unpadded_body
           (unpadded_log "s")); [reflexivity | reflexivity | discriminate].
Defined.

(** X9. A save never removes or renames a file and adds at most two: the
    file names after an accepted [POST /logs] are those before, followed by
    the name of the log file if no file had it, followed by [index.json] if
    no file had that. So a folder in which no two files share a name stays
    such a folder. *)
Theorem save_adds_at_most_two_names (API_KEY : string)
  (sha256_hex : JsonDoc -> string) (fresh : string) (body : WorkoutLogIn)
  (l : WorkoutLog) (authorization now : string) (st : Drive) :
  require_auth API_KEY authorization = true ->
  validate_WorkoutLog fresh body = Some l ->
  let st' := snd (post_logs API_KEY sha256_hex fresh body authorization now st) in
  map f_name st' =
  (map f_name st
   ++ match _find_file_by_name_in_folder (date l ++ ".json") st with
      | Some _ => []
      | None => [(date l ++ ".json")%string]
      end
   ++ match _find_file_by_name_in_folder index_name st with
      | Some _ => []
      | None => [index_name]
      end)%list
  /\ (List.NoDup (map f_name st) -> List.NoDup (map f_name st')).
Proof.
  intros Hauth Hv st'.
  pose proof (date_iso_not_index _ _ (validated_date _ _ _ Hv)) as Hne.
  destruct (save_log_outcome API_KEY sha256_hex l authorization now st Hauth Hne)
    as (st2 & m & Hsave & _ & _ & _ & _ & _ & Hnames).
  assert (Hst' : st' = st2) by (unfold st', post_logs; now rewrite Hv, Hsave).
  rewrite Hst'. split; [exact Hnames|].
  intros Hnd. rewrite Hnames.
  assert (Hfresh : forall nm, _find_file_by_name_in_folder nm st = None ->
                              ~ In nm (map f_name st)).
  { intros nm Hnone Hin. apply in_map_iff in Hin as (f & Hf & Hin).
    now apply (proj1 (find_None nm st) Hnone f Hin). }
  destruct (_find_file_by_name_in_folder (date l ++ ".json") st) eqn:H1;
    destruct (_find_file_by_name_in_folder index_name st) eqn:H2;
    simpl; rewrite ?app_nil_r; auto.
  - apply List.NoDup_app; repeat split; auto.
    + repeat constructor. intros [].
    + intros x Hx [<- | []]. now apply (Hfresh index_name).
  - apply List.NoDup_app; repeat split; auto.
    + repeat constructor. intros [].
    + intros x Hx [<- | []]. now apply (Hfresh (date l ++ ".json")%string).
  - apply List.NoDup_app; repeat split; auto.
    + constructor; [intros [Heq | []]; congruence|]. repeat constructor. intros [].
    + intros x Hx [<- | [<- | []]];
        [now apply (Hfresh (date l ++ ".json")%string)
        | now apply (Hfresh index_name)].
Qed.

Lemma save_adds_at_most_two_names_witness :
  map f_name (snd (post_logs "k" (fun _ => "0") "s" unpadded_body "Bearer k"
                     "now" bare_drive))
  = ["2024-01-02.json"; "photo.json"; "2024-01-01.json"; "readme";
     "2024-1-5.json"; "index.json"]
  /\ (List.NoDup (map f_name bare_drive) ->
      List.NoDup (map f_name (snd (post_logs "k" (fun _ => "0") "s"
                                     unpadded_body "Bearer k" "now"
                                     bare_drive)))).
Proof.
  apply (save_adds_at_most_two_names "k" (fun _ => "0") "s" unpadded_body
           (unpadded_log "s") "Bearer k" "now" bare_drive); reflexivity.
Defined.

(** X12. Only the header [Bearer <API_KEY>], to the letter, is let in. With
    any other header every handler answers 401 "Unauthorized" once its
    parameters have passed their patterns, and a save leaves the folder as
    it is. *)
Theorem unauthorised_is_401 (API_KEY authorization : string) :
  authorization <> ("Bearer " ++ API_KEY)%string ->
  (forall sha256_hex l now st,
     save_log API_KEY sha256_hex l authorization now st
     = (HTTPError 401 "Unauthorized", st))
  /\ (forall st, list_logs API_KEY authorization st
                 = HTTPError 401 "Unauthorized")
  /\ (forall before st, latest_log API_KEY authorization before st
                        = HTTPError 401 "Unauthorized")
  /\ (forall type before st, type_pattern type = true ->
        latest_for_workout API_KEY authorization type before st
        = HTTPError 401 "Unauthorized")
  /\ (forall muscle before st,
        latest_for_muscle API_KEY authorization muscle before st
        = HTTPError 401 "Unauthorized")
  /\ (forall d st, date_pattern d = true ->
        fetch_log API_KEY d authorization st = HTTPError 401 "Unauthorized").
Proof.
  intros Hne.
  assert (Hauth : require_auth API_KEY authorization = false)
    by (unfold require_auth; now apply String.eqb_neq).
  repeat split; intros.
  - unfold save_log. now rewrite Hauth.
  - unfold list_logs. now rewrite Hauth.
  - unfold latest_log. now rewrite Hauth.
  - unfold latest_for_workout. now rewrite H, Hauth.
  - unfold latest_for_muscle. now rewrite Hauth.
  - unfold fetch_log. now rewrite H, Hauth.
Qed.

Lemma unauthorised_is_401_witness :
  save_log "k" (fun _ => "0") (unpadded_log "s") "bearer k" "now" cx_drive
  = (HTTPError 401 "Unauthorized", cx_drive)
  /\ fetch_log "k" "2024-01-01" "Bearer  k" cx_drive
     = HTTPError 401 "Unauthorized".
Proof.
  split.
  - apply (unauthorised_is_401 "k" "bearer k"). discriminate.
  - apply (unauthorised_is_401 "k" "Bearer  k"); [discriminate | reflexivity].
Defined.

(** X11. After an accepted save, [GET /logs/latest] without a cutoff
    answers 200 with an entry whose date is not below the date saved; when
    it is the date saved, the answer is the entry of this save together
    with the dump of the log. *)
Theorem latest_after_save (API_KEY : string)
  (sha256_hex : JsonDoc -> string) (fresh : string) (body : WorkoutLogIn)
  (l : WorkoutLog) (authorization now : string) (st : Drive) :
  require_auth API_KEY authorization = true ->
  validate_WorkoutLog fresh body = Some l ->
  exists answer,
    latest_log API_KEY authorization None
      (snd (post_logs API_KEY sha256_hex fresh body authorization now st))
    = OK answer
    /\ str_le (date l) (e_date (meta answer))
    /\ (e_date (meta answer) = date l ->
        answer = {| meta := manifest_entry l (date l ++ ".json")
                              (sha256_hex (model_dump l)) now;
                    log := model_dump l |}).
Proof.
  intros Hauth Hv.
  pose proof (date_iso_not_index _ _ (validated_date _ _ _ Hv)) as Hne.
  destruct (save_log_outcome API_KEY sha256_hex l authorization now st Hauth Hne)
    as (st' & m & Hsave & Hfind & Hread & Hstored & Hload & _).
  unfold post_logs. rewrite Hv, Hsave. simpl.
  set (e := manifest_entry l (date l ++ ".json") (sha256_hex (model_dump l)) now)
    in *.
  assert (Hs : StronglySorted date_lt (stored_entries st'))
    by (rewrite Hstored; apply upsert_entries_strict).
  assert (Hin : In e (stored_entries st')).
  { apply (last_with_date_strict _ (e_date e) e Hs).
    rewrite Hstored, upsert_entries_lookup. now rewrite String.eqb_refl. }
  rewrite (latest_log_eq API_KEY _ _ _ Hauth). unfold qualifying.
  rewrite Hload. simpl.
  destruct (last (stored_entries st')) as [x|] eqn:Hlast.
  - eexists. split; [reflexivity|]. simpl. split.
    + apply (last_sorted_max _ x (strict_is_sorted _ Hs) Hlast e Hin).
    + intros Hx.
      assert (Hxe : x = e).
      { apply (strict_same_date _ x e Hs); [now apply last_In | exact Hin|].
        exact Hx. }
      subst x. unfold e at 2. simpl. now rewrite Hfind, Hread.
  - apply last_None in Hlast. rewrite Hlast in Hin. contradiction.
Qed.

Lemma latest_after_save_witness :
  exists answer,
    latest_log "k" "Bearer k" None
      (snd (post_logs "k" (fun _ => "0") "s" unpadded_body "Bearer k" "now"
              bare_drive))
    = OK answer
    /\ str_le "2024-1-5" (e_date (meta answer))
    /\ (e_date (meta answer) = "2024-1-5" ->
        answer = {| meta := manifest_entry (unpadded_log "s") "2024-1-5.json"
                              "0" "now";
                    log := model_dump (unpadded_log "s") |}).
Proof.
  apply (latest_after_save "k" (fun _ => "0") "s" unpadded_body
           (unpadded_log "s") "Bearer k" "now" bare_drive); reflexivity.
Defined.

(** X10. The first save into a folder without [index.json] starts the
    manifest from nothing: afterwards [GET /logs/index] lists the entry of
    this save and no other, whatever log files the folder held and listed
    before. *)
Theorem first_save_lists_only_itself (API_KEY : string)
  (sha256_hex : JsonDoc -> string) (fresh : string) (body : WorkoutLogIn)
  (l : WorkoutLog) (authorization now : string) (st : Drive) :
  require_auth API_KEY authorization = true ->
  validate_WorkoutLog fresh body = Some l ->
  _find_file_by_name_in_folder index_name st = None ->
  list_logs API_KEY authorization
    (snd (post_logs API_KEY sha256_hex fresh body authorization now st))
  = OK [manifest_entry l (date l ++ ".json") (sha256_hex (model_dump l)) now].
Proof.
  intros Hauth Hv Hnone.
  pose proof (date_iso_not_index _ _ (validated_date _ _ _ Hv)) as Hne.
  destruct (save_log_outcome API_KEY sha256_hex l authorization now st Hauth Hne)
    as (st' & m & Hsave & _ & _ & Hstored & Hload & _).
  unfold post_logs. rewrite Hv, Hsave. simpl.
  unfold list_logs. rewrite Hauth, Hload, Hstored. simpl.
  unfold stored_entries. now rewrite Hnone.
Qed.

Lemma first_save_lists_only_itself_witness :
  list_logs "k" "Bearer k"
    (snd (post_logs "k" (fun _ => "0") "s" unpadded_body "Bearer k" "now"
            bare_drive))
  = OK [manifest_entry (unpadded_log "s") "2024-1-5.json" "0" "now"].
Proof.
  apply (first_save_lists_only_itself "k" (fun _ => "0") "s" unpadded_body
           (unpadded_log "s") "Bearer k" "now" bare_drive); reflexivity.
Defined.

(** ** The lookups by muscle and by workout type *)

Section Lookups.

Variable API_KEY : string.

Lemma muscle_scan_find (needle : string) (st : Drive) (es : list Entry)
  (k : response MuscleBody) :
  muscle_scan needle st es k =
  match List.find (muscle_hit needle st) es with
  | Some e => OK (muscle_answer needle st e)
  | None => k
  end.
Proof.
  induction es as [|e r IH]; simpl; [reflexivity|].
  destruct (muscle_hit needle st e) eqn:Hs;
    unfold muscle_hit, file_doc in Hs; unfold muscle_answer, file_doc;
    (destruct (_find_file_by_name_in_folder (e_file e) st) as [f|] eqn:Hf;
     [|try discriminate; exact IH]);
    destruct (find_read _ _ _ Hf) as [data Hd]; rewrite Hd in Hs |- *;
    simpl;
    destruct (match_exercise needle (default [] (d_exercises data)));
    try discriminate; try reflexivity; exact IH.
Qed.

Lemma match_exercise_first (needle : string) (exs : list Exercise)
  (ex : Exercise) :
  match_exercise needle exs = Some ex ->
  exists pre post,
    exs = (pre ++ ex :: post)%list
    /\ lists_muscle needle ex
    /\ forall ex', In ex' pre -> ~ lists_muscle needle ex'.
Proof.
  induction exs as [|x r IH]; simpl; [discriminate|].
  destruct (str_in needle (map norm (default [] (target_muscles x)))) eqn:Hx.
  - intros [= <-]. exists [], r. split; [reflexivity|].
    split; [now apply str_in_In | intros ex' []].
  - intros H. destruct (IH H) as (pre & post & -> & Hex & Hpre).
    exists (x :: pre), post. split; [reflexivity|]. split; [exact Hex|].
    intros ex' [<- | Hin]; [|now apply Hpre].
    unfold lists_muscle. rewrite <- str_in_In. congruence.
Qed.

Lemma muscle_hit_true (needle : string) (st : Drive) (e : Entry) :
  muscle_hit needle st e = true ->
  exists data ex,
    file_doc e st = Some data
    /\ match_exercise needle (default [] (d_exercises data)) = Some ex.
Proof.
  unfold muscle_hit. destruct (file_doc e st) as [data|]; [|discriminate].
  destruct (match_exercise needle (default [] (d_exercises data))) as [ex|] eqn:Hex;
    [|discriminate].
  intros _. exists data, ex. split; [reflexivity | exact Hex].
Qed.

Lemma find_ext_In {A : Type} (p q : A -> bool) (l : list A) :
  (forall x, In x l -> p x = q x) -> List.find p l = List.find q l.
Proof.
  induction l as [|a r IH]; simpl; intros H; [reflexivity|].
  rewrite <- (H a (or_introl eq_refl)). destruct (p a); [reflexivity|].
  apply IH. intros x Hx. apply H. now right.
Qed.

End Lookups.

(** X19. An authorised [GET /logs/latest_for_muscle] answers 200 with the
    latest qualifying entry whose file is in the folder and has an exercise
    listing the muscle, labels and query compared in normal form; the log
    is the document of that file and [matched_exercise] the name of the
    first such exercise in it. It answers 404 exactly when no qualifying
    entry has such a file. *)
Theorem latest_for_muscle_answer (API_KEY authorization muscle : string)
  (before : option string) (st : Drive) :
  require_auth API_KEY authorization = true ->
  match latest_for_muscle API_KEY authorization muscle before st with
  | OK answer =>
      latest_among (muscle_hit (norm muscle) st) (qualifying before st)
        (m_meta answer)
      /\ file_doc (m_meta answer) st = Some (m_log answer)
      /\ exists ex pre post,
           default [] (d_exercises (m_log answer)) = (pre ++ ex :: post)%list
           /\ matched_exercise answer = name ex
           /\ lists_muscle (norm muscle) ex
           /\ forall ex', In ex' pre -> ~ lists_muscle (norm muscle) ex'
  | HTTPError status _ =>
      status = 404
      /\ forall e, In e (qualifying before st) ->
                   muscle_hit (norm muscle) st e = false
  | _ => False
  end.
Proof.
  intros Hauth. unfold latest_for_muscle. rewrite Hauth. simpl.
  pose proof (qualifying_sorted before st) as Hsorted.
  unfold qualifying in *.
  destruct (load_manifest_sorted st) as (es & Hload & _).
  rewrite Hload in *. rewrite muscle_scan_find.
  destruct (List.find (muscle_hit (norm muscle) st) (rev (before_cutoff before es)))
    as [e|] eqn:Hfind.
  - apply (find_rev_latest _ _ _ Hsorted) in Hfind.
    destruct (muscle_hit_true _ _ _ (proj1 (proj2 Hfind)))
      as (data & ex & Hd & Hex).
    unfold muscle_answer. simpl. rewrite Hd. simpl. rewrite Hex.
    split; [exact Hfind|]. split; [reflexivity|].
    destruct (match_exercise_first _ _ _ Hex) as (pre & post & Hsplit & H1 & H2).
    exists ex, pre, post. auto.
  - split; [reflexivity|]. now apply find_rev_none.
Qed.

Lemma latest_for_muscle_answer_witness :
  match latest_for_muscle "k" "Bearer k" " LATS" None cx_drive with
  | OK answer =>
      latest_among (muscle_hit (norm " LATS") cx_drive) (qualifying None cx_drive)
        (m_meta answer)
      /\ file_doc (m_meta answer) cx_drive = Some (m_log answer)
      /\ exists ex pre post,
           default [] (d_exercises (m_log answer)) = (pre ++ ex :: post)%list
           /\ matched_exercise answer = name ex
           /\ lists_muscle (norm " LATS") ex
           /\ forall ex', In ex' pre -> ~ lists_muscle (norm " LATS") ex'
  | HTTPError status _ =>
      status = 404
      /\ forall e, In e (qualifying None cx_drive) ->
                   muscle_hit (norm " LATS") cx_drive e = false
  | _ => False
  end.
Proof.
  apply (latest_for_muscle_answer "k" "Bearer k" " LATS" None cx_drive).
  reflexivity.
Defined.

(** X18. In a folder whose manifest and files agree on the workout type of
    every qualifying log, an authorised [GET /logs/latest_for_workout]
    answers 200 with the latest qualifying log of the type asked for,
    entry and document both of that type, and 404 exactly when no
    qualifying entry has a file of that type. *)
Theorem latest_for_workout_when_agreeing (API_KEY authorization type : string)
  (before : option string) (st : Drive) :
  require_auth API_KEY authorization = true ->
  type_pattern type = true ->
  manifest_agrees before st ->
  match latest_for_workout API_KEY authorization type before st with
  | OK answer =>
      latest_among (log_matches type st) (qualifying before st) (meta answer)
      /\ file_doc (meta answer) st = Some (log answer)
      /\ wt_norm (d_workout_type (log answer)) = type
      /\ wt_norm (e_workout_type (meta answer)) = type
  | HTTPError status _ =>
      status = 404
      /\ forall e, In e (qualifying before st) -> log_matches type st e = false
  | _ => False
  end.
Proof.
  intros Hauth Htype Hagree.
  rewrite (latest_for_workout_eq API_KEY _ _ _ _ Hauth Htype).
  pose proof (qualifying_sorted before st) as Hsorted.
  assert (Hsame : List.find (is_strict type st) (rev (qualifying before st))
                  = List.find (is_relaxed type st) (rev (qualifying before st))).
  { apply find_ext_In. intros e He. apply in_rev in He.
    unfold is_strict, is_relaxed.
    destruct (file_doc e st) as [data|] eqn:Hd; [|apply andb_false_r].
    rewrite (Hagree e data He Hd).
    destruct (wt_norm (d_workout_type data) =? type)%string; reflexivity. }
  rewrite Hsame. unfold log_matches.
  destruct (List.find (is_relaxed type st) (rev (qualifying before st)))
    as [e|] eqn:Hfind.
  - apply (find_rev_latest _ _ _ Hsorted) in Hfind.
    destruct (is_relaxed_true _ _ _ (proj1 (proj2 Hfind))) as (data & Hd & Hwt).
    simpl. rewrite Hd. simpl. repeat split; try apply Hfind; auto.
    rewrite (Hagree e data (proj1 Hfind) Hd). exact Hwt.
  - split; [reflexivity|]. now apply find_rev_none.
Qed.

Lemma tidy_drive_agrees : manifest_agrees None tidy_drive.
Proof.
  intros e data He Hd. vm_compute in He.
  destruct He as [<- | [<- | []]]; vm_compute in Hd;
    injection Hd as <-; reflexivity.
Qed.

Lemma latest_for_workout_when_agreeing_witness :
  match latest_for_workout "k" "Bearer k" "push" None tidy_drive with
  | OK answer =>
      latest_among (log_matches "push" tidy_drive) (qualifying None tidy_drive)
        (meta answer)
      /\ file_doc (meta answer) tidy_drive = Some (log answer)
      /\ wt_norm (d_workout_type (log answer)) = "push"
      /\ wt_norm (e_workout_type (meta answer)) = "push"
  | HTTPError status _ =>
      status = 404
      /\ forall e, In e (qualifying None tidy_drive) ->
                   log_matches "push" tidy_drive e = false
  | _ => False
  end.
Proof.
  apply (latest_for_workout_when_agreeing "k" "Bearer k" "push" None tidy_drive);
    [reflexivity | reflexivity | exact tidy_drive_agrees].
Defined.

(** X20. With a cutoff supplied, the lookups by workout type and by muscle
    answer only logs dated strictly before the cutoff, and only logs the
    manifest lists. *)
Theorem lookups_respect_cutoff (API_KEY authorization b : string) (st : Drive) :
  require_auth API_KEY authorization = true ->
  b <> EmptyString ->
  (forall type answer,
     latest_for_workout API_KEY authorization type (Some b) st = OK answer ->
     str_lt (e_date (meta answer)) b /\ In (meta answer) (qualifying None st))
  /\ (forall muscle answer,
        latest_for_muscle API_KEY authorization muscle (Some b) st = OK answer ->
        str_lt (e_date (m_meta answer)) b
        /\ In (m_meta answer) (qualifying None st)).
Proof.
  intros Hauth Hb.
  assert (Hq : forall e, In e (rev (qualifying (Some b) st)) ->
                         str_lt (e_date e) b /\ In e (qualifying None st)).
  { intros e He. apply in_rev in He. unfold qualifying in *.
    destruct (load_manifest_sorted st) as (es & Hload & _). rewrite Hload in *.
    apply (before_cutoff_In b es e Hb) in He. tauto. }
  split.
  - intros type answer. destruct (type_pattern type) eqn:Htype.
    + rewrite (latest_for_workout_eq API_KEY _ _ _ _ Hauth Htype).
      destruct (List.find (is_strict type st) _) as [e|] eqn:H1.
      * intros [= <-]. apply find_some in H1 as [Hin _]. now apply Hq.
      * destruct (List.find (is_relaxed type st) _) as [e|] eqn:H2;
          [|discriminate].
        intros [= <-]. apply find_some in H2 as [Hin _]. now apply Hq.
    + unfold latest_for_workout. rewrite Htype. discriminate.
  - intros muscle answer. unfold latest_for_muscle. rewrite Hauth.
    destruct (load_manifest_sorted st) as (es & Hload & _).
    assert (Hrev : before_cutoff (Some b) es = qualifying (Some b) st)
      by (unfold qualifying; now rewrite Hload).
    rewrite Hload. cbv beta iota zeta delta [negb]. rewrite Hrev, muscle_scan_find.
    destruct (List.find (muscle_hit (norm muscle) st) _) as [e|] eqn:H1;
      [|discriminate].
    intros [= <-]. apply find_some in H1 as [Hin _]. simpl. now apply Hq.
Qed.

Lemma lookups_respect_cutoff_witness :
  (forall type answer,
     latest_for_workout "k" "Bearer k" type (Some "2024-01-02") tidy_drive
     = OK answer ->
     str_lt (e_date (meta answer)) "2024-01-02"
     /\ In (meta answer) (qualifying None tidy_drive))
  /\ (forall muscle answer,
        latest_for_muscle "k" "Bearer k" muscle (Some "2024-01-02") tidy_drive
        = OK answer ->
        str_lt (e_date (m_meta answer)) "2024-01-02"
        /\ In (m_meta answer) (qualifying None tidy_drive)).
Proof.
  apply (lookups_respect_cutoff "k" "Bearer k" "2024-01-02" tidy_drive);
    [reflexivity | discriminate].
Defined.

(** ** More on the manifest *)

Section ManifestAlgebra.

Lemma strict_NoDup (l : list Entry) : StronglySorted date_lt l -> NoDup l.
Proof.
  induction 1 as [|a r Hr IH Hall]; constructor; auto.
  intros Hin. rewrite Forall_forall in Hall.
  apply (str_lt_irrefl (e_date a)). now apply Hall.
Qed.

(** Two strictly ascending lists holding the same entry for every date are
    the same list. *)
Lemma strict_sorted_ext (l1 l2 : list Entry) :
  StronglySorted date_lt l1 -> StronglySorted date_lt l2 ->
  (forall d, last_with_date d l1 = last_with_date d l2) ->
  l1 = l2.
Proof.
  intros H1 H2 Hsame.
  apply (StronglySorted_unique_strong date_lt); auto.
  - intros x1 x2 _ _ Ha Hb. exfalso.
    apply (str_lt_irrefl (e_date x1)). eapply str_lt_trans; eassumption.
  - apply NoDup_Permutation; auto using strict_NoDup.
    intros x. rewrite !list_elem_of_In.
    pose proof (last_with_date_strict l1 (e_date x) x H1) as E1.
    pose proof (last_with_date_strict l2 (e_date x) x H2) as E2.
    rewrite (Hsame (e_date x)) in E1. tauto.
Qed.

Lemma insert_filter_date (d : string) (x : Entry) (l : list Entry) :
  List.filter (fun e => (e_date e =? d)%string) (insert_by_date x l) =
  List.filter (fun e => (e_date e =? d)%string) (x :: l).
Proof.
  induction l as [|y r IH]; [reflexivity|]. cbn [insert_by_date].
  destruct (String.leb (e_date x) (e_date y)) eqn:Hxy; [reflexivity|].
  apply str_not_le_lt in Hxy. cbn [List.filter] in *. rewrite IH.
  destruct (String.eqb_spec (e_date x) d) as [Hx | Hx];
    destruct (String.eqb_spec (e_date y) d) as [Hy | Hy]; try reflexivity.
  exfalso. apply (str_lt_irrefl d). now rewrite <- Hx at 2; rewrite <- Hy.
Qed.

(** [sorted] is stable: the entries of one date keep their order. *)
Lemma sort_by_date_stable (d : string) (l : list Entry) :
  List.filter (fun e => (e_date e =? d)%string) (sort_by_date l) =
  List.filter (fun e => (e_date e =? d)%string) l.
Proof.
  induction l as [|x r IH]; [reflexivity|]. cbn [sort_by_date].
  rewrite insert_filter_date. cbn [List.filter]. now rewrite IH.
Qed.

Lemma endswith_refl (s : string) : endswith s s = true.
Proof. destruct s; simpl; now rewrite ?Ascii.eqb_refl, ?String.eqb_refl. Qed.

Lemma endswith_append (p s : string) : endswith (p ++ s) s = true.
Proof.
  induction p as [|c p IH]; [apply endswith_refl|].
  cbn [String.append endswith]. rewrite IH. apply orb_true_r.
Qed.

End ManifestAlgebra.

(** X15. Upserting into the manifest is idempotent, and upserts for two
    different dates commute: from any folder, the stored entries after
    upserting an entry twice are those after upserting it once, and the
    stored entries after two upserts for different dates do not depend on
    their order. *)
Theorem upsert_idempotent_commutes (st : Drive) (e1 e2 : Entry) :
  (exists sa sb,
     upsert_all [e1; e1] st = Some sa /\ upsert_all [e1] st = Some sb
     /\ stored_entries sa = stored_entries sb)
  /\ (e_date e1 <> e_date e2 ->
      exists sa sb,
        upsert_all [e1; e2] st = Some sa /\ upsert_all [e2; e1] st = Some sb
        /\ stored_entries sa = stored_entries sb).
Proof.
  assert (Hgo : forall es, es <> [] ->
            exists s, upsert_all es st = Some s
              /\ StronglySorted date_lt (stored_entries s)
              /\ forall d, last_with_date d (stored_entries s) =
                           match last_with_date d es with
                           | Some x => Some x
                           | None => last_with_date d (stored_entries st)
                           end).
  { intros es Hes. exact (upsert_all_stored es st (or_introl Hes)). }
  split.
  - destruct (Hgo [e1; e1]) as (sa & Ha & Hsa & Hla); [discriminate|].
    destruct (Hgo [e1]) as (sb & Hb & Hsb & Hlb); [discriminate|].
    exists sa, sb. repeat split; auto.
    apply strict_sorted_ext; auto.
    intros d. rewrite Hla, Hlb. unfold last_with_date. simpl.
    now destruct (e_date e1 =? d)%string.
  - intros Hne.
    destruct (Hgo [e1; e2]) as (sa & Ha & Hsa & Hla); [discriminate|].
    destruct (Hgo [e2; e1]) as (sb & Hb & Hsb & Hlb); [discriminate|].
    exists sa, sb. repeat split; auto.
    apply strict_sorted_ext; auto.
    intros d. rewrite Hla, Hlb. unfold last_with_date. simpl.
    destruct (String.eqb_spec (e_date e1) d) as [H1 | H1];
      destruct (String.eqb_spec (e_date e2) d) as [H2 | H2];
      try reflexivity.
    congruence.
Qed.

Lemma upsert_idempotent_commutes_witness :
  exists sa sb,
    upsert_all [cx_entry "2024-01-05"; tidy_entry "2024-01-01" "legs"]
      tidy_drive = Some sa
    /\ upsert_all [tidy_entry "2024-01-01" "legs"; cx_entry "2024-01-05"]
         tidy_drive = Some sb
    /\ stored_entries sa = stored_entries sb.
Proof.
  apply (upsert_idempotent_commutes tidy_drive (cx_entry "2024-01-05")
           (tidy_entry "2024-01-01" "legs")).
  discriminate.
Defined.

(** X14. Without [index.json], every JSON file named after a date as
    [save_log] names it, the date followed by [.json], is listed by
    [GET /logs/index] under exactly that date. *)
Theorem rebuild_lists_saved_files (API_KEY authorization d : string)
  (st : Drive) (f : DriveFile) :
  require_auth API_KEY authorization = true ->
  _find_file_by_name_in_folder index_name st = None ->
  In f st -> f_json f = true -> f_name f = (d ++ ".json")%string ->
  exists entries e,
    list_logs API_KEY authorization st = OK entries
    /\ In e entries /\ e_date e = d /\ e_file e = (d ++ ".json")%string.
Proof.
  intros Hauth Hnone Hin Hjson Hname.
  unfold list_logs, _load_manifest_entries. rewrite Hauth, Hnone. simpl.
  eexists. exists (entry_of_name (d ++ ".json")).
  split; [reflexivity|]. split; [|split; [apply drop_last5_append | reflexivity]].
  apply sort_by_date_In.
  unfold _list_json_files_in_folder, files_list.
  rewrite rebuild_entries_names, files_from_map.
  apply in_map, filter_In. split.
  - rewrite <- Hname. apply in_map. now apply filter_In.
  - rewrite endswith_append, andb_true_r. apply negb_true_iff, String.eqb_neq.
    rewrite <- Hname. now apply (proj1 (find_None index_name st) Hnone f).
Qed.

Lemma rebuild_lists_saved_files_witness :
  exists entries e,
    list_logs "k" "Bearer k" bare_drive = OK entries
    /\ In e entries /\ e_date e = "2024-01-02"
    /\ e_file e = "2024-01-02.json".
Proof.
  apply (rebuild_lists_saved_files "k" "Bearer k" "2024-01-02" bare_drive
           (json_file "2024-01-02.json" (cx_doc "2024-01-02" "pull" None)));
    [reflexivity | reflexivity | now left | reflexivity | reflexivity].
Defined.

(** X13. With a manifest file, an authorised [GET /logs/index] answers the
    stored entries sorted by date in ascending order: the same entries as
    many times as stored, and those of one date in the order they are
    stored in. *)
Theorem list_logs_sorted_stable (API_KEY authorization : string) (st : Drive)
  (idx : FileMeta) :
  require_auth API_KEY authorization = true ->
  _find_file_by_name_in_folder index_name st = Some idx ->
  exists entries,
    list_logs API_KEY authorization st = OK entries
    /\ StronglySorted date_le entries
    /\ Permutation entries (stored_entries st)
    /\ forall d,
         List.filter (fun e => (e_date e =? d)%string) entries =
         List.filter (fun e => (e_date e =? d)%string) (stored_entries st).
Proof.
  intros Hauth Hidx. unfold list_logs.
  rewrite Hauth, (load_manifest_stored st idx Hidx). simpl.
  eexists. split; [reflexivity|].
  split; [apply sort_by_date_sorted|].
  split; [apply sort_by_date_perm|]. intros d. apply sort_by_date_stable.
Qed.

Lemma list_logs_sorted_stable_witness :
  exists entries,
    list_logs "k" "Bearer k" stale_drive = OK entries
    /\ StronglySorted date_le entries
    /\ Permutation entries (stored_entries stale_drive)
    /\ forall d,
         List.filter (fun e => (e_date e =? d)%string) entries =
         List.filter (fun e => (e_date e =? d)%string)
           (stored_entries stale_drive).
Proof.
  apply (list_logs_sorted_stable "k" "Bearer k" stale_drive
           {| fid := 1; fname := "index.json" |}); reflexivity.
Defined.

(** ** The shape of an accepted date *)

Lemma in_range_digit (lo hi : Z) (c : ascii) :
  in_range lo hi c = true -> is_digit c = true.
Proof.
  unfold in_range. intros H. apply andb_true_iff in H as [H _].
  now apply andb_true_iff in H as [H _].
Qed.

Lemma date_char_digit (c : ascii) : is_digit c = true -> date_char c = true.
Proof. unfold date_char. now intros ->. Qed.

Local Arguments in_range : simpl never.
Local Arguments is_digit : simpl never.
Local Arguments digit_val : simpl never.

Ltac split_guards H :=
  repeat match type of H with
         | context [if ?c then _ else _] =>
             let E := fresh "E" in destruct c eqn:E
         end.

Ltac close_date_char :=
  first [ reflexivity
        | apply date_char_digit;
          first [ assumption
                | eapply in_range_digit; eassumption
                | match goal with
                  | E : _ && is_digit ?b = true |- is_digit ?b = true =>
                      apply andb_true_iff in E; apply E
                  end ] ].

Ltac close_shape :=
  match goal with
  | |- exists pre, String ?a (String ?b ?r) = (pre ++ ?r)%string /\ _ =>
      exists (String a (String b EmptyString)); split; [reflexivity|];
      split; [|simpl; lia];
      unfold date_chars; cbn [list_ascii_of_string forallb];
      rewrite !andb_true_iff; repeat split; close_date_char
  | |- exists pre, String ?a ?r = (pre ++ ?r)%string /\ _ =>
      exists (String a EmptyString); split; [reflexivity|];
      split; [|simpl; lia];
      unfold date_chars; cbn [list_ascii_of_string forallb];
      rewrite !andb_true_iff; repeat split; close_date_char
  end.

Ltac shape_cases H :=
  simpl in H; split_guards H; simpl in H;
  repeat (destruct H as [H | H]); try contradiction;
  injection H as <- <-; close_shape.

Section DateShape.

(** What an alternative of group [m] or [d] consumes: one or two
    characters, digits or, for the day, a leading space. *)
Lemma match_m_shape (r : string) (m : Z) (rest : string) :
  In (m, rest) (match_m r) ->
  exists pre, r = (pre ++ rest)%string /\ date_chars pre = true
              /\ (1 <= String.length pre <= 2)%nat.
Proof.
  intros H. unfold match_m in H.
  destruct r as [|a [|b r]]; [contradiction | |];
    destruct a as [[] [] [] [] [] [] [] []]; shape_cases H.
Qed.

Lemma match_d_shape (r : string) (d : Z) (rest : string) :
  In (d, rest) (match_d r) ->
  exists pre, r = (pre ++ rest)%string /\ date_chars pre = true
              /\ (1 <= String.length pre <= 2)%nat.
Proof.
  intros H. unfold match_d in H.
  destruct r as [|a [|b r]]; [contradiction | |];
    destruct a as [[] [] [] [] [] [] [] []]; shape_cases H.
Qed.

End DateShape.

Section AcceptedDate.

Lemma match_tail_Some (r1 : string) (d : Z) (rest : string) :
  match_tail r1 = Some (d, rest) ->
  exists r2, r1 = String "-" r2 /\ In (d, rest) (match_d r2).
Proof.
  unfold match_tail. destruct r1 as [|a r2]; [discriminate|].
  destruct a as [[] [] [] [] [] [] [] []]; try discriminate.
  intros H. exists r2. split; [reflexivity|].
  destruct (match_d r2) as [|x l]; [discriminate|].
  injection H as ->. now left.
Qed.

Lemma match_md_Some (alts : list (Z * string)) (m d : Z) (rest : string) :
  match_md alts = Some (m, d, rest) ->
  exists r1, In (m, r1) alts /\ match_tail r1 = Some (d, rest).
Proof.
  induction alts as [|[m0 r0] alts IH]; simpl; [discriminate|].
  destruct (match_tail r0) as [[d0 rest0]|] eqn:Ht.
  - intros [= <- <- <-]. exists r0. split; [now left | exact Ht].
  - intros H. destruct (IH H) as (r1 & Hin & Hr1). exists r1. auto.
Qed.

Lemma date_chars_app (a b : string) :
  date_chars (a ++ b) = date_chars a && date_chars b.
Proof.
  unfold date_chars. induction a as [|c a IH]; simpl; [reflexivity|].
  now rewrite IH, andb_assoc.
Qed.

Lemma regex_match_shape (v : string) (y m d : Z) (rest : string) :
  regex_match v = Some (y, m, d, rest) ->
  exists head pm pd,
    v = (head ++ pm ++ String "-" (pd ++ rest))%string
    /\ String.length head = 5%nat /\ date_chars head = true
    /\ date_chars pm = true /\ (1 <= String.length pm <= 2)%nat
    /\ date_chars pd = true /\ (1 <= String.length pd <= 2)%nat.
Proof.
  intros H. unfold regex_match in H.
  destruct v as [|y1 [|y2 [|y3 [|y4 [|c r]]]]]; try discriminate H.
  repeat split_date_char H.
  destruct (is_digit y1 && is_digit y2 && is_digit y3 && is_digit y4) eqn:Hy;
    [|discriminate H].
  rewrite !andb_true_iff in Hy. destruct Hy as [[[H1 H2] H3] H4].
  destruct (match_md (match_m r)) as [[[m' d'] rest']|] eqn:Hmd;
    [|discriminate H].
  injection H as _ <- <- <-.
  apply match_md_Some in Hmd as (r1 & Hm & Ht).
  apply match_tail_Some in Ht as (r2 & -> & Hd).
  apply match_m_shape in Hm as (pm & -> & Hpm & Hlm).
  apply match_d_shape in Hd as (pd & -> & Hpd & Hld).
  exists (String y1 (String y2 (String y3 (String y4 (String "-" EmptyString))))),
         pm, pd.
  split; [reflexivity|]. split; [reflexivity|]. split.
  - unfold date_chars. cbn [list_ascii_of_string forallb].
    rewrite !andb_true_iff.
    repeat split; try (apply date_char_digit; assumption); reflexivity.
  - repeat split; auto; lia.
Qed.

End AcceptedDate.

(** X6. A date the validator accepts is returned as it came, is between
    eight and ten characters long and is made of digits, hyphens and spaces
    only: it holds no quote and no slash, and the file name built from it
    is never [index.json]. *)
Theorem accepted_date_shape (v v' : string) :
  date_iso v = Some v' ->
  v' = v
  /\ date_chars v = true
  /\ (8 <= String.length v <= 10)%nat
  /\ (v ++ ".json")%string <> index_name.
Proof.
  intros H. split; [|split; [|split]].
  - unfold date_iso in H. destruct (strptime_ymd v); congruence.
  - unfold date_iso, strptime_ymd in H.
    destruct (regex_match v) as [[[[y m] d] rest]|] eqn:Hr; [|discriminate H].
    destruct rest; [|discriminate H].
    apply regex_match_shape in Hr
      as (hd & pm & pd & -> & _ & Hh & Hpm & _ & Hpd & _).
    rewrite !date_chars_app. change (String "-" (pd ++ EmptyString))
      with (String "-" EmptyString ++ (pd ++ EmptyString))%string.
    rewrite !date_chars_app, Hh, Hpm, Hpd. reflexivity.
  - unfold date_iso, strptime_ymd in H.
    destruct (regex_match v) as [[[[y m] d] rest]|] eqn:Hr; [|discriminate H].
    destruct rest; [|discriminate H].
    apply regex_match_shape in Hr
      as (hd & pm & pd & -> & Hlh & _ & _ & Hlm & _ & Hld).
    rewrite !length_append. cbn [String.length].
    rewrite length_append. simpl. lia.
  - now apply (date_iso_not_index v v').
Qed.

Lemma accepted_date_shape_witness :
  "2024-01- 5" = "2024-01- 5"
  /\ date_chars "2024-01- 5" = true
  /\ (8 <= String.length "2024-01- 5" <= 10)%nat
  /\ "2024-01- 5.json" <> index_name.
Proof. apply (accepted_date_shape "2024-01- 5" "2024-01- 5"). reflexivity. Defined.

Section Unpadded.

Lemma month_short (m : ascii) (r : string) :
  in_range 1 9 m = true ->
  match_md (match_m (String m (String "-" r))) =
  match head (match_d r) with
  | Some (d, rest) => Some (digit_val m, d, rest)
  | None => None
  end
  /\ match_md (match_m (String "0" (String m (String "-" r)))) =
     match head (match_d r) with
     | Some (d, rest) => Some (digit_val m, d, rest)
     | None => None
     end.
Proof.
  intros Hm. pose proof (in_range_digit _ _ _ Hm) as Hm'.
  each_digit m Hm'; try discriminate Hm;
    split; cbv -[match_d]; destruct (match_d r) as [|[d rest] ?]; reflexivity.
Qed.

Lemma day_short (d : ascii) :
  in_range 1 9 d = true ->
  head (match_d (String d EmptyString)) = Some (digit_val d, EmptyString)
  /\ head (match_d (String " " (String d EmptyString)))
     = Some (digit_val d, EmptyString)
  /\ head (match_d (String "0" (String d EmptyString)))
     = Some (digit_val d, EmptyString).
Proof.
  intros Hd. pose proof (in_range_digit _ _ _ Hd) as Hd'.
  each_digit d Hd'; try discriminate Hd; repeat split.
Qed.

End Unpadded.

(** X5. A month or day below ten may be written without its zero, and
    the day with a space in place of the zero: such a string passes the
    date validator exactly when the numbers it shows are a real calendar
    date, as the padded string does, while the path pattern of
    [GET /logs/by-date] refuses both unpadded forms. *)
Theorem date_iso_unpadded (y1 y2 y3 y4 m d : ascii) :
  is_digit y1 = true -> is_digit y2 = true ->
  is_digit y3 = true -> is_digit y4 = true ->
  in_range 1 9 m = true -> in_range 1 9 d = true ->
  let year := 1000 * digit_val y1 + 100 * digit_val y2
              + 10 * digit_val y3 + digit_val y4 in
  let prefix := fun s => String y1 (String y2 (String y3 (String y4
                           (String "-" s)))) in
  let short := prefix (String m (String "-" (String d EmptyString))) in
  let spaced := prefix (String "0" (String m (String "-"
                          (String " " (String d EmptyString))))) in
  let padded := prefix (String "0" (String m (String "-"
                          (String "0" (String d EmptyString))))) in
  let real := valid_ymd year (digit_val m) (digit_val d) in
  date_iso short = (if real then Some short else None)
  /\ date_iso spaced = (if real then Some spaced else None)
  /\ date_iso padded = (if real then Some padded else None)
  /\ date_pattern short = false
  /\ date_pattern spaced = false
  /\ date_pattern padded = true.
Proof.
  intros H1 H2 H3 H4 Hm Hd year prefix short spaced padded real.
  pose proof (in_range_digit _ _ _ Hm) as Hm'.
  pose proof (in_range_digit _ _ _ Hd) as Hd'.
  destruct (month_short m (String d EmptyString) Hm) as [Ms _].
  destruct (month_short m (String " " (String d EmptyString)) Hm) as [_ Mz1].
  destruct (month_short m (String "0" (String d EmptyString)) Hm) as [_ Mz2].
  destruct (day_short d Hd) as (D1 & D2 & D3).
  split; [|split; [|split; [|split; [|split]]]].
  - unfold date_iso, strptime_ymd, regex_match, short, prefix.
    rewrite H1, H2, H3, H4. cbn [andb]. rewrite Ms, D1.
    fold year. fold real. now destruct real.
  - unfold date_iso, strptime_ymd, regex_match, spaced, prefix.
    rewrite H1, H2, H3, H4. cbn [andb]. rewrite Mz1, D2.
    fold year. fold real. now destruct real.
  - unfold date_iso, strptime_ymd, regex_match, padded, prefix.
    rewrite H1, H2, H3, H4. cbn [andb]. rewrite Mz2, D3.
    fold year. fold real. now destruct real.
  - clear - Hd'. unfold short, prefix. each_digit d Hd'; reflexivity.
  - unfold spaced, prefix, date_pattern. rewrite H1, H2, H3, H4, Hm'.
    reflexivity.
  - unfold padded, prefix, date_pattern. rewrite H1, H2, H3, H4, Hm', Hd'.
    reflexivity.
Qed.

Lemma date_iso_unpadded_witness :
  date_iso "2024-1-5" = (if valid_ymd 2024 1 5 then Some "2024-1-5" else None)
  /\ date_iso "2024-01- 5"
     = (if valid_ymd 2024 1 5 then Some "2024-01- 5" else None)
  /\ date_iso "2024-01-05"
     = (if valid_ymd 2024 1 5 then Some "2024-01-05" else None)
  /\ date_pattern "2024-1-5" = false
  /\ date_pattern "2024-01- 5" = false
  /\ date_pattern "2024-01-05" = true.
Proof.
  apply (date_iso_unpadded "2" "0" "2" "4" "1" "5"); reflexivity.
Defined.

(** ** Reading without a cutoff and by date *)

(** X16. Without a cutoff, and likewise with an empty one, an authorised
    [GET /logs/latest] answers 404 exactly when the manifest lists nothing,
    and otherwise 200 with a listed entry of greatest date together with
    the document of its file, or the empty object when the file is gone. *)
Theorem latest_log_no_cutoff (API_KEY authorization : string)
  (before : option string) (st : Drive) :
  require_auth API_KEY authorization = true ->
  before = None \/ before = Some EmptyString ->
  exists entries,
    _load_manifest_entries st = Some entries
    /\ ((entries = []
         /\ latest_log API_KEY authorization before st
            = HTTPError 404 "No logs found")
        \/ (exists answer,
              latest_log API_KEY authorization before st = OK answer
              /\ In (meta answer) entries
              /\ (forall e, In e entries -> date_le e (meta answer))
              /\ log answer = default empty_doc (file_doc (meta answer) st))).
Proof.
  intros Hauth Hbefore.
  destruct (load_manifest_sorted st) as (es & Hload & Hsorted).
  exists es. split; [exact Hload|].
  rewrite (latest_log_eq API_KEY _ _ _ Hauth). unfold qualifying. rewrite Hload.
  assert (Hall : before_cutoff before es = es)
    by (destruct Hbefore as [-> | ->]; reflexivity).
  rewrite Hall.
  destruct (last es) as [x|] eqn:Hlast.
  - right. eexists. split; [reflexivity|]. simpl.
    split; [now apply last_In|].
    split; [now apply (last_sorted_max es x Hsorted Hlast)|].
    unfold file_doc.
    destruct (_find_file_by_name_in_folder (e_file x) st) as [f|] eqn:Hf;
      reflexivity.
  - left. apply last_None in Hlast. auto.
Qed.

Lemma latest_log_no_cutoff_witness :
  exists entries,
    _load_manifest_entries stale_drive = Some entries
    /\ ((entries = []
         /\ latest_log "k" "Bearer k" (Some "") stale_drive
            = HTTPError 404 "No logs found")
        \/ (exists answer,
              latest_log "k" "Bearer k" (Some "") stale_drive = OK answer
              /\ In (meta answer) entries
              /\ (forall e, In e entries -> date_le e (meta answer))
              /\ log answer
                 = default empty_doc (file_doc (meta answer) stale_drive))).
Proof.
  apply (latest_log_no_cutoff "k" "Bearer k" (Some "") stale_drive);
    [reflexivity | now right].
Defined.

(** X17. An authorised [GET /logs/by-date] for a date of the form the path
    asks for answers the document of the first file named after the date,
    also when several files carry the name, and 404 exactly when no file
    of the folder has the name. *)
Theorem fetch_log_first_file (API_KEY authorization d : string) (st : Drive) :
  require_auth API_KEY authorization = true ->
  date_pattern d = true ->
  match fetch_log API_KEY d authorization st with
  | OK data =>
      exists (i : nat) f,
        st !! i = Some f /\ f_name f = (d ++ ".json")%string
        /\ f_content f = data
        /\ forall (j : nat) g, (j < i)%nat -> st !! j = Some g ->
                               f_name g <> (d ++ ".json")%string
  | HTTPError status detail =>
      status = 404 /\ detail = ("No log for " ++ d)%string
      /\ forall f, In f st -> f_name f <> (d ++ ".json")%string
  | _ => False
  end.
Proof.
  intros Hauth Hpat. unfold fetch_log. rewrite Hpat, Hauth. simpl.
  destruct (_find_file_by_name_in_folder (d ++ ".json") st) as [m|] eqn:Hfind.
  - destruct (find_Some _ _ _ Hfind) as (f & Hf & Hname & _).
    unfold _read_json_file. rewrite Hf.
    exists (fid m), f. repeat split; auto.
    intros j g Hj Hg.
    unfold _find_file_by_name_in_folder, files_list in Hfind.
    destruct (files_from_head_first _ _ _ _ Hfind) as [_ Hfirst].
    apply String.eqb_neq. apply (Hfirst j g); [lia | exact Hg].
  - repeat split. now apply find_None.
Qed.

Lemma fetch_log_first_file_witness :
  match fetch_log "k" "2024-01-02" "Bearer k" cx_drive with
  | OK data =>
      exists (i : nat) f,
        cx_drive !! i = Some f /\ f_name f = "2024-01-02.json"
        /\ f_content f = data
        /\ forall (j : nat) g, (j < i)%nat -> cx_drive !! j = Some g ->
                               f_name g <> "2024-01-02.json"
  | HTTPError status detail =>
      status = 404 /\ detail = "No log for 2024-01-02"
      /\ forall f, In f cx_drive -> f_name f <> "2024-01-02.json"
  | _ => False
  end.
Proof.
  apply (fetch_log_first_file "k" "Bearer k" "2024-01-02" cx_drive);
    reflexivity.
Defined.

